(** * MNSTRY sale watcher: a shallow embedding of [bots/mnstry/src/bot.py]

    The development follows the layout of the Python module: runtime
    values and built-ins first, then configuration, persisted state,
    HTTP helpers, discount detection, ranking, message formatting, the
    poll cycle [run_once] and the retry loop [main].

    Conventions.
    - JSON documents and the Python values obtained from them are terms
      of [json]; Python dictionaries are finite maps ([gmap]), so two
      states are equal exactly when Python's [==] on dicts says so (the
      order of keys in the file text is not modelled).
    - Python floats are IEEE 754 binary64 numbers, given by [spec_float]
      with precision 53 and maximal exponent 1024.
    - Code that can raise returns a [result]; code that talks to the
      file system, the network or the clock is a state transformer over
      [world].
    - Text is a string of bytes, UTF-8 outside ASCII.  The built-ins
      that look into a string ([strip], [lower], [float], [int]) are
      given on ASCII: white space and digits outside ASCII, which the
      interpreter also accepts around and in a numeric literal, are not
      read as such.
    - Writing the state file is taken to succeed, see [save_state].
    - [sorted] is given for keys that [<] orders, see [insert_by]. *)

From Stdlib Require Import ZArith String Ascii List Lia.
From Stdlib Require Import Floats.SpecFloat DecimalString.
From Stdlib Require DecimalPos.
From Stdlib Require Import Sorting.Permutation Sorting.Sorted.
From stdpp Require Import gmap strings list fin_maps.

Set Warnings "-register-all".
Local Open Scope Z_scope.

(** ** Python values *)

Abbreviation float := spec_float.

Inductive json :=
| JNull
| JBool (b : bool)
| JInt (n : Z)
| JFloat (f : float)
| JStr (s : string)
| JList (l : list json)
| JDict (m : gmap string json).

Inductive exn :=
| RequestException
| AttributeError
| TypeError
| ValueError
| OverflowError
| KeyError.

Inductive result (A : Type) :=
| Ok (a : A)
| Raise (e : exn).
Arguments Ok {A} a.
Arguments Raise {A} e.

Definition rbind {A B} (r : result A) (k : A -> result B) : result B :=
  match r with
  | Ok a => k a
  | Raise e => Raise e
  end.

Declare Scope py_scope.
Delimit Scope py_scope with py.
Notation "'let?' x ':=' r 'in' k" := (rbind r (fun x => k))
  (at level 10, x pattern, r at level 100, k at level 200) : py_scope.

(** ** Binary64 arithmetic *)

Module F64.
Definition prec : Z := 53.
Definition emax : Z := 1024.

Definition zero : float := S754_zero false.
Definition of_Z (n : Z) : float := binary_normalize prec emax n 0 false.
Definition hundred : float := Eval vm_compute in of_Z 100.

Definition neg : float -> float := SFopp.
Definition sub : float -> float -> float := SFsub prec emax.
Definition mul : float -> float -> float := SFmul prec emax.
Definition div : float -> float -> float := SFdiv prec emax.
Definition eqb : float -> float -> bool := SFeqb.
Definition ltb : float -> float -> bool := SFltb.
Definition leb : float -> float -> bool := SFleb.

Definition is_nan (x : float) : bool :=
  match x with S754_nan => true | _ => false end.

Definition is_finite (x : float) : bool :=
  match x with S754_zero _ | S754_finite _ _ _ => true | _ => false end.

(** The value [D * 10^E] with sign [sgn], rounded once to nearest-even:
    what [float()] produces for a decimal literal. *)
Definition of_decimal (sgn : bool) (D E : Z) : float :=
  if 0 <=? E
  then binary_normalize prec emax (cond_Zopp sgn (D * 10 ^ E)) 0 sgn
  else
    match D with
    | Z0 => S754_zero sgn
    | _ =>
      let '(q, e, l) := SFdiv_core_binary prec emax D 0 (10 ^ (- E)) 0 in
      binary_round_aux prec emax sgn q e l
    end.

(** [round(|x| * 10^d)] to the nearest integer, ties to even, for a
    finite non-zero [x] with mantissa [m] and exponent [e]. *)
Definition scaled_round (d : Z) (m : positive) (e : Z) : Z :=
  let num := Zpos m * 10 ^ d in
  if 0 <=? e then num * 2 ^ e
  else
    let den := 2 ^ (- e) in
    let q := num / den in
    let r := num mod den in
    match 2 * r ?= den with
    | Lt => q
    | Gt => q + 1
    | Eq => if Z.even q then q else q + 1
    end.

(** Truncation toward zero of a finite non-zero float. *)
Definition trunc (s : bool) (m : positive) (e : Z) : Z :=
  cond_Zopp s (if 0 <=? e then Zpos m * 2 ^ e else Zpos m / 2 ^ (- e)).
End F64.

(** ** Strings *)

Module Str.
Definition chars : string -> list ascii := list_ascii_of_string.
Definition of_chars : list ascii -> string := string_of_list_ascii.

Definition code (c : ascii) : Z := Z.of_N (N_of_ascii c).

Definition is_digit (c : ascii) : bool := (48 <=? code c) && (code c <=? 57).
Definition digit_val (c : ascii) : Z := code c - 48.

(** The ASCII characters [str.strip()] removes: tab to carriage return,
    the four separators (codes 28 to 31) and the space. *)
Definition is_space (c : ascii) : bool :=
  ((9 <=? code c) && (code c <=? 13)) || ((28 <=? code c) && (code c <=? 32)).

(** The characters [int()] skips around a literal, those of C's
    [isspace]: tab to carriage return and the space, not the
    separators. *)
Definition is_c_space (c : ascii) : bool :=
  ((9 <=? code c) && (code c <=? 13)) || (code c =? 32).

Definition lower_char (c : ascii) : ascii :=
  if (65 <=? code c) && (code c <=? 90)
  then ascii_of_N (N_of_ascii c + 32) else c.

Definition lower (s : string) : string := of_chars (map lower_char (chars s)).

(** [s] without its leading characters in the class [sp]. *)
Fixpoint lstrip (sp : ascii -> bool) (s : list ascii) : list ascii :=
  match s with
  | c :: s' => if sp c then lstrip sp s' else s
  | [] => []
  end.

(** [s] without its leading and trailing characters in the class [sp]. *)
Definition strip_chars (sp : ascii -> bool) (s : list ascii) : list ascii :=
  rev (lstrip sp (rev (lstrip sp s))).

Fixpoint starts_with (p s : list ascii) : bool :=
  match p, s with
  | [], _ => true
  | a :: p', b :: s' => Ascii.eqb a b && starts_with p' s'
  | _ :: _, [] => false
  end.

Fixpoint contains_chars (p s : list ascii) : bool :=
  starts_with p s ||
  match s with
  | [] => false
  | _ :: s' => contains_chars p s'
  end.

(** [needle in hay] on Python strings. *)
Definition contains (needle hay : string) : bool :=
  contains_chars (chars needle) (chars hay).

(** [str(n)] for a Python int. *)
Definition of_Z (n : Z) : string := NilZero.string_of_int (Z.to_int n).

(** The number of digits in the decimal numeral of [n]. *)
Definition digits (n : Z) : Z := Z.of_nat (String.length (of_Z (Z.abs n))).

Fixpoint zeros (n : nat) : string :=
  match n with
  | O => EmptyString
  | S n' => String "0" (zeros n')
  end.

(** Left-pad with zeros up to width [n]. *)
Definition zfill (n : nat) (s : string) : string :=
  zeros (n - String.length s) +:+ s.
End Str.

(** ** Numeric literals, as read by [float()] and [int()] *)

Module Literal.
Import Str.

(** Reads [("_"? digit)*], continuing the number [acc] of [cnt] digits. *)
Fixpoint more_digits (acc cnt : Z) (s : list ascii) : Z * Z * list ascii :=
  match s with
  | c :: s' =>
    if is_digit c then more_digits (10 * acc + digit_val c) (cnt + 1) s'
    else if Ascii.eqb c "_" then
      match s' with
      | d :: s'' =>
        if is_digit d then more_digits (10 * acc + digit_val d) (cnt + 1) s''
        else (acc, cnt, s)
      | [] => (acc, cnt, s)
      end
    else (acc, cnt, s)
  | [] => (acc, cnt, [])
  end.

(** Reads [digit ("_"? digit)*]. *)
Definition digitpart (acc cnt : Z) (s : list ascii) : option (Z * Z * list ascii) :=
  match s with
  | c :: s' =>
    if is_digit c then Some (more_digits (10 * acc + digit_val c) (cnt + 1) s')
    else None
  | [] => None
  end.

Definition sign (s : list ascii) : bool * list ascii :=
  match s with
  | c :: s' =>
    if Ascii.eqb c "-" then (true, s')
    else if Ascii.eqb c "+" then (false, s')
    else (false, s)
  | [] => (false, [])
  end.

(** A decimal literal [digits [. [digits]] [e [sign] digits]] or
    [. digits [e [sign] digits]], read as mantissa and power of ten. *)
Definition decimal (s : list ascii) : option (Z * Z) :=
  let '(D, s1, has_int) :=
    match digitpart 0 0 s with
    | Some (d, _, r) => (d, r, true)
    | None => (0, s, false)
    end in
  let after_point :=
    match s1 with
    | c :: s2 =>
      if Ascii.eqb c "." then
        match digitpart D 0 s2 with
        | Some r => Some r
        | None => if has_int then Some (D, 0, s2) else None
        end
      else if has_int then Some (D, 0, s1) else None
    | [] => if has_int then Some (D, 0, s1) else None
    end in
  match after_point with
  | None => None
  | Some (D', k, s3) =>
    match s3 with
    | [] => Some (D', - k)
    | c :: s4 =>
      if Ascii.eqb (lower_char c) "e" then
        let '(eneg, s5) := sign s4 in
        match digitpart 0 0 s5 with
        | Some (x, _, []) => Some (D', cond_Zopp eneg x - k)
        | _ => None
        end
      else None
    end
  end.

(** [float(s.strip())]: [None] stands for the [ValueError] of a
    malformed literal. *)
Definition to_float (s : string) : option float :=
  let '(sgn, body) := sign (strip_chars is_space (chars s)) in
  let word := of_chars (map lower_char body) in
  if String.eqb word "inf" || String.eqb word "infinity"
  then Some (S754_infinity sgn)
  else if String.eqb word "nan" then Some S754_nan
  else
    match decimal body with
    | Some (D, E) => Some (F64.of_decimal sgn D E)
    | None => None
    end.

(** The interpreter's default limit on the number of digits in a
    conversion between [int] and [str]. *)
Definition MAX_STR_DIGITS : Z := 4300.

(** [int(s)] for a string: the white space of C around an optional
    sign and digits, no more of them than the limit allows; [None]
    stands for the [ValueError] raised otherwise. *)
Definition to_int (s : string) : option Z :=
  let '(sgn, body) := sign (strip_chars is_c_space (chars s)) in
  match digitpart 0 0 body with
  | Some (n, cnt, []) =>
    if cnt <=? MAX_STR_DIGITS then Some (cond_Zopp sgn n) else None
  | _ => None
  end.
End Literal.

(** ** Built-ins on JSON values *)

(** [bool(v)] *)
Definition truthy (v : json) : bool :=
  match v with
  | JNull => false
  | JBool b => b
  | JInt n => negb (n =? 0)
  | JFloat (S754_zero _) => false
  | JFloat _ => true
  | JStr s => negb (String.eqb s "")
  | JList l => match l with [] => false | _ => true end
  | JDict m => negb (bool_decide (m = ∅))
  end.

(** [a or b] *)
Definition py_or (a b : json) : json := if truthy a then a else b.

(** [d.get(key, dflt)] on a dictionary. *)
Definition dict_get (m : gmap string json) (key : string) (dflt : json) : json :=
  match m !! key with Some v => v | None => dflt end.

(** [obj.get(key, dflt)]; only dictionaries have a [get] method. *)
Definition py_get (obj : json) (key : string) (dflt : json) : result json :=
  match obj with
  | JDict m => Ok (dict_get m key dflt)
  | _ => Raise AttributeError
  end.

(** The items a [for] loop visits. *)
Definition py_iter (v : json) : result (list json) :=
  match v with
  | JList l => Ok l
  | JDict m => Ok (map (fun kv => JStr (fst kv)) (map_to_list m))
  | JStr s => Ok (map (fun c => JStr (String c EmptyString)) (Str.chars s))
  | JNull | JBool _ | JInt _ | JFloat _ => Raise TypeError
  end.

(** [int(v)]; a string is read as ASCII text. *)
Definition py_int (v : json) : result Z :=
  match v with
  | JInt n => Ok n
  | JBool b => Ok (if b then 1 else 0)
  | JFloat S754_nan => Raise ValueError
  | JFloat (S754_infinity _) => Raise OverflowError
  | JFloat (S754_zero _) => Ok 0
  | JFloat (S754_finite s m e) => Ok (F64.trunc s m e)
  | JStr s => match Literal.to_int s with Some n => Ok n | None => Raise ValueError end
  | JNull | JList _ | JDict _ => Raise TypeError
  end.

(** [format(x, ".<d>f")] *)
Definition format_f (d : nat) (x : float) : string :=
  let render (s : bool) (n : Z) :=
    let scale := 10 ^ Z.of_nat d in
    (if s then "-" else "") +:+ Str.of_Z (n / scale) +:+
    match d with
    | O => ""
    | _ => "." +:+ Str.zfill d (Str.of_Z (n mod scale))
    end in
  match x with
  | S754_nan => "nan"
  | S754_infinity s => if s then "-inf" else "inf"
  | S754_zero s => render s 0
  | S754_finite s m e => render s (F64.scaled_round (Z.of_nat d) m e)
  end.

(** ** The outside world

    The state file, the product feed, the Telegram endpoint and the
    clock.  [w_feed] and [w_telegram] say how the network answers the
    n-th GET and the n-th send; [w_outbox] collects the delivered
    messages and [w_sleeps] the pauses taken, oldest first. *)

Inductive state_file :=
| Absent
| Unreadable
| Stored (v : json).

Inductive fetch_outcome :=
| ConnectionFailed
| Response (status_code : Z) (content_type : option string) (body : option json).

Inductive send_outcome :=
| Delivered
| Rejected
| NoCredentials.

Record world := World {
  w_file : state_file;
  w_feed : string -> nat -> fetch_outcome;
  w_gets : nat;
  w_telegram : nat -> send_outcome;
  w_sends : nat;
  w_outbox : list string;
  w_sleeps : list Z
}.

Definition M (A : Type) : Type := world -> result A * world.

Definition ret {A} (a : A) : M A := fun w => (Ok a, w).

Definition bind {A B} (m : M A) (k : A -> M B) : M B :=
  fun w =>
    match m w with
    | (Ok a, w') => k a w'
    | (Raise e, w') => (Raise e, w')
    end.

Definition lift {A} (r : result A) : M A := fun w => (r, w).

Notation "'let!' x ':=' m 'in' k" := (bind m (fun x => k))
  (at level 10, x pattern, m at level 100, k at level 200) : py_scope.

Local Open Scope py_scope.

Fixpoint foldM {A B} (f : A -> B -> result A) (l : list B) (a : A) : result A :=
  match l with
  | [] => Ok a
  | b :: l' => let? a' := f a b in foldM f l' a'
  end.

(** [time.sleep(seconds)] *)
Definition sleep (seconds : Z) : M unit :=
  fun w =>
    (Ok tt,
     World (w_file w) (w_feed w) (w_gets w) (w_telegram w) (w_sends w)
           (w_outbox w) (w_sleeps w ++ [seconds])).

(** ** Config *)

Definition MNSTRY_BASE : string := "https://mnstry.com".
Definition MNSTRY_HOME : string := MNSTRY_BASE +:+ "/".
Definition MNSTRY_PRODUCTS_JSON : string := MNSTRY_BASE +:+ "/products.json?limit=250".

Definition TOP_N : nat := 5.
Definition NOTIFY_SALE_END : bool := false.
Definition MAX_ATTEMPTS : nat := 3.
Definition RETRY_SLEEP_SECONDS : Z := 3.

(** ** State *)

Definition default_state : json :=
  JDict (<["sale_active" := JBool false]> (<["last_signature" := JStr ""]> ∅)).

(** [if key not in state: state[key] = default], inside the [try] of
    [load_state]; [None] when the statement raises.  Only a dictionary
    accepts the assignment; a list or a string supports the membership
    test but not an assignment under a string key. *)
Definition normalize_key (key : string) (default : json) (state : json) : option json :=
  match state with
  | JDict m =>
    Some (JDict (match m !! key with Some _ => m | None => <[key := default]> m end))
  | JList l =>
    if existsb (fun x => match x with JStr s => String.eqb s key | _ => false end) l
    then Some state else None
  | JStr s => if Str.contains key s then Some state else None
  | JNull | JBool _ | JInt _ | JFloat _ => None
  end.

Definition load_state : M json :=
  fun w =>
    (Ok match w_file w with
        | Absent => default_state
        | Unreadable => default_state
        | Stored state =>
          match normalize_key "sale_active" (JBool false) state with
          | Some state1 =>
            match normalize_key "last_signature" (JStr "") state1 with
            | Some state2 => state2
            | None => default_state
            end
          | None => default_state
          end
        end, w).

(** [json.dump(state, f)] into the truncated file.  The write is taken
    to succeed, so that a cycle that reaches it ends with the state
    stored.  In the program it can still raise (a string that the
    encoding rejects, a file system that refuses the write) and leave a
    partial file; what is proved below about the stored state is about
    the cycles whose write goes through. *)
Definition save_state (state : json) : M unit :=
  fun w =>
    (Ok tt,
     World (Stored state) (w_feed w) (w_gets w) (w_telegram w) (w_sends w)
           (w_outbox w) (w_sleeps w)).

(** [obj[key] = value] *)
Definition py_setitem (obj : json) (key : string) (value : json) : result json :=
  match obj with
  | JDict m => Ok (JDict (<[key := value]> m))
  | _ => Raise TypeError
  end.

(** ** Telegram *)

(** A missing credential is a [KeyError]; a network failure or a
    non-2xx answer ([raise_for_status]) is a [RequestException]. *)
Definition telegram_send (message : string) : M unit :=
  fun w =>
    let outcome := w_telegram w (w_sends w) in
    let delivered :=
      match outcome with
      | Delivered => w_outbox w ++ [message]
      | _ => w_outbox w
      end in
    (match outcome with
     | Delivered => Ok tt
     | Rejected => Raise RequestException
     | NoCredentials => Raise KeyError
     end,
     World (w_file w) (w_feed w) (w_gets w) (w_telegram w) (S (w_sends w))
           delivered (w_sleeps w)).

(** ** HTTP helpers *)

(** Python's [None] and JSON's [null] are the same value, [JNull]. *)
Definition http_get_json (url : string) : M json :=
  fun w =>
    (Ok match w_feed w url (w_gets w) with
        | ConnectionFailed => JNull
        | Response status_code content_type body =>
          if negb (status_code =? 200) then JNull
          else
            let ct := Str.lower (match content_type with Some h => h | None => "" end) in
            if negb (Str.contains "application/json" ct) && negb (Str.contains "json" ct)
            then JNull
            else match body with Some v => v | None => JNull end
        end,
     World (w_file w) (w_feed w) (S (w_gets w)) (w_telegram w) (w_sends w)
           (w_outbox w) (w_sleeps w)).

(** [float(str(value).strip())], [None] on any exception.  [str] of an
    int is its decimal numeral (an int of a parsed document is within
    the digit limit of the conversion); the [repr] of a float reads back
    as the same float; [str] of a bool, a list or a dict is not a
    numeric literal.  A string is read as ASCII text. *)
Definition to_float (value : json) : option float :=
  match value with
  | JNull => None
  | JStr s => Literal.to_float s
  | JInt n => Literal.to_float (Str.of_Z n)
  | JFloat f => Some f
  | JBool b => Literal.to_float (if b then "True" else "False")
  | JList _ | JDict _ => None
  end.

(** ** Discount detection *)

Definition calc_discount (compare_at price : float) : float * float :=
  let discount_abs := F64.sub compare_at price in
  if F64.leb compare_at F64.zero then (discount_abs, F64.zero)
  else
    let discount_pct := F64.mul (F64.div discount_abs compare_at) F64.hundred in
    (discount_abs, discount_pct).

Record Deal := {
  title : json;
  url : string;
  variant_id : Z;
  price : float;
  compare_at : float;
  discount_abs : float;
  discount_pct : float
}.

(** The local variables of [collect_deals] that its loops update. *)
Record scan := Scan {
  deals : list Deal;
  seen_variant_ids : gset Z;
  discounted_products_count : Z;
  discounted_variants_count : Z
}.

(** ** Sample inputs *)

Module Samples.
Definition repr0 : json -> string := fun _ => "".

Definition variant (id : json) (price cap : json) : json :=
  JDict (<["id" := id]> (<["price" := price]> (<["compare_at_price" := cap]> ∅))).

Definition product (t h : string) (variants : list json) : json :=
  JDict (<["title" := JStr t]> (<["handle" := JStr h]> (<["variants" := JList variants]> ∅))).

Definition feed (products : list json) : json :=
  JDict (<["products" := JList products]> ∅).

Definition json_ok (data : json) : fetch_outcome :=
  Response 200 (Some "application/json; charset=utf-8") (Some data).

(** A world that answers every GET with [o] and every send with [s]. *)
Definition steady (f : state_file) (o : fetch_outcome) (s : send_outcome) : world :=
  World f (fun _ _ => o) 0 (fun _ => s) 0 [] [].

Definition state_of (active : bool) (sig : string) : json :=
  JDict (<["sale_active" := JBool active]> (<["last_signature" := JStr sig]> ∅)).

(** One variant, id 1, 40.00 instead of 80.00. *)
Definition shake : json :=
  product "Shake" "shake" [variant (JInt 1) (JStr "40.00") (JStr "80.00")].

Definition http_503 : fetch_outcome := Response 503 (Some "text/html") None.
End Samples.

Section Runtime.

(** Python's [repr] of floats, lists and dicts, to which [str] and the
    f-strings delegate; the program takes it from the interpreter. *)
Variable py_repr : json -> string.

(** [str(v)], also what an f-string field [{v}] renders. *)
Definition py_str (v : json) : string :=
  match v with
  | JStr s => s
  | JInt n => Str.of_Z n
  | JBool b => if b then "True" else "False"
  | JNull => "None"
  | JFloat _ | JList _ | JDict _ => py_repr v
  end.

(** The body of [for v in p.get("variants", []) or []]; the boolean is
    [product_has_discount]. *)
Definition scan_variant (title : json) (url : string)
    (st : scan * bool) (v : json) : result (scan * bool) :=
  let '(sc, product_has_discount) := st in
  let? v_price := py_get v "price" JNull in
  let price := to_float v_price in
  let? v_cap := py_get v "compare_at_price" JNull in
  let cap := to_float v_cap in
  let? variant_id := py_get v "id" JNull in
  match price, cap with
  | Some price, Some cap =>
    let? vid_int := match variant_id with JNull => Ok 0 | _ => py_int variant_id end in
    if bool_decide (vid_int ∈ seen_variant_ids sc) then Ok st
    else
      let seen := seen_variant_ids sc ∪ {[vid_int]} in
      if F64.ltb price cap then
        let '(disc_abs, disc_pct) := calc_discount cap price in
        let d := {| title := title; url := url; variant_id := vid_int;
                    price := price; compare_at := cap;
                    discount_abs := disc_abs; discount_pct := disc_pct |} in
        Ok (Scan (deals sc ++ [d]) seen (discounted_products_count sc)
                 (discounted_variants_count sc + 1), true)
      else
        Ok (Scan (deals sc) seen (discounted_products_count sc)
                 (discounted_variants_count sc), product_has_discount)
  | _, _ => Ok st
  end.

(** The body of [for p in products]. *)
Definition scan_product (sc : scan) (p : json) : result scan :=
  let? p_title := py_get p "title" JNull in
  let title := py_or p_title (JStr "MNSTRY Product") in
  let? p_handle := py_get p "handle" JNull in
  let handle := py_or p_handle (JStr "") in
  let url :=
    if truthy handle then MNSTRY_BASE +:+ "/products/" +:+ py_str handle
    else MNSTRY_HOME in
  let? p_variants := py_get p "variants" (JList []) in
  let? variants := py_iter (py_or p_variants (JList [])) in
  let? (sc', product_has_discount) := foldM (scan_variant title url) variants (sc, false) in
  if product_has_discount
  then Ok (Scan (deals sc') (seen_variant_ids sc') (discounted_products_count sc' + 1)
                (discounted_variants_count sc'))
  else Ok sc'.

Definition collect_deals (products : json) : result (list Deal * Z * Z) :=
  let? items := py_iter products in
  let? sc := foldM scan_product items (Scan [] ∅ 0 0) in
  Ok (deals sc, discounted_products_count sc, discounted_variants_count sc).

(** ** Ranking *)

(** The sort key [(-pct, -abs, price, variant_id)]. *)
Definition rank_key (d : Deal) : float * float * float * Z :=
  (F64.neg (discount_pct d), F64.neg (discount_abs d), price d, variant_id d).

(** [a < b] on key tuples: the first components that are not [==]
    decide; equal tuples are not below each other. *)
Definition key_lt (a b : float * float * float * Z) : bool :=
  let '(a1, a2, a3, a4) := a in
  let '(b1, b2, b3, b4) := b in
  if negb (F64.eqb a1 b1) then F64.ltb a1 b1
  else if negb (F64.eqb a2 b2) then F64.ltb a2 b2
  else if negb (F64.eqb a3 b3) then F64.ltb a3 b3
  else a4 <? b4.

(** [sorted(l, key=key)] is stable and compares keys with [<] only.
    Where [<] orders the keys totally, every such sort returns the list
    computed here: each element is placed in front of the first
    already-sorted element that is not below it.  Where it does not (a
    key holding a NaN compares false with every key), the result of
    [sorted] depends on the comparisons its algorithm happens to make,
    which are not those made here: the two agree on the lists whose
    deals are all [comparable]. *)
Fixpoint insert_by {A} (lt : A -> A -> bool) (x : A) (l : list A) : list A :=
  match l with
  | [] => [x]
  | y :: l' => if lt y x then y :: insert_by lt x l' else x :: l
  end.

Definition sorted {A K} (key : A -> K) (lt : K -> K -> bool) (l : list A) : list A :=
  fold_right (insert_by (fun a b => lt (key a) (key b))) [] l.

Definition rank_deals (deals : list Deal) : list Deal :=
  sorted rank_key key_lt deals.

(** [l[a:b]] for [0 <= a <= b] *)
Definition slice {A} (a b : nat) (l : list A) : list A :=
  firstn (b - a) (skipn a l).

(** [sep.join(parts)] *)
Fixpoint join (sep : string) (parts : list string) : string :=
  match parts with
  | [] => ""
  | [s] => s
  | s :: rest => s +:+ sep +:+ join sep rest
  end.

Definition LF : string := String (ascii_of_nat 10) EmptyString.

Definition format_deal_line (d : Deal) : string :=
  "• " +:+ py_str (title d) +:+ LF +:+
  "  " +:+ format_f 2 (compare_at d) +:+ " → " +:+ format_f 2 (price d) +:+ "  " +:+
  "(-" +:+ format_f 2 (discount_abs d) +:+ " / " +:+ format_f 1 (discount_pct d) +:+ "%)" +:+ LF +:+
  "  " +:+ url d.

(** ** Main *)

Definition len {A} (l : list A) : Z := Z.of_nat (length l).

(** The diagnostic signature of the top deal. *)
Definition signature_of (top : list Deal) : string :=
  match top with
  | [] => ""
  | d0 :: _ =>
    Str.of_Z (variant_id d0) +:+ "|" +:+ format_f 2 (compare_at d0) +:+ ">" +:+
    format_f 2 (price d0)
  end.

Definition message_1 (discounted_products discounted_variants : Z) (top : list Deal) : string :=
  let header_1 :=
    "🚨 MNSTRY Rabattaktion erkannt!" +:+ LF +:+ LF +:+
    "📦 Reduzierte Produkte: " +:+ Str.of_Z discounted_products +:+ LF +:+
    "🏷️ Reduzierte Varianten: " +:+ Str.of_Z discounted_variants +:+ LF +:+
    "🔗 " +:+ MNSTRY_HOME +:+ LF +:+ LF +:+
    "🔥 Top " +:+
    Str.of_Z (match top with [] => Z.of_nat TOP_N | _ => Z.min (Z.of_nat TOP_N) (len top) end) +:+
    " Deals:" +:+ LF in
  let body_1 :=
    match top with
    | [] => "• (keine Details verfügbar)"
    | _ => join (LF +:+ LF) (map format_deal_line top)
    end in
  header_1 +:+ body_1.

Definition message_2 (discounted_variants : Z) (top next_top : list Deal) : string :=
  let remaining_variants := Z.max 0 (discounted_variants - len top) in
  let header_2 :=
    "📩 Weitere Infos:" +:+ LF +:+
    "• Weitere reduzierte Varianten (nach Top " +:+ Str.of_Z (len top) +:+ "): " +:+
    Str.of_Z remaining_variants +:+ LF in
  match next_top with
  | [] => header_2 +:+ LF +:+ "(Keine weiteren Deals in den nächsten Slots.)"
  | _ =>
    (header_2 +:+ LF +:+ "➡️ Nächste Top Deals:" +:+ LF) +:+
    join (LF +:+ LF) (map format_deal_line next_top)
  end.

Definition SALE_END_MESSAGE : string :=
  "✅ MNSTRY: Rabattaktion scheint beendet (keine reduzierten Varianten mehr gefunden).".

Definition run_once : M unit :=
  let! state := load_state in
  let! data := http_get_json MNSTRY_PRODUCTS_JSON in
  if negb (truthy data) then ret tt
  else
    let! d_products := lift (py_get data "products" (JList [])) in
    let products := py_or d_products (JList []) in
    let! (deals, discounted_products, discounted_variants) := lift (collect_deals products) in
    let sale_now := 0 <? len deals in
    let ranked := rank_deals deals in
    let top := slice 0 TOP_N ranked in
    let next_top := slice TOP_N (TOP_N * 2) ranked in
    let signature := signature_of top in
    let! s_active := lift (py_get state "sale_active" (JBool false)) in
    let was_active := truthy s_active in
    let! _ :=
      if negb was_active && sale_now then
        let! _ := telegram_send (message_1 discounted_products discounted_variants top) in
        telegram_send (message_2 discounted_variants top next_top)
      else ret tt in
    let! _ :=
      if was_active && negb sale_now && NOTIFY_SALE_END
      then telegram_send SALE_END_MESSAGE
      else ret tt in
    let! state1 := lift (py_setitem state "sale_active" (JBool sale_now)) in
    let! state2 := lift (py_setitem state1 "last_signature" (JStr signature)) in
    save_state state2.

(** [for attempt in attempts: try: run_once(); return; except ...] *)
Fixpoint main_loop (attempts : list nat) : M unit :=
  match attempts with
  | [] => ret tt
  | attempt :: rest =>
    fun w =>
      match run_once w with
      | (Ok tt, w') => (Ok tt, w')
      | (Raise RequestException, w') =>
        if (attempt =? MAX_ATTEMPTS - 1)%nat then (Raise RequestException, w')
        else (let! _ := sleep (RETRY_SLEEP_SECONDS * (Z.of_nat attempt + 1)) in
              main_loop rest) w'
      | (Raise e, w') =>
        if (attempt =? MAX_ATTEMPTS - 1)%nat then (Raise e, w')
        else (let! _ := sleep RETRY_SLEEP_SECONDS in main_loop rest) w'
      end
  end.

Definition main : M unit := main_loop (seq 0 MAX_ATTEMPTS).

(** ** What a cycle starts from

    The values a run of [run_once] in world [w] works with, named so
    that the statements below can speak about them. *)

(** The state [load_state] hands to the cycle. *)
Definition loaded (w : world) : json :=
  match fst (load_state w) with Ok st => st | Raise _ => JNull end.

(** The previous flag, [bool(state.get("sale_active", False))]. *)
Definition previous_flag (w : world) : result bool :=
  let? v := py_get (loaded w) "sale_active" (JBool false) in Ok (truthy v).

(** The document [http_get_json] returns for the next GET. *)
Definition fetched (w : world) : json :=
  match fst (http_get_json MNSTRY_PRODUCTS_JSON w) with Ok d => d | Raise _ => JNull end.

(** The world after that GET. *)
Definition after_get (w : world) : world := snd (http_get_json MNSTRY_PRODUCTS_JSON w).

(** The outcome of deal extraction on the fetched document. *)
Definition extracted (w : world) : result (list Deal * Z * Z) :=
  let? d_products := py_get (fetched w) "products" (JList []) in
  collect_deals (py_or d_products (JList [])).

(** The fetch step yields no data: the connection failed, the status
    is not 200, the content type does not mention JSON, or the body
    does not parse. *)
Definition no_data (o : fetch_outcome) : Prop :=
  match o with
  | ConnectionFailed => True
  | Response status_code content_type body =>
    status_code <> 200 \/
    (let ct := Str.lower (match content_type with Some h => h | None => "" end) in
     Str.contains "application/json" ct = false /\ Str.contains "json" ct = false) \/
    body = None
  end.

(** World [w] with the state file replaced. *)
Definition with_file (f : state_file) (w : world) : world :=
  World f (w_feed w) (w_gets w) (w_telegram w) (w_sends w) (w_outbox w) (w_sleeps w).

(** The state a completed cycle writes: the loaded dictionary [m] with
    the two fields overwritten. *)
Definition updated (m : gmap string json) (sale_now : bool) (signature : string)
    : gmap string json :=
  <["last_signature" := JStr signature]> (<["sale_active" := JBool sale_now]> m).

(** What [load_state] makes of a stored dictionary: missing fields get
    their defaults. *)
Definition normalized (m : gmap string json) : gmap string json :=
  let m1 :=
    match m !! "sale_active" with
    | Some _ => m
    | None => <["sale_active" := JBool false]> m
    end in
  match m1 !! "last_signature" with
  | Some _ => m1
  | None => <["last_signature" := JStr ""]> m1
  end.

(** The end of a cycle, from the decision to notify to the saved state,
    for a dictionary state [m] and the extracted deals. *)
Definition conclude (m : gmap string json) (ds : list Deal) (dp dv : Z) : M unit :=
  let sale_now := 0 <? len ds in
  let top := slice 0 TOP_N (rank_deals ds) in
  let next_top := slice TOP_N (TOP_N * 2) (rank_deals ds) in
  let was_active := truthy (dict_get m "sale_active" (JBool false)) in
  let! _ :=
    if negb was_active && sale_now then
      let! _ := telegram_send (message_1 dp dv top) in
      telegram_send (message_2 dv top next_top)
    else ret tt in
  let! _ :=
    if was_active && negb sale_now && NOTIFY_SALE_END
    then telegram_send SALE_END_MESSAGE
    else ret tt in
  save_state (JDict (updated m sale_now (signature_of top))).

(** The pause [main] takes after exception [e] in attempt [attempt]
    (counted from 0) before it tries again. *)
Definition backoff (e : exn) (attempt : nat) : Z :=
  match e with
  | RequestException => RETRY_SLEEP_SECONDS * (Z.of_nat attempt + 1)
  | _ => RETRY_SLEEP_SECONDS
  end.

(** ** What the extractor reads

    The feed as [collect_deals] walks it: one entry, with the title and
    the URL of its product, for every variant in listing order; and the
    numbers the extractor takes from a variant. *)

(** The prices and the dedupe key of a variant, when both prices parse
    and the identifier converts. *)
Definition reading (v : json) : option (float * float * Z) :=
  match py_get v "price" JNull, py_get v "compare_at_price" JNull, py_get v "id" JNull with
  | Ok v_price, Ok v_cap, Ok variant_id =>
    match to_float v_price, to_float v_cap,
          match variant_id with JNull => Ok 0 | _ => py_int variant_id end with
    | Some price, Some cap, Ok vid_int => Some (price, cap, vid_int)
    | _, _, _ => None
    end
  | _, _, _ => None
  end.

(** The deal [scan_variant] appends for a discounted variant. *)
Definition make_deal (title : json) (url : string) (price cap : float) (vid_int : Z) : Deal :=
  let '(disc_abs, disc_pct) := calc_discount cap price in
  {| title := title; url := url; variant_id := vid_int;
     price := price; compare_at := cap;
     discount_abs := disc_abs; discount_pct := disc_pct |}.

(** Title, URL and variants of a product, as [scan_product] takes them. *)
Definition product_view (p : json) : result (json * string * list json) :=
  let? p_title := py_get p "title" JNull in
  let title := py_or p_title (JStr "MNSTRY Product") in
  let? p_handle := py_get p "handle" JNull in
  let handle := py_or p_handle (JStr "") in
  let url :=
    if truthy handle then MNSTRY_BASE +:+ "/products/" +:+ py_str handle
    else MNSTRY_HOME in
  let? p_variants := py_get p "variants" (JList []) in
  let? variants := py_iter (py_or p_variants (JList [])) in
  Ok (title, url, variants).

Definition product_entries (p : json) : list (json * string * json) :=
  match product_view p with
  | Ok (title, url, variants) => map (fun v => (title, url, v)) variants
  | Raise _ => []
  end.

Definition entries (products : json) : list (json * string * json) :=
  match py_iter products with
  | Ok items => concat (map product_entries items)
  | Raise _ => []
  end.

(** Entry [i] is the first one in [es] that reads as identifier [k]. *)
Definition first_reading (es : list (json * string * json)) (i : nat)
    (t : json) (u : string) (v : json) (p c : float) (k : Z) : Prop :=
  es !! i = Some (t, u, v) /\
  reading v = Some (p, c, k) /\
  forall j e p' c', (j < i)%nat -> es !! j = Some e -> reading (snd e) <> Some (p', c', k).

(** The deals of a list of entries, given the identifiers seen before. *)
Fixpoint select (seen : gset Z) (es : list (json * string * json)) : list Deal :=
  match es with
  | [] => []
  | (t, u, v) :: es' =>
    match reading v with
    | Some (p, c, k) =>
      if bool_decide (k ∈ seen) then select seen es'
      else if F64.ltb p c then make_deal t u p c k :: select (seen ∪ {[k]}) es'
      else select (seen ∪ {[k]}) es'
    | None => select seen es'
    end
  end.

(** The identifiers seen after a list of entries. *)
Fixpoint seen_after (seen : gset Z) (es : list (json * string * json)) : gset Z :=
  match es with
  | [] => seen
  | (_, _, v) :: es' =>
    match reading v with
    | Some (_, _, k) => seen_after (seen ∪ {[k]}) es'
    | None => seen_after seen es'
    end
  end.

(** The deal the extractor makes of entry [i] of [es], if it makes one,
    the identifiers in [seen] having been met before: the entry reads,
    its identifier is neither in [seen] nor read from an earlier entry,
    and its reference price is strictly above its price. *)
Definition entry_deal (seen : gset Z) (es : list (json * string * json)) (i : nat)
    : option Deal :=
  match es !! i with
  | Some (t, u, v) =>
    match reading v with
    | Some (p, c, k) =>
      if bool_decide (k ∈ seen_after seen (take i es)) then None
      else if F64.ltb p c then Some (make_deal t u p c k) else None
    | None => None
    end
  | None => None
  end.

(** The exceptions that malformed feed data can raise. *)
Definition data_error (e : exn) : bool :=
  match e with
  | AttributeError | TypeError | ValueError | OverflowError => true
  | RequestException | KeyError => false
  end.

(** ** The ranking, as the docstring of [rank_deals] puts it *)

(** [a] ranks before [b]: higher percentage, then higher absolute
    discount, then lower price, then lower variant identifier. *)
Definition ranks_before (a b : Deal) : bool :=
  if negb (F64.eqb (discount_pct a) (discount_pct b))
  then F64.ltb (discount_pct b) (discount_pct a)
  else if negb (F64.eqb (discount_abs a) (discount_abs b))
  then F64.ltb (discount_abs b) (discount_abs a)
  else if negb (F64.eqb (price a) (price b))
  then F64.ltb (price a) (price b)
  else variant_id a <? variant_id b.

(** No field that the ranking compares is NaN. *)
Definition comparable (d : Deal) : bool :=
  negb (F64.is_nan (discount_pct d)) && negb (F64.is_nan (discount_abs d)) &&
  negb (F64.is_nan (price d)).

(** Neither ranks before the other. *)
Definition ties_with (a b : Deal) : bool :=
  negb (ranks_before a b) && negb (ranks_before b a).

(** The position of a float that is not NaN on the number line, as a
    triple compared lexicographically: the two zeros coincide. *)
Definition float_code (x : float) : list Z :=
  match x with
  | S754_infinity true => [-2; 0; 0]
  | S754_finite true m e => [-1; - e; Zneg m]
  | S754_zero _ => [0; 0; 0]
  | S754_finite false m e => [1; e; Zpos m]
  | S754_infinity false => [2; 0; 0]
  | S754_nan => [3; 0; 0]
  end.

Fixpoint lex_cmp (a b : list Z) : comparison :=
  match a, b with
  | [], [] => Eq
  | [], _ :: _ => Lt
  | _ :: _, [] => Gt
  | x :: a', y :: b' =>
    match x ?= y with
    | Eq => lex_cmp a' b'
    | c => c
    end
  end.

Definition deal_code (d : Deal) : list Z :=
  float_code (F64.neg (discount_pct d)) ++ float_code (F64.neg (discount_abs d)) ++
  float_code (price d) ++ [variant_id d].

(** * Properties *)

Lemma no_data_fetched w :
  no_data (w_feed w MNSTRY_PRODUCTS_JSON (w_gets w)) -> truthy (fetched w) = false.
Proof.
  unfold fetched, http_get_json; simpl.
  destruct (w_feed w MNSTRY_PRODUCTS_JSON (w_gets w)) as [|st ct body]; simpl; [done|].
  intros [Hst | [[H1 H2] | Hb]].
  - destruct (Z.eqb_spec st 200); [contradiction | reflexivity].
  - destruct (st =? 200); simpl; [|reflexivity].
    rewrite H1, H2. reflexivity.
  - subst body. destruct (st =? 200); simpl; [|reflexivity].
    destruct (negb _ && negb _); reflexivity.
Qed.

(** A cycle whose fetch is falsy returns at once. *)
Lemma run_once_no_data w :
  truthy (fetched w) = false -> run_once w = (Ok tt, after_get w).
Proof.
  intros H. unfold run_once, bind, fetched, after_get in *.
  simpl in *. rewrite H. reflexivity.
Qed.

(** C3: when the fetch step yields no data, the program ends normally
    after that single GET: nothing is sent, the state file is as it
    was, no pause is taken and no further attempt is made. *)
Theorem no_data_exits_quietly w :
  no_data (w_feed w MNSTRY_PRODUCTS_JSON (w_gets w)) ->
  main w =
    (Ok tt,
     World (w_file w) (w_feed w) (S (w_gets w)) (w_telegram w) (w_sends w)
           (w_outbox w) (w_sleeps w)).
Proof.
  intros H. apply no_data_fetched in H.
  unfold main. simpl. rewrite (run_once_no_data w H). reflexivity.
Qed.

(** *** The poll cycle *)

Lemma previous_flag_dict w b :
  previous_flag w = Ok b ->
  exists m, loaded w = JDict m /\
            b = truthy (dict_get m "sale_active" (JBool false)).
Proof.
  unfold previous_flag. destruct (loaded w); simpl; try discriminate.
  intros [= <-]. eauto.
Qed.

(** The cycle, case by case. *)
Lemma run_once_cases w :
  run_once w =
    if negb (truthy (fetched w)) then (Ok tt, after_get w)
    else
      match extracted w with
      | Raise e => (Raise e, after_get w)
      | Ok (ds, dp, dv) =>
        match loaded w with
        | JDict m => conclude m ds dp dv (after_get w)
        | _ => (Raise AttributeError, after_get w)
        end
      end.
Proof.
  unfold run_once.
  unfold bind at 1. unfold loaded.
  destruct (load_state w) as [r w0] eqn:Hload.
  assert (w0 = w /\ exists st, r = Ok st) as [-> [st ->]].
  { unfold load_state in Hload. injection Hload as <- <-. eauto. }
  unfold bind at 1. unfold extracted, fetched, after_get.
  destruct (http_get_json MNSTRY_PRODUCTS_JSON w) as [[data|e] w1] eqn:Hget.
  2:{ unfold http_get_json in Hget. discriminate. }
  cbn [fst snd].
  destruct (truthy data); cbn [negb]; [|reflexivity].
  unfold bind at 1, lift at 1.
  destruct (py_get data "products" (JList [])) as [dp0|e]; cbn [rbind]; [|reflexivity].
  unfold bind at 1, lift at 1.
  destruct (collect_deals (py_or dp0 (JList []))) as [[[ds dp] dv]|e];
    [|reflexivity].
  destruct st; try reflexivity.
Qed.

Lemma run_once_data w m ds dp dv :
  truthy (fetched w) = true ->
  extracted w = Ok (ds, dp, dv) ->
  loaded w = JDict m ->
  run_once w = conclude m ds dp dv (after_get w).
Proof.
  intros Ht He Hl. rewrite run_once_cases, Ht, He, Hl. reflexivity.
Qed.

Lemma after_get_eq w :
  after_get w =
  World (w_file w) (w_feed w) (S (w_gets w)) (w_telegram w) (w_sends w)
        (w_outbox w) (w_sleeps w).
Proof. reflexivity. Qed.

Lemma updated_sale_active m b s :
  updated m b s !! "sale_active" = Some (JBool b).
Proof.
  unfold updated. rewrite lookup_insert_ne by done. apply lookup_insert_eq.
Qed.

Lemma updated_other m b s k :
  k <> "sale_active" -> k <> "last_signature" -> updated m b s !! k = m !! k.
Proof.
  intros H1 H2. unfold updated. rewrite !lookup_insert_ne by done. reflexivity.
Qed.

Lemma normalized_other m k :
  k <> "sale_active" -> k <> "last_signature" -> normalized m !! k = m !! k.
Proof.
  intros H1 H2. unfold normalized.
  destruct (m !! "sale_active"); destruct (_ !! "last_signature");
    rewrite ?lookup_insert_ne by done; reflexivity.
Qed.

Lemma loaded_dict w m :
  w_file w = Stored (JDict m) -> loaded w = JDict (normalized m).
Proof.
  intros H. unfold loaded, load_state, normalized. cbn [fst]. rewrite H.
  cbn [normalize_key].
  destruct (m !! "sale_active"); cbn [normalize_key];
    destruct (_ !! "last_signature"); reflexivity.
Qed.

(** The end of a cycle never reads the state file: it overwrites it
    when it completes and leaves it alone when a send raises. *)
Lemma conclude_file m ds dp dv f w :
  conclude m ds dp dv (with_file f w) =
    match conclude m ds dp dv w with
    | (Ok u, w') => (Ok u, w')
    | (Raise e, w') => (Raise e, with_file f w')
    end.
Proof.
  unfold conclude, bind, telegram_send, save_state, ret, with_file. cbn [w_file w_feed w_gets w_telegram w_sends w_outbox w_sleeps].
  destruct (negb _ && _); destruct (_ && _ && _);
    cbn [w_file w_feed w_gets w_telegram w_sends w_outbox w_sleeps];
    repeat (match goal with |- context [w_telegram w ?n] => destruct (w_telegram w n) end;
            cbn [w_file w_feed w_gets w_telegram w_sends w_outbox w_sleeps]);
    reflexivity.
Qed.

Lemma conclude_ok m ds dp dv w w' :
  conclude m ds dp dv w = (Ok tt, w') ->
  w_file w' =
    Stored (JDict (updated m (0 <? len ds) (signature_of (slice 0 TOP_N (rank_deals ds))))).
Proof.
  unfold conclude, bind, telegram_send, save_state, ret. cbn [w_file w_feed w_gets w_telegram w_sends w_outbox w_sleeps].
  destruct (negb _ && _); destruct (_ && _ && _);
    cbn [w_file w_feed w_gets w_telegram w_sends w_outbox w_sleeps];
    repeat (match goal with |- context [w_telegram w ?n] => destruct (w_telegram w n) end;
            cbn [w_file w_feed w_gets w_telegram w_sends w_outbox w_sleeps]);
    intros [= <-]; reflexivity.
Qed.

(** C1, amended: on a fetched feed whose extraction completes, (a) with
    the previous flag false and at least one deal, when Telegram accepts
    both sends, exactly the two messages of the sale-start episode are
    sent and the cycle ends in the write of the state with the flag
    true; when Telegram does not accept one of them, the cycle raises
    the exception of that send instead, with at most the first message
    delivered and the state file not written; (b) with the previous flag
    true and no deal, the sale-end notice being disabled, nothing is
    sent and the cycle ends in the write of the state with the flag
    false; (c) with the previous flag equal to the new one, nothing is
    sent and the cycle ends in the write of the state with the same
    flag.  The write is stated as the call of [save_state] on the world
    the sends have left. *)
Theorem transition_exactness w ds dp dv :
  truthy (fetched w) = true ->
  extracted w = Ok (ds, dp, dv) ->
  let top := slice 0 TOP_N (rank_deals ds) in
  let next_top := slice TOP_N (TOP_N * 2) (rank_deals ds) in
  let sent_world (sends : nat) (sent : list string) :=
    World (w_file w) (w_feed w) (S (w_gets w)) (w_telegram w)
          (sends + w_sends w)%nat (w_outbox w ++ sent) (w_sleeps w) in
  let finish (flag : bool) (sent : list string) (st : gmap string json) :=
    run_once w = save_state (JDict st) (sent_world (length sent) sent) /\
    st !! "sale_active" = Some (JBool flag) in
  let raised (o : send_outcome) :=
    match o with Rejected => RequestException | _ => KeyError end in
  (previous_flag w = Ok false -> ds <> [] ->
   match w_telegram w (w_sends w), w_telegram w (S (w_sends w)) with
   | Delivered, Delivered =>
     exists st, finish true [message_1 dp dv top; message_2 dv top next_top] st
   | Delivered, failed =>
     run_once w = (Raise (raised failed), sent_world 2%nat [message_1 dp dv top])
   | failed, _ =>
     run_once w = (Raise (raised failed), sent_world 1%nat [])
   end) /\
  (previous_flag w = Ok true -> ds = [] -> NOTIFY_SALE_END = false ->
   exists st, finish false [] st) /\
  (forall b, previous_flag w = Ok b -> (0 <? len ds) = b ->
   exists st, finish b [] st).
Proof.
  intros Ht He top next_top sent_world finish raised.
  subst finish sent_world raised. cbv beta.
  split; [|split].
  - intros Hp Hne.
    destruct (previous_flag_dict _ _ Hp) as (m & Hl & Hb).
    rewrite (run_once_data w m ds dp dv Ht He Hl). unfold conclude.
    rewrite <- Hb.
    assert (Hnow : (0 <? len ds) = true).
    { destruct ds; [done|]. unfold len. simpl length. apply Z.ltb_lt. lia. }
    rewrite Hnow. simpl andb. cbv iota.
    rewrite after_get_eq.
    unfold bind, telegram_send, save_state, ret; simpl.
    destruct (w_telegram w (w_sends w)); simpl;
      [destruct (w_telegram w (S (w_sends w))); simpl|..];
      rewrite ?app_nil_r; try reflexivity.
    exists (updated m true (signature_of top)). split; [|apply updated_sale_active].
    rewrite <- app_assoc. reflexivity.
  - intros Hp -> _.
    destruct (previous_flag_dict _ _ Hp) as (m & Hl & Hb).
    exists (updated m false (signature_of top)). split; [|apply updated_sale_active].
    rewrite (run_once_data w m [] dp dv Ht He Hl). unfold conclude.
    rewrite <- Hb. rewrite after_get_eq. simpl.
    rewrite app_nil_r. reflexivity.
  - intros b Hp Hnow.
    destruct (previous_flag_dict _ _ Hp) as (m & Hl & Hb).
    exists (updated m b (signature_of top)). split; [|apply updated_sale_active].
    rewrite (run_once_data w m ds dp dv Ht He Hl). unfold conclude.
    rewrite <- Hb, Hnow. rewrite after_get_eq.
    destruct b; simpl; rewrite app_nil_r; reflexivity.
Qed.

(** A completed cycle on a truthy document leaves the updated loaded
    state in the file. *)
Lemma run_once_completed w w1 :
  run_once w = (Ok tt, w1) ->
  truthy (fetched w) = true ->
  exists m ds dp dv,
    loaded w = JDict m /\ extracted w = Ok (ds, dp, dv) /\
    w_file w1 =
      Stored (JDict (updated m (0 <? len ds)
                             (signature_of (slice 0 TOP_N (rank_deals ds))))).
Proof.
  intros Hr Ht. rewrite run_once_cases, Ht in Hr. cbn [negb] in Hr.
  destruct (extracted w) as [[[ds dp] dv]|e]; [|discriminate].
  destruct (loaded w) as [| | | | | |m]; try discriminate.
  exists m, ds, dp, dv. split; [reflexivity|]. split; [reflexivity|].
  eapply conclude_ok; eassumption.
Qed.

Lemma normalized_updated m b s : normalized (updated m b s) = updated m b s.
Proof.
  unfold normalized. rewrite updated_sale_active.
  unfold updated at 1. rewrite lookup_insert_eq. reflexivity.
Qed.

Lemma updated_lookup m b s k :
  updated m b s !! k =
    if decide (k = "last_signature") then Some (JStr s)
    else if decide (k = "sale_active") then Some (JBool b)
    else m !! k.
Proof.
  unfold updated.
  destruct (decide (k = "last_signature")) as [->|H1].
  - apply lookup_insert_eq.
  - rewrite lookup_insert_ne by done.
    destruct (decide (k = "sale_active")) as [->|H2].
    + apply lookup_insert_eq.
    + rewrite lookup_insert_ne by done. reflexivity.
Qed.

Lemma updated_idem m b s : updated (updated m b s) b s = updated m b s.
Proof.
  apply map_eq. intros k. rewrite !updated_lookup.
  repeat case_decide; reflexivity.
Qed.

Lemma extracted_fetched w w' : fetched w' = fetched w -> extracted w' = extracted w.
Proof. unfold extracted. intros ->. reflexivity. Qed.

(** C7: after a completed cycle on a fetched feed, a second cycle on
    the same fetched input, the state now recording [sale_active] true,
    sends nothing and leaves the world as it was but for the GET: the
    file, already holding the flag true, is written back unchanged. *)
Theorem rerun_is_idempotent w w1 :
  run_once w = (Ok tt, w1) ->
  truthy (fetched w) = true ->
  fetched w1 = fetched w ->
  previous_flag w1 = Ok true ->
  run_once w1 =
    (Ok tt,
     World (w_file w1) (w_feed w1) (S (w_gets w1)) (w_telegram w1) (w_sends w1)
           (w_outbox w1) (w_sleeps w1)) /\
  exists st, w_file w1 = Stored (JDict st) /\ st !! "sale_active" = Some (JBool true).
Proof.
  intros Hr Ht Hf Hp.
  destruct (run_once_completed w w1 Hr Ht) as (m & ds & dp & dv & Hl & He & Hfile).
  set (sig := signature_of (slice 0 TOP_N (rank_deals ds))) in *.
  assert (Hl1 : loaded w1 = JDict (updated m (0 <? len ds) sig)).
  { rewrite (loaded_dict w1 _ Hfile). f_equal. apply normalized_updated. }
  assert (Hnow : (0 <? len ds) = true).
  { destruct (previous_flag_dict _ _ Hp) as (m1 & Hm1 & Hb).
    rewrite Hl1 in Hm1. injection Hm1 as <-.
    unfold dict_get in Hb. rewrite updated_sale_active in Hb.
    simpl in Hb. congruence. }
  rewrite Hnow in *.
  split.
  - rewrite (run_once_data w1 (updated m true sig) ds dp dv);
      [| congruence | rewrite (extracted_fetched _ _ Hf); exact He | exact Hl1].
    unfold conclude. unfold dict_get. rewrite updated_sale_active.
    rewrite Hnow. fold sig. rewrite updated_idem.
    rewrite after_get_eq. simpl. rewrite Hfile. reflexivity.
  - eexists. split; [exact Hfile | apply updated_sale_active].
Qed.

Lemma normalized_lookup_sale_active m :
  dict_get (normalized m) "sale_active" (JBool false) =
  dict_get m "sale_active" (JBool false).
Proof.
  unfold dict_get, normalized.
  destruct (m !! "sale_active") as [v|] eqn:Hsa.
  - destruct (m !! "last_signature");
      rewrite ?lookup_insert_ne by done; rewrite Hsa; reflexivity.
  - destruct (<["sale_active":=JBool false]> m !! "last_signature");
      rewrite ?lookup_insert_ne by done; rewrite lookup_insert_eq; reflexivity.
Qed.

(** States that agree outside [last_signature] load to states with the
    same flag and are updated to the same state. *)
Lemma same_but_signature m1 m2 b s :
  delete "last_signature" m1 = delete "last_signature" m2 ->
  dict_get (normalized m1) "sale_active" (JBool false) =
    dict_get (normalized m2) "sale_active" (JBool false) /\
  updated (normalized m1) b s = updated (normalized m2) b s.
Proof.
  intros Hd.
  assert (Hk : forall k, k <> "last_signature" -> m1 !! k = m2 !! k).
  { intros k Hk.
    rewrite <- (lookup_delete_ne m1 "last_signature" k) by done.
    rewrite <- (lookup_delete_ne m2 "last_signature" k) by done.
    rewrite Hd. reflexivity. }
  split.
  - rewrite !normalized_lookup_sale_active. unfold dict_get.
    rewrite (Hk "sale_active") by done. reflexivity.
  - apply map_eq. intros k. rewrite !updated_lookup.
    repeat case_decide; try reflexivity.
    rewrite !normalized_other by done. apply Hk. done.
Qed.

Lemma fetched_with_file f w : fetched (with_file f w) = fetched w.
Proof. reflexivity. Qed.

Lemma after_get_with_file f w : after_get (with_file f w) = with_file f (after_get w).
Proof. reflexivity. Qed.

(** C9: two cycles that start from the same world but for the stored
    state, the two states being dictionaries that agree on every key
    other than [last_signature], end alike: same outcome, same messages
    delivered, same number of sends; and when the cycle, run on a
    fetched feed, completes, the same state is saved. *)
Theorem signature_never_decides w m1 m2 :
  delete "last_signature" m1 = delete "last_signature" m2 ->
  let r1 := run_once (with_file (Stored (JDict m1)) w) in
  let r2 := run_once (with_file (Stored (JDict m2)) w) in
  fst r1 = fst r2 /\
  w_outbox (snd r1) = w_outbox (snd r2) /\
  w_sends (snd r1) = w_sends (snd r2) /\
  (truthy (fetched w) = true -> fst r1 = Ok tt ->
   w_file (snd r1) = w_file (snd r2)).
Proof.
  intros Hd r1 r2. subst r1 r2.
  rewrite !run_once_cases, !fetched_with_file.
  rewrite (extracted_fetched w (with_file (Stored (JDict m1)) w)) by reflexivity.
  rewrite (extracted_fetched w (with_file (Stored (JDict m2)) w)) by reflexivity.
  rewrite (loaded_dict (with_file (Stored (JDict m1)) w) m1) by reflexivity.
  rewrite (loaded_dict (with_file (Stored (JDict m2)) w) m2) by reflexivity.
  destruct (truthy (fetched w)); cbn [negb].
  2:{ repeat split; try reflexivity. intros; discriminate. }
  destruct (extracted w) as [[[ds dp] dv]|e].
  2:{ repeat split; try reflexivity. intros; discriminate. }
  rewrite !after_get_with_file, !conclude_file.
  assert (Hc : conclude (normalized m1) ds dp dv (after_get w) =
               conclude (normalized m2) ds dp dv (after_get w)).
  { unfold conclude.
    destruct (same_but_signature m1 m2 (0 <? len ds)
                (signature_of (slice 0 TOP_N (rank_deals ds))) Hd) as [-> ->].
    reflexivity. }
  rewrite Hc.
  destruct (conclude (normalized m2) ds dp dv (after_get w)) as [[[]|e] w'];
    cbn [fst snd]; repeat split; try reflexivity.
  intros; discriminate.
Qed.

(** C10: when a cycle completes on a stored dictionary, the file holds
    a dictionary again, and every key other than [sale_active] and
    [last_signature] is bound in it exactly as before. *)
Theorem extra_keys_preserved w m :
  w_file w = Stored (JDict m) ->
  fst (run_once w) = Ok tt ->
  exists m',
    w_file (snd (run_once w)) = Stored (JDict m') /\
    forall k, k <> "sale_active" -> k <> "last_signature" -> m' !! k = m !! k.
Proof.
  intros Hfile Hok. rewrite run_once_cases in *.
  rewrite (loaded_dict w m Hfile) in *.
  destruct (truthy (fetched w)); cbn [negb] in *.
  2:{ exists m. split; [exact Hfile | reflexivity]. }
  destruct (extracted w) as [[[ds dp] dv]|e]; [|discriminate].
  destruct (conclude (normalized m) ds dp dv (after_get w)) as [[[]|e] w'] eqn:Hc;
    [|discriminate].
  cbn [snd]. eexists. split; [eapply conclude_ok; exact Hc|].
  intros k H1 H2. rewrite updated_other, normalized_other by done. reflexivity.
Qed.

(** *** The retry loop *)

Lemma foldM_raise {A B} (P : exn -> Prop) (f : A -> B -> result A) l a e :
  (forall a b e, f a b = Raise e -> P e) ->
  foldM f l a = Raise e -> P e.
Proof.
  intros Hf. revert a. induction l as [|b l IH]; intros a; simpl; [discriminate|].
  destruct (f a b) as [a'|e'] eqn:Hfa; simpl.
  - apply IH.
  - intros [= <-]. eapply Hf, Hfa.
Qed.

Lemma py_get_raise obj key dflt e :
  py_get obj key dflt = Raise e -> e <> RequestException.
Proof. destruct obj; simpl; intros [= <-]; discriminate. Qed.

Lemma py_iter_raise v e : py_iter v = Raise e -> e <> RequestException.
Proof. destruct v; simpl; intros [= <-]; discriminate. Qed.

Lemma py_int_raise v e : py_int v = Raise e -> e <> RequestException.
Proof.
  destruct v as [| | |f|s| |]; simpl; try (intros [= <-]; discriminate).
  - destruct f; intros [= <-]; discriminate.
  - destruct (Literal.to_int s); intros [= <-]; discriminate.
Qed.

Ltac raise_step H :=
  match type of H with
  | rbind ?r _ = Raise _ =>
    let E := fresh "E" in
    destruct r eqn:E; cbn [rbind] in H;
    [| injection H as <-;
       first [ eapply py_get_raise; eassumption
             | eapply py_iter_raise; eassumption
             | eapply py_int_raise; eassumption
             | eassumption ] ]
  end.

Lemma scan_variant_raise t u st v e :
  scan_variant t u st v = Raise e -> e <> RequestException.
Proof.
  unfold scan_variant. destruct st as [sc b]. intros H.
  do 3 raise_step H.
  destruct (to_float a); [|discriminate].
  destruct (to_float a0); [|discriminate].
  destruct a1; cbn [rbind] in H;
    repeat match type of H with
    | rbind (py_int ?x) _ = Raise _ => raise_step H
    | (if ?c then _ else _) = Raise _ => destruct c
    | (let '(_, _) := ?p in _) = Raise _ => destruct p
    end; discriminate.
Qed.

Lemma scan_product_raise sc p e :
  scan_product sc p = Raise e -> e <> RequestException.
Proof.
  unfold scan_product. intros H.
  do 4 raise_step H.
  destruct (foldM _ _ _) as [[sc' b]|e'] eqn:Hf; cbn [rbind] in H.
  - destruct b; discriminate.
  - injection H as <-.
    eapply (foldM_raise (fun e => e <> RequestException)); [|exact Hf].
    intros. eapply scan_variant_raise; eassumption.
Qed.

Lemma collect_deals_raise products e :
  collect_deals products = Raise e -> e <> RequestException.
Proof.
  unfold collect_deals. intros H. raise_step H.
  destruct (foldM _ _ _) as [sc|e'] eqn:Hf; cbn [rbind] in H; [discriminate|].
  injection H as <-.
  eapply (foldM_raise (fun e => e <> RequestException)); [|exact Hf].
  intros. eapply scan_product_raise; eassumption.
Qed.

Lemma extracted_raise w e : extracted w = Raise e -> e <> RequestException.
Proof.
  unfold extracted. intros H. raise_step H.
  eapply collect_deals_raise, H.
Qed.

Lemma conclude_raise m ds dp dv w w' :
  conclude m ds dp dv w = (Raise RequestException, w') ->
  w_telegram w (w_sends w) = Rejected \/ w_telegram w (S (w_sends w)) = Rejected.
Proof.
  unfold conclude, bind, telegram_send, save_state, ret.
  cbn [w_file w_feed w_gets w_telegram w_sends w_outbox w_sleeps].
  destruct (truthy _); destruct (0 <? len ds);
    cbn [negb andb NOTIFY_SALE_END w_file w_feed w_gets w_telegram w_sends w_outbox w_sleeps];
    repeat (match goal with
            | |- context [w_telegram w ?n] =>
              let E := fresh "E" in destruct (w_telegram w n) eqn:E
            end;
            cbn [w_file w_feed w_gets w_telegram w_sends w_outbox w_sleeps]);
    intros H; try discriminate; auto.
Qed.

(** C5 (as the code has it): [main] makes at most three attempts.  An
    attempt that raises is followed by a pause of [3 * attempt number]
    seconds for a [RequestException] and of 3 seconds for any other
    exception, and by the next attempt; what the third attempt raises
    reaches the caller.  A failed connection in the fetch step is not
    among these: the cycle ends normally.  A [RequestException] can only
    come from a rejected delivery. *)
Theorem bounded_retry :
  (forall w,
     main w =
       match run_once w with
       | (Ok u, w1) => (Ok u, w1)
       | (Raise e1, w1) =>
         match run_once (snd (sleep (backoff e1 0) w1)) with
         | (Ok u, w2) => (Ok u, w2)
         | (Raise e2, w2) => run_once (snd (sleep (backoff e2 1) w2))
         end
       end) /\
  (forall w,
     w_feed w MNSTRY_PRODUCTS_JSON (w_gets w) = ConnectionFailed ->
     run_once w = (Ok tt, after_get w)) /\
  (forall w w',
     run_once w = (Raise RequestException, w') ->
     w_telegram w (w_sends w) = Rejected \/ w_telegram w (S (w_sends w)) = Rejected).
Proof.
  split; [|split].
  - intros w. unfold main. cbn [seq MAX_ATTEMPTS main_loop].
    destruct (run_once w) as [[[]|e1] w1]; [reflexivity|].
    assert (H1 : forall k : M unit,
               (let! _ := sleep (backoff e1 0) in k) w1 =
               k (snd (sleep (backoff e1 0) w1))) by reflexivity.
    replace (match e1 with
             | RequestException => _
             | _ => _
             end)
      with (main_loop [1%nat; 2%nat] (snd (sleep (backoff e1 0) w1))).
    2:{ destruct e1; reflexivity. }
    cbn [main_loop].
    destruct (run_once (snd (sleep (backoff e1 0) w1))) as [[[]|e2] w2]; [reflexivity|].
    replace (match e2 with
             | RequestException => _
             | _ => _
             end)
      with (main_loop [2%nat] (snd (sleep (backoff e2 1) w2))).
    2:{ destruct e2; reflexivity. }
    cbn [main_loop].
    destruct (run_once (snd (sleep (backoff e2 1) w2))) as [[[]|e3] w3]; [reflexivity|].
    destruct e3; reflexivity.
  - intros w Hf. apply run_once_no_data, no_data_fetched. rewrite Hf. exact I.
  - intros w w' H. rewrite run_once_cases in H.
    destruct (truthy (fetched w)); cbn [negb] in H; [|discriminate].
    destruct (extracted w) as [[[ds dp] dv]|e] eqn:He.
    + destruct (loaded w); try discriminate.
      apply conclude_raise in H. exact H.
    + injection H as -> _. exfalso. eapply extracted_raise; [exact He | reflexivity].
Qed.

(** *** Deal extraction *)

Lemma select_app seen es1 es2 :
  select seen (es1 ++ es2) = select seen es1 ++ select (seen_after seen es1) es2.
Proof.
  revert seen. induction es1 as [|[[t u] v] es1 IH]; intros seen; simpl; [reflexivity|].
  destruct (reading v) as [[[p c] k]|]; [|apply IH].
  destruct (bool_decide (k ∈ seen)) eqn:Hk.
  - rewrite IH. f_equal. f_equal.
    apply bool_decide_eq_true in Hk. f_equal. set_solver.
  - destruct (F64.ltb p c); rewrite IH; reflexivity.
Qed.

Lemma seen_after_app seen es1 es2 :
  seen_after seen (es1 ++ es2) = seen_after (seen_after seen es1) es2.
Proof.
  revert seen. induction es1 as [|[[t u] v] es1 IH]; intros seen; simpl; [reflexivity|].
  destruct (reading v) as [[[p c] k]|]; apply IH.
Qed.

(** One variant: the loop body does what [select] and [seen_after] say. *)
Lemma scan_variant_select t u sc b v sc' b' :
  scan_variant t u (sc, b) v = Ok (sc', b') ->
  deals sc' = deals sc ++ select (seen_variant_ids sc) [(t, u, v)] /\
  seen_variant_ids sc' = seen_after (seen_variant_ids sc) [(t, u, v)] /\
  discounted_variants_count sc' - len (deals sc') =
    discounted_variants_count sc - len (deals sc).
Proof.
  cbn [select seen_after]. unfold scan_variant, reading.
  destruct (py_get v "price" JNull) as [vp|]; cbn [rbind]; [|discriminate].
  destruct (py_get v "compare_at_price" JNull) as [vc|]; cbn [rbind]; [|discriminate].
  destruct (py_get v "id" JNull) as [vi|]; cbn [rbind]; [|discriminate].
  destruct (to_float vp) as [p|].
  2:{ intros [= <- <-]. rewrite app_nil_r. auto. }
  destruct (to_float vc) as [c|].
  2:{ intros [= <- <-]. rewrite app_nil_r. auto. }
  destruct (match vi with JNull => Ok 0 | _ => py_int vi end) as [k|]; cbn [rbind];
    [|discriminate].
  destruct (bool_decide (k ∈ seen_variant_ids sc)) eqn:Hk.
  { intros [= <- <-]. rewrite app_nil_r. apply bool_decide_eq_true in Hk.
    split; [reflexivity|]. split; [set_solver | reflexivity]. }
  destruct (F64.ltb p c).
  - unfold make_deal. destruct (calc_discount c p) as [a pct].
    intros [= <- <-]. cbn [deals seen_variant_ids discounted_variants_count].
    split; [reflexivity|]. split; [reflexivity|].
    unfold len. rewrite length_app. simpl. lia.
  - intros [= <- <-]. cbn [deals seen_variant_ids discounted_variants_count].
    rewrite app_nil_r. auto.
Qed.

Lemma scan_variants_select t u vs : forall sc b sc' b',
  foldM (scan_variant t u) vs (sc, b) = Ok (sc', b') ->
  deals sc' = deals sc ++ select (seen_variant_ids sc) (map (fun v => (t, u, v)) vs) /\
  seen_variant_ids sc' =
    seen_after (seen_variant_ids sc) (map (fun v => (t, u, v)) vs) /\
  discounted_variants_count sc' - len (deals sc') =
    discounted_variants_count sc - len (deals sc).
Proof.
  induction vs as [|v vs IH]; intros sc b sc' b'; cbn [foldM map].
  - intros [= <- <-]. rewrite app_nil_r. auto.
  - destruct (scan_variant t u (sc, b) v) as [[sc1 b1]|] eqn:H1; cbn [rbind]; [|discriminate].
    intros H2. apply scan_variant_select in H1 as (Hd1 & Hs1 & Hc1).
    apply IH in H2 as (Hd2 & Hs2 & Hc2).
    change ((t, u, v) :: map (fun v0 => (t, u, v0)) vs)
      with ([(t, u, v)] ++ map (fun v0 => (t, u, v0)) vs).
    rewrite select_app, seen_after_app, <- Hs1, app_assoc, <- Hd1.
    split; [exact Hd2|]. split; [exact Hs2 | lia].
Qed.

Lemma scan_product_select sc p sc' :
  scan_product sc p = Ok sc' ->
  deals sc' = deals sc ++ select (seen_variant_ids sc) (product_entries p) /\
  seen_variant_ids sc' = seen_after (seen_variant_ids sc) (product_entries p) /\
  discounted_variants_count sc' - len (deals sc') =
    discounted_variants_count sc - len (deals sc).
Proof.
  unfold scan_product, product_entries, product_view.
  destruct (py_get p "title" JNull) as [p_title|]; cbn [rbind]; [|discriminate].
  destruct (py_get p "handle" JNull) as [p_handle|]; cbn [rbind]; [|discriminate].
  destruct (py_get p "variants" (JList [])) as [p_variants|]; cbn [rbind]; [|discriminate].
  destruct (py_iter (py_or p_variants (JList []))) as [variants|]; cbn [rbind]; [|discriminate].
  destruct (foldM _ variants (sc, false)) as [[sc1 b1]|] eqn:Hf; cbn [rbind]; [|discriminate].
  apply scan_variants_select in Hf.
  destruct b1; intros [= <-]; exact Hf.
Qed.

Lemma scan_products_select ps : forall sc sc',
  foldM scan_product ps sc = Ok sc' ->
  deals sc' = deals sc ++ select (seen_variant_ids sc) (concat (map product_entries ps)) /\
  discounted_variants_count sc' - len (deals sc') =
    discounted_variants_count sc - len (deals sc).
Proof.
  induction ps as [|p ps IH]; intros sc sc'; cbn [foldM map concat].
  - intros [= <-]. rewrite app_nil_r. auto.
  - destruct (scan_product sc p) as [sc1|] eqn:H1; cbn [rbind]; [|discriminate].
    intros H2. apply scan_product_select in H1 as (Hd1 & Hs1 & Hc1).
    apply IH in H2 as (Hd2 & Hc2).
    rewrite select_app, <- Hs1, app_assoc, <- Hd1.
    split; [exact Hd2 | lia].
Qed.

(** The extractor returns the deals [select] picks from the entries of
    the feed, and counts them. *)
Lemma collect_deals_select products ds dp dv :
  collect_deals products = Ok (ds, dp, dv) ->
  ds = select ∅ (entries products) /\ dv = len ds.
Proof.
  unfold collect_deals, entries.
  destruct (py_iter products) as [items|]; cbn [rbind]; [|discriminate].
  destruct (foldM scan_product items (Scan [] ∅ 0 0)) as [sc|] eqn:Hf; cbn [rbind];
    [|discriminate].
  intros [= <- <- <-]. apply scan_products_select in Hf as [Hd Hc].
  simpl in Hd, Hc. split; [exact Hd | unfold len in *; simpl in Hc; lia].
Qed.

(** Every deal of [select], and no other, comes from a discounted entry
    that is the first to read as its identifier, this identifier not
    having been seen before. *)
Lemma select_iff es : forall seen d,
  d ∈ select seen es <->
  exists i t u v p c k,
    first_reading es i t u v p c k /\ k ∉ seen /\
    F64.ltb p c = true /\ d = make_deal t u p c k.
Proof.
  induction es as [|[[t0 u0] v0] es IH]; intros seen d; cbn [select].
  { split; [intros H; inversion H|].
    intros (i & t & u & v & p & c & k & (Hi & _) & _). destruct i; discriminate. }
  (* entries of the tail, seen from the whole list *)
  assert (Htail : forall seen' : gset Z,
    seen ⊆ seen' ->
    (forall k, k ∈ seen' -> k ∉ seen -> exists p c, reading v0 = Some (p, c, k)) ->
    (forall p c k, reading v0 = Some (p, c, k) -> k ∈ seen') ->
    (d ∈ select seen' es <->
     exists i t u v p c k,
       first_reading ((t0, u0, v0) :: es) (S i) t u v p c k /\ k ∉ seen /\
       F64.ltb p c = true /\ d = make_deal t u p c k)).
  { intros seen' Hsub Hnew Hread. rewrite IH. split.
    - intros (i & t & u & v & p & c & k & (Hi & Hr & Hfirst) & Hk & Hlt & ->).
      exists i, t, u, v, p, c, k. repeat split; try assumption.
      + intros [|j] e p' c' Hj He.
        * injection He as <-. cbn [snd]. intros Hr0. apply Hk. eapply Hread, Hr0.
        * apply (Hfirst j e p' c'); [lia | exact He].
      + set_solver.
    - intros (i & t & u & v & p & c & k & (Hi & Hr & Hfirst) & Hk & Hlt & ->).
      exists i, t, u, v, p, c, k. repeat split; try assumption.
      + intros j e p' c' Hj He. apply (Hfirst (S j) e p' c'); [lia | exact He].
      + intros Hk'. destruct (Hnew k Hk' Hk) as (p' & c' & Hr0).
        apply (Hfirst 0%nat (t0, u0, v0) p' c'); [lia | reflexivity | exact Hr0]. }
  (* the head entry *)
  assert (Hhead : forall i t u v p c k,
    first_reading ((t0, u0, v0) :: es) i t u v p c k ->
    (i = 0%nat /\ t = t0 /\ u = u0 /\ v = v0) \/ exists i', i = S i').
  { intros [|i'] t u v p c k (Hi & _); [left | right; eauto].
    injection Hi as <- <- <-. auto. }
  destruct (reading v0) as [[[p0 c0] k0]|] eqn:Hr0.
  2:{ rewrite (Htail seen); [| set_solver | set_solver | discriminate].
      split.
      - intros (i & H). exists (S i). exact H.
      - intros (i & t & u & v & p & c & k & Hf & H).
        destruct (Hhead _ _ _ _ _ _ _ Hf) as [(-> & -> & -> & ->)|[i' ->]].
        + destruct Hf as (_ & Hr & _). congruence.
        + exists i', t, u, v, p, c, k. auto. }
  destruct (bool_decide (k0 ∈ seen)) eqn:Hk0.
  { apply bool_decide_eq_true in Hk0.
    rewrite (Htail seen); [| set_solver | set_solver | intros ? ? ? [= <- <- <-]; exact Hk0].
    split.
    - intros (i & H). exists (S i). exact H.
    - intros (i & t & u & v & p & c & k & Hf & Hk & H).
      destruct (Hhead _ _ _ _ _ _ _ Hf) as [(-> & -> & -> & ->)|[i' ->]].
      + destruct Hf as (_ & Hr & _). rewrite Hr0 in Hr. injection Hr as <- <- <-.
        contradiction.
      + exists i', t, u, v, p, c, k. auto. }
  apply bool_decide_eq_false in Hk0.
  assert (Ht : d ∈ select (seen ∪ {[k0]}) es <->
     exists i t u v p c k,
       first_reading ((t0, u0, v0) :: es) (S i) t u v p c k /\ k ∉ seen /\
       F64.ltb p c = true /\ d = make_deal t u p c k).
  { apply Htail; [set_solver | | intros ? ? ? [= <- <- <-]; set_solver].
    intros k Hk Hk'. assert (k = k0) as -> by set_solver. eauto. }
  destruct (F64.ltb p0 c0) eqn:Hlt0.
  - rewrite elem_of_cons, Ht. split.
    + intros [-> | (i & H)].
      * exists 0%nat, t0, u0, v0, p0, c0, k0. repeat split; try assumption.
        intros j e p' c' Hj. lia.
      * exists (S i). exact H.
    + intros (i & t & u & v & p & c & k & Hf & Hk & Hlt & ->).
      destruct (Hhead _ _ _ _ _ _ _ Hf) as [(-> & -> & -> & ->)|[i' ->]].
      * left. destruct Hf as (_ & Hr & _). rewrite Hr0 in Hr.
        injection Hr as <- <- <-. reflexivity.
      * right. exists i', t, u, v, p, c, k. auto.
  - rewrite Ht. split.
    + intros (i & H). exists (S i). exact H.
    + intros (i & t & u & v & p & c & k & Hf & Hk & Hlt & ->).
      destruct (Hhead _ _ _ _ _ _ _ Hf) as [(-> & -> & -> & ->)|[i' ->]].
      * destruct Hf as (_ & Hr & _). rewrite Hr0 in Hr.
        injection Hr as <- <- <-. congruence.
      * exists i', t, u, v, p, c, k. auto.
Qed.

Lemma make_deal_id t u p c k : variant_id (make_deal t u p c k) = k.
Proof. unfold make_deal. destruct (calc_discount c p). reflexivity. Qed.

Lemma make_deal_prices t u p c k :
  price (make_deal t u p c k) = p /\ compare_at (make_deal t u p c k) = c.
Proof. unfold make_deal. destruct (calc_discount c p). auto. Qed.

(** The identifiers of the selected deals are new and pairwise
    different. *)
Lemma select_NoDup es : forall seen,
  NoDup (map variant_id (select seen es)) /\
  forall d, d ∈ select seen es -> variant_id d ∉ seen.
Proof.
  induction es as [|[[t u] v] es IH]; intros seen; cbn [select].
  { split; [constructor | intros d H; inversion H]. }
  destruct (reading v) as [[[p c] k]|]; [|apply IH].
  destruct (bool_decide (k ∈ seen)) eqn:Hk; [apply IH|].
  apply bool_decide_eq_false in Hk.
  destruct (IH (seen ∪ {[k]})) as [Hnd Hnew].
  destruct (F64.ltb p c).
  - split.
    + cbn [map]. rewrite make_deal_id. apply NoDup_cons. split; [|exact Hnd].
      intros Hin. apply list_elem_of_fmap in Hin as (d & -> & Hd).
      apply Hnew in Hd. set_solver.
    + intros d Hd. apply elem_of_cons in Hd as [-> | Hd].
      * rewrite make_deal_id. exact Hk.
      * apply Hnew in Hd. set_solver.
  - split; [exact Hnd|]. intros d Hd. apply Hnew in Hd. set_solver.
Qed.

(** *** Which variants give a deal *)

(** A variant without a usable price is passed over: the state is as
    before and nothing is raised. *)
Lemma scan_variant_skips t u st m :
  to_float (dict_get m "price" JNull) = None \/
  to_float (dict_get m "compare_at_price" JNull) = None ->
  scan_variant t u st (JDict m) = Ok st.
Proof.
  intros H. unfold scan_variant. destruct st as [sc b]. cbn [py_get rbind].
  destruct H as [-> | ->]; [reflexivity|].
  destruct (to_float (dict_get m "price" JNull)); reflexivity.
Qed.

(** A variant that reads is scanned without an exception, and is
    dropped when its identifier has been seen. *)
Lemma scan_variant_reads t u sc b v p c k :
  reading v = Some (p, c, k) ->
  (exists st', scan_variant t u (sc, b) v = Ok st') /\
  (k ∈ seen_variant_ids sc -> scan_variant t u (sc, b) v = Ok (sc, b)).
Proof.
  unfold reading, scan_variant. intros Hr.
  destruct (py_get v "price" JNull) as [vp|]; cbn [rbind]; [|discriminate].
  destruct (py_get v "compare_at_price" JNull) as [vc|]; cbn [rbind]; [|discriminate].
  destruct (py_get v "id" JNull) as [vi|]; cbn [rbind]; [|discriminate].
  destruct (to_float vp) as [p'|]; [|discriminate].
  destruct (to_float vc) as [c'|]; [|discriminate].
  destruct (match vi with JNull => Ok 0 | _ => py_int vi end) as [k'|]; [|discriminate].
  injection Hr as -> -> ->. cbn [rbind]. split.
  - destruct (bool_decide _); [eauto|].
    destruct (F64.ltb p c); [destruct (calc_discount c p)|]; eauto.
  - intros Hk. rewrite bool_decide_eq_true_2 by exact Hk. reflexivity.
Qed.

(** Two first readings of one identifier are the same entry. *)
Lemma first_reading_unique es i j t u v p c t' u' v' p' c' k :
  first_reading es i t u v p c k -> first_reading es j t' u' v' p' c' k ->
  i = j /\ t = t' /\ u = u' /\ v = v' /\ p = p' /\ c = c'.
Proof.
  intros (Hi & Hr & Hfirst) (Hj & Hr' & Hfirst').
  assert (E : i = j).
  { destruct (Nat.lt_trichotomy i j) as [Hlt | [E | Hlt]]; [|exact E|].
    - exfalso. exact (Hfirst' i (t, u, v) p c Hlt Hi Hr).
    - exfalso. exact (Hfirst j (t', u', v') p' c' Hlt Hj Hr'). }
  subst j. rewrite Hi in Hj. injection Hj as <- <- <-.
  rewrite Hr in Hr'. injection Hr' as <- <-. auto 6.
Qed.

(** C2, amended: when extraction completes, a deal is produced exactly
    for the variants whose two prices parse as floats and whose
    identifier converts, which are the first variant to read as their
    identifier, and whose reference price is strictly above the price;
    so no deal has equal or inverted prices.  A variant with a missing
    or unparseable price is passed over without an exception, and so is
    every variant that reads, whatever its prices. *)
Theorem deal_iff_discounted products ds dp dv :
  collect_deals products = Ok (ds, dp, dv) ->
  (forall d,
     d ∈ ds <->
     exists i t u v p c k,
       first_reading (entries products) i t u v p c k /\
       F64.ltb p c = true /\ d = make_deal t u p c k) /\
  (forall d, d ∈ ds -> F64.ltb (price d) (compare_at d) = true) /\
  (forall t u st m,
     to_float (dict_get m "price" JNull) = None \/
     to_float (dict_get m "compare_at_price" JNull) = None ->
     scan_variant t u st (JDict m) = Ok st) /\
  (forall t u st v p c k,
     reading v = Some (p, c, k) -> exists st', scan_variant t u st v = Ok st').
Proof.
  intros H. apply collect_deals_select in H as [-> _].
  assert (Hiff : forall d,
     d ∈ select ∅ (entries products) <->
     exists i t u v p c k,
       first_reading (entries products) i t u v p c k /\
       F64.ltb p c = true /\ d = make_deal t u p c k).
  { intros d. rewrite select_iff. split.
    - intros (i & t & u & v & p & c & k & Hf & _ & Hlt & Hd). eauto 10.
    - intros (i & t & u & v & p & c & k & Hf & Hlt & Hd).
      exists i, t, u, v, p, c, k. repeat split; try assumption; try apply Hf.
      apply not_elem_of_empty. }
  split; [exact Hiff|]. split; [|split].
  - intros d Hd. apply Hiff in Hd as (i & t & u & v & p & c & k & _ & Hlt & ->).
    destruct (make_deal_prices t u p c k) as [-> ->]. exact Hlt.
  - apply scan_variant_skips.
  - intros t u [sc b] v p c k Hr. exact (proj1 (scan_variant_reads t u sc b v p c k Hr)).
Qed.

(** C4, amended: when extraction completes, no two deals share a variant
    identifier; each deal is made from the first variant of the feed
    that reads as its identifier, and that variant is discounted; the
    first variant to read as an identifier gives the deal of that
    identifier when it is discounted, and when it is not there is no
    deal of that identifier; and a later variant reading as an
    identifier already seen is dropped without an exception. *)
Theorem first_occurrence_wins products ds dp dv :
  collect_deals products = Ok (ds, dp, dv) ->
  NoDup (map variant_id ds) /\
  (forall d,
     d ∈ ds ->
     exists i t u v p c,
       first_reading (entries products) i t u v p c (variant_id d) /\
       F64.ltb p c = true /\ d = make_deal t u p c (variant_id d)) /\
  (forall i t u v p c k,
     first_reading (entries products) i t u v p c k ->
     if F64.ltb p c then make_deal t u p c k ∈ ds
     else forall d, d ∈ ds -> variant_id d <> k) /\
  (forall t u sc b v p c k,
     reading v = Some (p, c, k) -> k ∈ seen_variant_ids sc ->
     scan_variant t u (sc, b) v = Ok (sc, b)).
Proof.
  intros H. apply collect_deals_select in H as [-> _].
  split; [apply select_NoDup|]. split; [|split].
  - intros d Hd. apply select_iff in Hd as (i & t & u & v & p & c & k & Hf & _ & Hlt & ->).
    rewrite make_deal_id. eauto 10.
  - intros i t u v p c k Hf. destruct (F64.ltb p c) eqn:Hlt.
    + apply select_iff. exists i, t, u, v, p, c, k.
      repeat split; try assumption; try apply Hf. apply not_elem_of_empty.
    + intros d Hd Hk.
      apply select_iff in Hd as (j & t' & u' & v' & p' & c' & k' & Hf' & _ & Hlt' & ->).
      rewrite make_deal_id in Hk. subst k'.
      destruct (first_reading_unique _ _ _ _ _ _ _ _ _ _ _ _ _ _ Hf Hf')
        as (_ & _ & _ & _ & -> & ->).
      congruence.
  - intros t u sc b v p c k Hr. exact (proj2 (scan_variant_reads t u sc b v p c k Hr)).
Qed.

(** *** Counting *)

Lemma scan_variant_flag t u sc b v sc' b' :
  scan_variant t u (sc, b) v = Ok (sc', b') ->
  discounted_products_count sc' = discounted_products_count sc /\
  b' = b || (length (deals sc) <? length (deals sc'))%nat.
Proof.
  unfold scan_variant.
  destruct (py_get v "price" JNull) as [vp|]; cbn [rbind]; [|discriminate].
  destruct (py_get v "compare_at_price" JNull) as [vc|]; cbn [rbind]; [|discriminate].
  destruct (py_get v "id" JNull) as [vi|]; cbn [rbind]; [|discriminate].
  assert (Hsame : (length (deals sc) <? length (deals sc))%nat = false)
    by (apply Nat.ltb_ge; lia).
  destruct (to_float vp) as [p|].
  2:{ intros [= <- <-]. rewrite Hsame, orb_false_r. auto. }
  destruct (to_float vc) as [c|].
  2:{ intros [= <- <-]. rewrite Hsame, orb_false_r. auto. }
  destruct (match vi with JNull => Ok 0 | _ => py_int vi end) as [k|]; cbn [rbind];
    [|discriminate].
  destruct (bool_decide (k ∈ seen_variant_ids sc)).
  { intros [= <- <-]. rewrite Hsame, orb_false_r. auto. }
  destruct (F64.ltb p c).
  - destruct (calc_discount c p) as [a pct].
    intros [= <- <-]. cbn [deals discounted_products_count].
    split; [reflexivity|]. rewrite length_app. cbn [length].
    replace (length (deals sc) <? length (deals sc) + 1)%nat with true
      by (symmetry; apply Nat.ltb_lt; lia).
    rewrite orb_true_r. reflexivity.
  - intros [= <- <-]. cbn [deals discounted_products_count].
    rewrite Hsame, orb_false_r. auto.
Qed.

Lemma scan_variants_flag t u vs : forall sc b sc' b',
  foldM (scan_variant t u) vs (sc, b) = Ok (sc', b') ->
  discounted_products_count sc' = discounted_products_count sc /\
  (length (deals sc) <= length (deals sc'))%nat /\
  b' = b || (length (deals sc) <? length (deals sc'))%nat.
Proof.
  induction vs as [|v vs IH]; intros sc b sc' b'; cbn [foldM].
  - intros [= <- <-]. split; [reflexivity|]. split; [lia|].
    replace (length (deals sc) <? length (deals sc))%nat with false
      by (symmetry; apply Nat.ltb_ge; lia).
    rewrite orb_false_r. reflexivity.
  - destruct (scan_variant t u (sc, b) v) as [[sc1 b1]|] eqn:H1; cbn [rbind]; [|discriminate].
    intros H2. pose proof (scan_variant_select _ _ _ _ _ _ _ H1) as (Hd1 & _ & _).
    apply scan_variant_flag in H1 as (Hp1 & Hb1).
    apply IH in H2 as (Hp2 & Hle2 & Hb2).
    assert (Hle1 : (length (deals sc) <= length (deals sc1))%nat)
      by (rewrite Hd1, length_app; lia).
    split; [congruence|]. split; [lia|]. subst b' b1.
    destruct b; cbn [orb]; [reflexivity|].
    destruct (length (deals sc) <? length (deals sc1))%nat eqn:E1;
      destruct (length (deals sc1) <? length (deals sc'))%nat eqn:E2;
      destruct (length (deals sc) <? length (deals sc'))%nat eqn:E3;
      try reflexivity; exfalso;
      repeat match goal with
      | H : (_ <? _)%nat = true |- _ => apply Nat.ltb_lt in H
      | H : (_ <? _)%nat = false |- _ => apply Nat.ltb_ge in H
      end; lia.
Qed.

Lemma scan_product_count sc p sc' :
  scan_product sc p = Ok sc' ->
  (length (deals sc) <= length (deals sc'))%nat /\
  discounted_products_count sc' =
    discounted_products_count sc +
    (if (length (deals sc) <? length (deals sc'))%nat then 1 else 0).
Proof.
  unfold scan_product.
  destruct (py_get p "title" JNull) as [p_title|]; cbn [rbind]; [|discriminate].
  destruct (py_get p "handle" JNull) as [p_handle|]; cbn [rbind]; [|discriminate].
  destruct (py_get p "variants" (JList [])) as [p_variants|]; cbn [rbind]; [|discriminate].
  destruct (py_iter (py_or p_variants (JList []))) as [variants|]; cbn [rbind]; [|discriminate].
  destruct (foldM _ variants (sc, false)) as [[sc1 b1]|] eqn:Hf; cbn [rbind]; [|discriminate].
  apply scan_variants_flag in Hf as (Hp & Hle & Hb). cbn [orb] in Hb.
  destruct b1; intros [= <-]; cbn [deals discounted_products_count];
    rewrite <- Hb; split; lia.
Qed.

Lemma scan_products_count ps : forall sc sc',
  foldM scan_product ps sc = Ok sc' ->
  (length (deals sc) <= length (deals sc'))%nat /\
  0 <= discounted_products_count sc' - discounted_products_count sc /\
  discounted_products_count sc' - discounted_products_count sc <= len ps /\
  discounted_products_count sc' - discounted_products_count sc <=
    len (deals sc') - len (deals sc) /\
  ((length (deals sc) < length (deals sc'))%nat ->
   discounted_products_count sc < discounted_products_count sc').
Proof.
  unfold len.
  induction ps as [|p ps IH]; intros sc sc'; cbn [foldM].
  - intros [= <-]. cbn [length]. repeat split; lia.
  - destruct (scan_product sc p) as [sc1|] eqn:H1; cbn [rbind]; [|discriminate].
    intros H2. apply scan_product_count in H1 as (Hle1 & Hc1).
    apply IH in H2 as (Hle2 & H0 & Hn & Hd & Hpos). cbn [length].
    destruct (length (deals sc) <? length (deals sc1))%nat eqn:E;
      [apply Nat.ltb_lt in E | apply Nat.ltb_ge in E];
      repeat split; try lia.
Qed.

(** *** What the extractor returns *)

(** Every entry of the feed carries a title that is not empty and a
    link into the shop. *)
Lemma entries_title_url products t u v :
  (t, u, v) ∈ entries products ->
  truthy t = true /\ exists path, u = MNSTRY_BASE +:+ "/" +:+ path.
Proof.
  unfold entries. destruct (py_iter products) as [items|]; [|intros H; inversion H].
  intros H. apply list_elem_of_In, in_concat in H as (es & Hes & Hin).
  apply in_map_iff in Hes as (p & <- & _). revert Hin.
  unfold product_entries, product_view.
  destruct (py_get p "title" JNull) as [p_title|]; cbn [rbind]; [|intros []].
  destruct (py_get p "handle" JNull) as [p_handle|]; cbn [rbind]; [|intros []].
  destruct (py_get p "variants" (JList [])) as [p_variants|]; cbn [rbind]; [|intros []].
  destruct (py_iter (py_or p_variants (JList []))) as [variants|]; cbn [rbind]; [|intros []].
  intros Hin. apply in_map_iff in Hin as (v' & [= <- <- <-] & _). split.
  - unfold py_or. destruct (truthy p_title) eqn:E; [exact E | reflexivity].
  - destruct (truthy (py_or p_handle (JStr ""))).
    + exists ("products/" +:+ py_str (py_or p_handle (JStr ""))). reflexivity.
    + exists "". reflexivity.
Qed.

Lemma ltb_not_nan x y : F64.ltb x y = true -> F64.is_nan x = false /\ F64.is_nan y = false.
Proof. destruct x, y; cbn; intros H; try discriminate; auto. Qed.

(** The identifiers seen after some entries are those seen before and
    those the entries read as. *)
Lemma seen_after_elem es : forall (seen : gset Z) k,
  k ∈ seen_after seen es <->
  k ∈ seen \/ exists j e p c, es !! j = Some e /\ reading (snd e) = Some (p, c, k).
Proof.
  induction es as [|[[t u] v] es IH]; intros seen k; cbn [seen_after].
  { split; [auto|]. intros [H | (j & e & p & c & H & _)]; [exact H | destruct j; discriminate]. }
  assert (Htail : (exists j e p c, es !! j = Some e /\ reading (snd e) = Some (p, c, k)) ->
                  exists j e p c, ((t, u, v) :: es) !! j = Some e /\
                                  reading (snd e) = Some (p, c, k)).
  { intros (j & H). exists (S j). exact H. }
  destruct (reading v) as [[[p0 c0] k0]|] eqn:Hr; rewrite IH; split.
  - intros [H | H]; [|right; auto].
    apply elem_of_union in H as [H | H]; [left; exact H|].
    apply elem_of_singleton in H as ->. right.
    exists 0%nat, (t, u, v), p0, c0. split; [reflexivity | exact Hr].
  - intros [H | (j & e & p & c & He & Hk)]; [left; set_solver|].
    destruct j as [|j].
    + injection He as <-. cbn [snd] in Hk. rewrite Hr in Hk. injection Hk as _ _ <-.
      left. set_solver.
    + right. exists j, e, p, c. auto.
  - intros [H | H]; [left; exact H | right; auto].
  - intros [H | (j & e & p & c & He & Hk)]; [left; exact H|].
    destruct j as [|j].
    + injection He as <-. cbn [snd] in Hk. congruence.
    + right. exists j, e, p, c. auto.
Qed.

Lemma omap_seq_S {A} (f : nat -> option A) n :
  omap f (seq 1 n) = omap (fun i => f (S i)) (seq 0 n).
Proof.
  rewrite <- seq_shift. generalize (seq 0 n). intros l.
  induction l as [|i l IH]; [reflexivity|]. cbn. rewrite IH. reflexivity.
Qed.

Lemma omap_ext_all {A B} (f g : A -> option B) (l : list A) :
  (forall x, f x = g x) -> omap f l = omap g l.
Proof.
  intros H. induction l as [|x l IH]; [reflexivity|]. cbn. rewrite H, IH. reflexivity.
Qed.

(** [select] goes through the entries in order and keeps the deal of
    each entry that has one. *)
Lemma select_entry_deals es : forall seen,
  select seen es = omap (entry_deal seen es) (seq 0 (length es)).
Proof.
  induction es as [|[[t u] v] es IH]; intros seen; [reflexivity|].
  assert (Hshift : forall seen' : gset Z,
    seen' = seen_after seen [(t, u, v)] ->
    omap (entry_deal seen ((t, u, v) :: es)) (seq 1 (length es)) = select seen' es).
  { intros seen' ->. rewrite omap_seq_S, IH. apply omap_ext_all. intros i.
    unfold entry_deal. cbn [lookup list_lookup take seen_after].
    destruct (reading v) as [[[p c] k]|]; reflexivity. }
  cbn [length seq omap list_omap select]. unfold entry_deal at 1.
  cbn [lookup list_lookup take seen_after].
  destruct (reading v) as [[[p c] k]|] eqn:Hr.
  - destruct (bool_decide (k ∈ seen)) eqn:Hk.
    + symmetry. apply Hshift. cbn [seen_after]. rewrite Hr.
      apply bool_decide_eq_true in Hk. set_solver.
    + destruct (F64.ltb p c); [f_equal|]; symmetry; apply Hshift; cbn [seen_after];
        rewrite Hr; reflexivity.
  - symmetry. apply Hshift. cbn [seen_after]. rewrite Hr. reflexivity.
Qed.

(** An entry has a deal exactly when it is discounted and the first one
    to read as its identifier. *)
Lemma entry_deal_first es i d :
  entry_deal ∅ es i = Some d <->
  exists t u v p c k,
    first_reading es i t u v p c k /\ F64.ltb p c = true /\ d = make_deal t u p c k.
Proof.
  unfold entry_deal, first_reading. split.
  - destruct (es !! i) as [[[t u] v]|] eqn:Hi; [|discriminate].
    destruct (reading v) as [[[p c] k]|] eqn:Hr; [|discriminate].
    destruct (bool_decide _) eqn:Hk; [discriminate|].
    destruct (F64.ltb p c) eqn:Hlt; [|discriminate]. intros [= <-].
    exists t, u, v, p, c, k. split; [|auto]. split; [reflexivity|]. split; [exact Hr|].
    intros j e p' c' Hj He Hr'. apply bool_decide_eq_false in Hk. apply Hk.
    apply seen_after_elem. right. exists j, e, p', c'. split; [|exact Hr'].
    rewrite lookup_take_lt by exact Hj. exact He.
  - intros (t & u & v & p & c & k & (Hi & Hr & Hfirst) & Hlt & ->).
    rewrite Hi, Hr, Hlt. rewrite bool_decide_eq_false_2; [reflexivity|].
    intros Hk. apply seen_after_elem in Hk as [Hk | (j & e & p' & c' & He & Hr')].
    + exact (not_elem_of_empty k Hk).
    + pose proof (lookup_lt_Some _ _ _ He) as Hj. rewrite length_take in Hj.
      rewrite lookup_take_lt in He by lia.
      apply (Hfirst j e p' c'); [lia | exact He | exact Hr'].
Qed.

(** The deals are, in feed order, the deals of those entries of the feed
    whose two prices parse and whose identifier converts, which are the
    first entry to read as their identifier, and whose reference price
    is strictly above the price: going through the entries from the
    first to the last, each such entry gives one deal, and no other
    entry gives one. *)
Theorem deals_are_first_discounted_readings products ds dp dv :
  collect_deals products = Ok (ds, dp, dv) ->
  let es := entries products in
  ds = omap (entry_deal ∅ es) (seq 0 (length es)) /\
  (forall i d,
     entry_deal ∅ es i = Some d <->
     exists t u v p c k,
       first_reading es i t u v p c k /\ F64.ltb p c = true /\ d = make_deal t u p c k) /\
  (forall d,
     d ∈ ds <->
     exists i t u v p c k,
       first_reading es i t u v p c k /\ F64.ltb p c = true /\ d = make_deal t u p c k).
Proof.
  intros H es. apply collect_deals_select in H as [-> _]. fold es.
  split; [apply select_entry_deals|]. split; [apply entry_deal_first|].
  intros d. rewrite select_iff. split.
  - intros (i & t & u & v & p & c & k & Hf & _ & Hlt & Hd). eauto 10.
  - intros (i & t & u & v & p & c & k & Hf & Hlt & Hd).
    exists i, t, u, v, p, c, k. repeat split; try assumption; try apply Hf. set_solver.
Qed.

(** No two deals share a variant identifier. *)
Theorem deal_identifiers_are_unique products ds dp dv :
  collect_deals products = Ok (ds, dp, dv) -> NoDup (map variant_id ds).
Proof. intros H. apply collect_deals_select in H as [-> _]. apply select_NoDup. Qed.

(** Every deal is strictly discounted, its prices are numbers, its
    discount fields are those [calc_discount] computes from its prices,
    its title is not empty and its link points into the shop. *)
Theorem deals_carry_their_discount products ds dp dv d :
  collect_deals products = Ok (ds, dp, dv) -> d ∈ ds ->
  F64.ltb (price d) (compare_at d) = true /\
  F64.is_nan (price d) = false /\ F64.is_nan (compare_at d) = false /\
  (discount_abs d, discount_pct d) = calc_discount (compare_at d) (price d) /\
  discount_abs d = F64.sub (compare_at d) (price d) /\
  truthy (title d) = true /\
  exists path, url d = MNSTRY_BASE +:+ "/" +:+ path.
Proof.
  intros H Hd. apply collect_deals_select in H as [-> _].
  apply select_iff in Hd as (i & t & u & v & p & c & k & (Hi & _) & _ & Hlt & ->).
  apply list_elem_of_lookup_2, entries_title_url in Hi as [Ht Hu].
  destruct (ltb_not_nan _ _ Hlt) as [Hp Hc].
  destruct (make_deal_prices t u p c k) as [-> ->].
  assert (Hd : (discount_abs (make_deal t u p c k), discount_pct (make_deal t u p c k)) =
               calc_discount c p /\
               title (make_deal t u p c k) = t /\ url (make_deal t u p c k) = u).
  { unfold make_deal. destruct (calc_discount c p). auto. }
  destruct Hd as (Hd & -> & ->).
  split; [exact Hlt|]. split; [exact Hp|]. split; [exact Hc|]. split; [exact Hd|].
  split; [|split; [exact Ht | exact Hu]].
  apply (f_equal fst) in Hd. cbn [fst] in Hd. rewrite Hd.
  unfold calc_discount. destruct (F64.leb c F64.zero); reflexivity.
Qed.

(** The two counters: the variant counter is the number of deals, the
    product counter lies between 0 and the variant counter, does not
    exceed the number of products listed, and is 0 only when there is no
    deal. *)
Theorem discount_counters ps ds dp dv :
  collect_deals (JList ps) = Ok (ds, dp, dv) ->
  dv = len ds /\ 0 <= dp <= dv /\ dp <= len ps /\ (dp = 0 <-> ds = []).
Proof.
  intros H. pose proof (collect_deals_select _ _ _ _ H) as [_ Hdv].
  revert H. unfold collect_deals. cbn [py_iter rbind].
  destruct (foldM scan_product ps (Scan [] ∅ 0 0)) as [sc|] eqn:Hf; cbn [rbind];
    [|discriminate].
  intros [= <- <- <-]. apply scan_products_count in Hf as (_ & H0 & Hn & Hd & Hpos).
  cbn [deals discounted_products_count length] in *. unfold len in *.
  cbn [length] in Hd. split; [exact Hdv|]. split; [lia|]. split; [lia|]. split.
  - intros Hz. destruct (deals sc) as [|d l]; [reflexivity|].
    cbn [length] in Hpos. lia.
  - intros E. rewrite E in Hd. cbn [length] in Hd. lia.
Qed.

(** A variant without a usable price is passed over before its
    identifier is looked at: the scan goes on unchanged, whatever else
    the variant holds. *)
Theorem unpriced_variant_is_skipped t u st m :
  to_float (dict_get m "price" JNull) = None \/
  to_float (dict_get m "compare_at_price" JNull) = None ->
  scan_variant t u st (JDict m) = Ok st.
Proof.
  intros H. unfold scan_variant. destruct st as [sc b]. cbn [py_get rbind].
  destruct H as [-> | ->]; [reflexivity|].
  destruct (to_float (dict_get m "price" JNull)); reflexivity.
Qed.

(** A variant that is not discounted still takes its identifier: a
    later variant that reads as the same identifier is dropped, even
    when it is discounted. *)
Theorem undiscounted_variant_shadows t u sc b v p c k :
  reading v = Some (p, c, k) -> k ∉ seen_variant_ids sc -> F64.ltb p c = false ->
  exists sc',
    scan_variant t u (sc, b) v = Ok (sc', b) /\
    deals sc' = deals sc /\ seen_variant_ids sc' = seen_variant_ids sc ∪ {[k]} /\
    forall t' u' b' v' p' c',
      reading v' = Some (p', c', k) -> scan_variant t' u' (sc', b') v' = Ok (sc', b').
Proof using Type.
  intros Hr Hk Hlt.
  exists (Scan (deals sc) (seen_variant_ids sc ∪ {[k]}) (discounted_products_count sc)
               (discounted_variants_count sc)).
  split; [|split; [reflexivity|split; [reflexivity|]]].
  - revert Hr. unfold reading, scan_variant.
    destruct (py_get v "price" JNull) as [vp|]; cbn [rbind]; [|discriminate].
    destruct (py_get v "compare_at_price" JNull) as [vc|]; cbn [rbind]; [|discriminate].
    destruct (py_get v "id" JNull) as [vi|]; cbn [rbind]; [|discriminate].
    destruct (to_float vp) as [p0|]; [|discriminate].
    destruct (to_float vc) as [c0|]; [|discriminate].
    destruct (match vi with JNull => Ok 0 | _ => py_int vi end) as [k0|]; [|discriminate].
    intros [= -> -> ->]. cbn [rbind].
    rewrite bool_decide_eq_false_2 by exact Hk. rewrite Hlt. reflexivity.
  - intros t' u' b' v' p' c' Hr'. revert Hr'. unfold reading, scan_variant.
    destruct (py_get v' "price" JNull) as [vp|]; cbn [rbind]; [|discriminate].
    destruct (py_get v' "compare_at_price" JNull) as [vc|]; cbn [rbind]; [|discriminate].
    destruct (py_get v' "id" JNull) as [vi|]; cbn [rbind]; [|discriminate].
    destruct (to_float vp) as [p0|]; [|discriminate].
    destruct (to_float vc) as [c0|]; [|discriminate].
    destruct (match vi with JNull => Ok 0 | _ => py_int vi end) as [k0|]; [|discriminate].
    intros [= -> -> ->]. cbn [rbind seen_variant_ids].
    rewrite bool_decide_eq_true_2 by (apply elem_of_union_r, elem_of_singleton; reflexivity).
    reflexivity.
Qed.

(** *** Exceptions of the extractor *)

Lemma py_get_data_error obj key dflt e :
  py_get obj key dflt = Raise e -> data_error e = true.
Proof. destruct obj; cbn; intros [= <-]; reflexivity. Qed.

Lemma py_iter_data_error v e : py_iter v = Raise e -> data_error e = true.
Proof. destruct v; cbn; intros [= <-]; reflexivity. Qed.

Lemma py_int_data_error v e : py_int v = Raise e -> data_error e = true.
Proof.
  destruct v as [| | |f|s| |]; cbn; try (intros [= <-]; reflexivity).
  - destruct f; intros [= <-]; reflexivity.
  - destruct (Literal.to_int s); intros [= <-]; reflexivity.
Qed.

Ltac data_step H :=
  match type of H with
  | rbind ?r _ = Raise _ =>
    let E := fresh "E" in
    destruct r eqn:E; cbn [rbind] in H;
    [| injection H as <-;
       first [ eapply py_get_data_error; eassumption
             | eapply py_iter_data_error; eassumption
             | eapply py_int_data_error; eassumption ] ]
  end.

Lemma scan_variant_data_error t u st v e :
  scan_variant t u st v = Raise e -> data_error e = true.
Proof.
  unfold scan_variant. destruct st as [sc b]. intros H.
  do 3 data_step H.
  destruct (to_float a); [|discriminate].
  destruct (to_float a0); [|discriminate].
  destruct a1; cbn [rbind] in H;
    repeat match type of H with
    | rbind (py_int ?x) _ = Raise _ => data_step H
    | (if ?c then _ else _) = Raise _ => destruct c
    | (let '(_, _) := ?p in _) = Raise _ => destruct p
    end; discriminate.
Qed.

Lemma scan_product_data_error sc p e :
  scan_product sc p = Raise e -> data_error e = true.
Proof.
  unfold scan_product. intros H.
  do 4 data_step H.
  destruct (foldM _ _ _) as [[sc' b]|e'] eqn:Hf; cbn [rbind] in H.
  - destruct b; discriminate.
  - injection H as <-.
    eapply (foldM_raise (fun e => data_error e = true)); [|exact Hf].
    intros. eapply scan_variant_data_error; eassumption.
Qed.

Lemma collect_deals_data_error products e :
  collect_deals products = Raise e -> data_error e = true.
Proof.
  unfold collect_deals. intros H. data_step H.
  destruct (foldM _ _ _) as [sc|e'] eqn:Hf; cbn [rbind] in H; [discriminate|].
  injection H as <-.
  eapply (foldM_raise (fun e => data_error e = true)); [|exact Hf].
  intros. eapply scan_product_data_error; eassumption.
Qed.

Lemma extracted_data_error w e : extracted w = Raise e -> data_error e = true.
Proof.
  unfold extracted. intros H. data_step H.
  eapply collect_deals_data_error, H.
Qed.

(** *** What a cycle does to the world *)

(** The end of a cycle: it neither fetches nor pauses, makes at most two
    sends, appends to the outbox only; when it raises, a send has
    failed and the state file is as before; with the previous flag set
    it sends nothing and completes. *)
Lemma conclude_effects m ds dp dv w :
  let r := conclude m ds dp dv w in
  w_feed (snd r) = w_feed w /\ w_gets (snd r) = w_gets w /\
  w_telegram (snd r) = w_telegram w /\ w_sleeps (snd r) = w_sleeps w /\
  (w_sends w <= w_sends (snd r) <= w_sends w + 2)%nat /\
  (exists msgs, w_outbox (snd r) = w_outbox w ++ msgs /\
                (length msgs <= w_sends (snd r) - w_sends w)%nat) /\
  (forall e, fst r = Raise e ->
     w_file (snd r) = w_file w /\ (e = RequestException \/ e = KeyError)) /\
  (truthy (dict_get m "sale_active" (JBool false)) = true ->
   fst r = Ok tt /\ w_sends (snd r) = w_sends w /\ w_outbox (snd r) = w_outbox w).
Proof.
  cbv zeta. unfold conclude, bind, telegram_send, save_state, ret.
  cbn [w_file w_feed w_gets w_telegram w_sends w_outbox w_sleeps].
  destruct (truthy (dict_get m "sale_active" (JBool false))); destruct (0 <? len ds);
    cbn [negb andb NOTIFY_SALE_END w_file w_feed w_gets w_telegram w_sends w_outbox w_sleeps];
    repeat (match goal with
            | |- context [w_telegram w ?n] => destruct (w_telegram w n)
            end;
            cbn [w_file w_feed w_gets w_telegram w_sends w_outbox w_sleeps]);
    cbn [fst snd w_file w_feed w_gets w_telegram w_sends w_outbox w_sleeps];
    (split; [reflexivity|]); (split; [reflexivity|]); (split; [reflexivity|]);
    (split; [reflexivity|]); (split; [lia|]);
    (split;
     [ first [ exists []; split; [symmetry; apply app_nil_r | cbn [length]; lia]
             | rewrite <- ?app_assoc; eexists; split;
               [reflexivity | cbn [length app]; lia] ]
     | ]);
    (split;
     [ intros e He;
       first [ discriminate He | injection He as <-; split; [reflexivity | auto] ]
     | intros Hq; first [ discriminate Hq | repeat split; reflexivity ] ]).
Qed.

Lemma run_once_footprint w :
  let w' := snd (run_once w) in
  w_gets w' = S (w_gets w) /\ w_sleeps w' = w_sleeps w /\
  w_feed w' = w_feed w /\ w_telegram w' = w_telegram w /\
  (w_sends w <= w_sends w' <= w_sends w + 2)%nat /\
  exists msgs, w_outbox w' = w_outbox w ++ msgs /\
               (length msgs <= w_sends w' - w_sends w)%nat.
Proof.
  assert (Hquiet : forall r : result unit,
    let w' := snd (r, after_get w) in
    w_gets w' = S (w_gets w) /\ w_sleeps w' = w_sleeps w /\
    w_feed w' = w_feed w /\ w_telegram w' = w_telegram w /\
    (w_sends w <= w_sends w' <= w_sends w + 2)%nat /\
    exists msgs, w_outbox w' = w_outbox w ++ msgs /\
                 (length msgs <= w_sends w' - w_sends w)%nat).
  { intros r. cbn. repeat split; try lia.
    exists []. split; [symmetry; apply app_nil_r | cbn; lia]. }
  rewrite run_once_cases.
  destruct (negb (truthy (fetched w))); [apply Hquiet|].
  destruct (extracted w) as [[[ds dp] dv]|e]; [|apply Hquiet].
  destruct (loaded w) as [| | | | | |m]; try apply Hquiet.
  destruct (conclude_effects m ds dp dv (after_get w))
    as (Hf & Hg & Ht & Hs & Hn & Ho & _).
  cbv zeta. rewrite Hf, Hg, Ht, Hs. repeat split; try apply Hn. exact Ho.
Qed.

Lemma run_once_raise_file w e w' :
  run_once w = (Raise e, w') -> w_file w' = w_file w.
Proof.
  rewrite run_once_cases.
  destruct (negb (truthy (fetched w))); [discriminate|].
  destruct (extracted w) as [[[ds dp] dv]|e0]; [|intros [= _ <-]; reflexivity].
  destruct (loaded w) as [| | | | | |m]; try (intros [= _ <-]; reflexivity).
  intros H. destruct (conclude_effects m ds dp dv (after_get w))
    as (_ & _ & _ & _ & _ & _ & Hr & _).
  rewrite H in Hr. destruct (Hr e eq_refl) as [Hfile _]. exact Hfile.
Qed.

(** While the stored flag says that a sale is on, a cycle sends nothing,
    whatever the feed holds, and no delivery error can come up. *)
Theorem active_sale_is_silent w :
  previous_flag w = Ok true ->
  w_sends (snd (run_once w)) = w_sends w /\
  w_outbox (snd (run_once w)) = w_outbox w /\
  fst (run_once w) <> Raise RequestException /\ fst (run_once w) <> Raise KeyError.
Proof.
  intros Hp. apply previous_flag_dict in Hp as (m & Hl & Hb).
  rewrite run_once_cases, Hl.
  destruct (negb (truthy (fetched w))); [cbn; repeat split; discriminate|].
  destruct (extracted w) as [[[ds dp] dv]|e] eqn:He.
  - destruct (conclude_effects m ds dp dv (after_get w))
      as (_ & _ & _ & _ & _ & _ & _ & Hq).
    destruct (Hq (eq_sym Hb)) as (Hr & Hs & Ho).
    rewrite Hs, Ho, Hr. repeat split; discriminate.
  - apply extracted_data_error in He.
    cbn. repeat split; try discriminate; intros [= ->]; discriminate.
Qed.

(** A cycle, whatever its outcome: exactly one GET, no pause, at most
    two sends, and the outbox only grows, by no more messages than sends
    were made. *)
Theorem cycle_footprint w :
  let w' := snd (run_once w) in
  w_gets w' = S (w_gets w) /\ w_sleeps w' = w_sleeps w /\
  w_feed w' = w_feed w /\ w_telegram w' = w_telegram w /\
  (w_sends w <= w_sends w' <= w_sends w + 2)%nat /\
  exists msgs, w_outbox w' = w_outbox w ++ msgs /\
               (length msgs <= w_sends w' - w_sends w)%nat.
Proof. exact (run_once_footprint w). Qed.

(** How the end of a cycle can fail: only in the sale-start episode, on
    the first send, or on the second one after the first message went
    out. *)
Lemma conclude_failure m ds dp dv w e w' :
  conclude m ds dp dv w = (Raise e, w') ->
  let failed := match e with RequestException => Rejected | _ => NoCredentials end in
  truthy (dict_get m "sale_active" (JBool false)) = false /\ ds <> [] /\
  (e = RequestException \/ e = KeyError) /\
  ((w_telegram w (w_sends w) = failed /\ w_outbox w' = w_outbox w) \/
   (w_telegram w (w_sends w) = Delivered /\ w_telegram w (S (w_sends w)) = failed /\
    w_outbox w' = w_outbox w ++ [message_1 dp dv (slice 0 TOP_N (rank_deals ds))])).
Proof.
  cbv zeta. unfold conclude, bind, telegram_send, save_state, ret.
  cbn [w_file w_feed w_gets w_telegram w_sends w_outbox w_sleeps].
  destruct (truthy (dict_get m "sale_active" (JBool false)));
    destruct ds as [|d0 ds']; unfold len; cbn [length];
    try (change (0 <? Z.of_nat (S (length ds'))) with true);
    cbn [Z.ltb Z.of_nat Z.compare negb andb NOTIFY_SALE_END
         w_file w_feed w_gets w_telegram w_sends w_outbox w_sleeps];
    try discriminate.
  destruct (w_telegram w (w_sends w)) eqn:E1;
    cbn [w_file w_feed w_gets w_telegram w_sends w_outbox w_sleeps];
    [ destruct (w_telegram w (S (w_sends w))) eqn:E2;
      cbn [w_file w_feed w_gets w_telegram w_sends w_outbox w_sleeps] | | ];
    intros H; try discriminate H; injection H as <- <-;
    cbn [w_outbox]; (split; [reflexivity|]); (split; [discriminate|]);
    (split; [auto|]); auto.
Qed.

(** How a cycle fails in a send.  A [RequestException] or a [KeyError]
    comes from [telegram_send] only: the stored flag was off, deals were
    found, and a send of the sale-start episode failed, the first one
    with nothing delivered, or the second one after the first message
    went out.  An [AttributeError], a [TypeError] or an [OverflowError]
    comes from data that is not shaped as expected (the feed, or a
    stored state that is not a dictionary): the cycle stops right after
    the GET, before any send.  Nothing is said of a [ValueError], which
    the conversion of an identifier raises, and which writing the state
    can raise as well in the program. *)
Theorem cycle_failures w e w' :
  run_once w = (Raise e, w') ->
  (e = RequestException \/ e = KeyError ->
   previous_flag w = Ok false /\
   exists ds dp dv,
     extracted w = Ok (ds, dp, dv) /\ ds <> [] /\
     let failed := match e with RequestException => Rejected | _ => NoCredentials end in
     ((w_telegram w (w_sends w) = failed /\ w_outbox w' = w_outbox w) \/
      (w_telegram w (w_sends w) = Delivered /\ w_telegram w (S (w_sends w)) = failed /\
       w_outbox w' = w_outbox w ++ [message_1 dp dv (slice 0 TOP_N (rank_deals ds))]))) /\
  (e = AttributeError \/ e = TypeError \/ e = OverflowError -> w' = after_get w).
Proof.
  rewrite run_once_cases.
  destruct (negb (truthy (fetched w))); [discriminate|].
  destruct (extracted w) as [[[ds dp] dv]|e0] eqn:He.
  2:{ intros [= <- <-]. apply extracted_data_error in He. split; [|reflexivity].
      intros [-> | ->]; discriminate He. }
  destruct (loaded w) as [| | | | | |m] eqn:Hl;
    try (intros [= <- <-]; split; [intros [? | ?]; discriminate | reflexivity]).
  intros H. apply conclude_failure in H as (Hflag & Hne & Hkind & Hsend).
  split.
  - intros _. split.
    + unfold previous_flag. rewrite Hl. cbn [py_get rbind]. rewrite Hflag. reflexivity.
    + exists ds, dp, dv. split; [reflexivity|]. split; [exact Hne | exact Hsend].
  - intros [-> | [-> | ->]]; destruct Hkind; discriminate.
Qed.

(** A cycle that ends in an exception other than [ValueError] leaves the
    state file as it was: such an exception comes from the stored state,
    from the extractor or from a send, all of which come before the
    state is written.  ([ValueError] is left out because, in the
    program, writing the state can itself raise one.) *)
Theorem failed_cycle_keeps_state_file w e w' :
  run_once w = (Raise e, w') -> e <> ValueError -> w_file w' = w_file w.
Proof. intros H _. exact (run_once_raise_file w e w' H). Qed.

(** *** What a run does to the world *)

(** [main], attempt by attempt. *)
Lemma main_attempts w :
  main w =
    match run_once w with
    | (Ok u, w1) => (Ok u, w1)
    | (Raise e1, w1) =>
      match run_once (snd (sleep (backoff e1 0) w1)) with
      | (Ok u, w2) => (Ok u, w2)
      | (Raise e2, w2) => run_once (snd (sleep (backoff e2 1) w2))
      end
    end.
Proof.
  unfold main. cbn [seq MAX_ATTEMPTS main_loop].
  destruct (run_once w) as [[[]|e1] w1]; [reflexivity|].
  transitivity (main_loop [1%nat; 2%nat] (snd (sleep (backoff e1 0) w1)));
    [destruct e1; reflexivity|].
  cbn [main_loop].
  destruct (run_once (snd (sleep (backoff e1 0) w1))) as [[[]|e2] w2]; [reflexivity|].
  transitivity (main_loop [2%nat] (snd (sleep (backoff e2 1) w2)));
    [destruct e2; reflexivity|].
  cbn [main_loop].
  destruct (run_once (snd (sleep (backoff e2 1) w2))) as [[[]|e3] w3]; [reflexivity|].
  destruct e3; reflexivity.
Qed.

Lemma backoff_values e :
  backoff e 0 = 3 /\ (backoff e 1 = 3 \/ backoff e 1 = 6).
Proof. destruct e; cbn; auto. Qed.

(** A run makes [n] attempts, one GET each, with [1 <= n <= 3], pauses
    between two attempts only, for 3 seconds after the first and for 3
    or 6 seconds after the second, and makes at most two sends per
    attempt.  When it raises, it has made all three attempts. *)
Theorem run_is_bounded w :
  let r := main w in
  exists n pauses,
    (1 <= n <= 3)%nat /\
    w_gets (snd r) = (w_gets w + n)%nat /\
    w_sleeps (snd r) = w_sleeps w ++ pauses /\
    (pauses = [] /\ n = 1%nat \/ pauses = [3] /\ n = 2%nat \/
     (pauses = [3; 3] \/ pauses = [3; 6]) /\ n = 3%nat) /\
    (w_sends w <= w_sends (snd r) <= w_sends w + 2 * n)%nat /\
    (forall e, fst r = Raise e -> n = 3%nat).
Proof.
  cbv zeta. rewrite main_attempts.
  destruct (run_once w) as [[u|e1] w1] eqn:H1.
  { destruct (run_once_footprint w) as (Hg & Hs & _ & _ & Hn & _). rewrite H1 in *.
    cbn [fst snd] in *. exists 1%nat, []. rewrite app_nil_r.
    repeat split; try lia; auto; discriminate. }
  destruct (run_once_footprint w) as (Hg1 & Hs1 & _ & _ & Hn1 & _). rewrite H1 in *.
  cbn [fst snd] in *.
  destruct (backoff_values e1) as [-> _].
  set (v1 := snd (sleep 3 w1)).
  assert (Hv1 : w_gets v1 = w_gets w1 /\ w_sends v1 = w_sends w1 /\
                w_file v1 = w_file w1 /\ w_sleeps v1 = w_sleeps w1 ++ [3])
    by (repeat split; reflexivity).
  destruct Hv1 as (Hvg1 & Hvn1 & Hvf1 & Hvs1).
  destruct (run_once v1) as [[u|e2] w2] eqn:H2.
  { destruct (run_once_footprint v1) as (Hg & Hs & _ & _ & Hn & _). rewrite H2 in *.
    cbn [fst snd] in *. exists 2%nat, [3].
    repeat split; try lia; auto; try discriminate. congruence. }
  destruct (run_once_footprint v1) as (Hg2 & Hs2 & _ & _ & Hn2 & _). rewrite H2 in *.
  cbn [fst snd] in *.
  set (v2 := snd (sleep (backoff e2 1) w2)).
  assert (Hv2 : w_gets v2 = w_gets w2 /\ w_sends v2 = w_sends w2 /\
                w_file v2 = w_file w2 /\ w_sleeps v2 = w_sleeps w2 ++ [backoff e2 1])
    by (repeat split; reflexivity).
  destruct Hv2 as (Hvg2 & Hvn2 & Hvf2 & Hvs2).
  destruct (run_once_footprint v2) as (Hg3 & Hs3 & _ & _ & Hn3 & _).
  exists 3%nat, [3; backoff e2 1].
  split; [lia|]. split; [lia|]. split.
  { rewrite Hs3, Hvs2, Hs2, Hvs1, Hs1, <- !app_assoc. reflexivity. }
  split.
  { right. right. split; [|reflexivity].
    destruct (backoff_values e2) as [_ [-> | ->]]; auto. }
  split; [lia|].
  intros e He. reflexivity.
Qed.

(** *** Fetching *)

Lemma starts_with_app_contains a b : forall s,
  Str.starts_with (a ++ b) s = true -> Str.contains_chars b s = true.
Proof.
  induction a as [|c a IH]; intros s H.
  - destruct s; cbn [Str.contains_chars]; cbn [app] in H; rewrite H; reflexivity.
  - destruct s as [|c' s]; cbn [app Str.starts_with] in H; [discriminate|].
    apply andb_true_iff in H as [_ H]. apply IH in H.
    cbn [Str.contains_chars]. rewrite H. apply orb_true_r.
Qed.

Lemma contains_chars_app a b : forall s,
  Str.contains_chars (a ++ b) s = true -> Str.contains_chars b s = true.
Proof.
  induction s as [|c s IH]; cbn [Str.contains_chars]; intros H.
  - rewrite orb_false_r in H. apply starts_with_app_contains in H. exact H.
  - apply orb_true_iff in H as [H|H].
    + apply starts_with_app_contains in H. exact H.
    + apply IH in H. rewrite H. apply orb_true_r.
Qed.

(** A string that mentions ["application/json"] mentions ["json"]. *)
Lemma contains_application_json s :
  Str.contains "application/json" s = true -> Str.contains "json" s = true.
Proof.
  unfold Str.contains.
  change (Str.chars "application/json") with (Str.chars "application/" ++ Str.chars "json").
  apply contains_chars_app.
Qed.

(** [http_get_json] never raises and costs exactly one GET.  It hands
    out the parsed body of the response exactly when the status is 200
    and the content type, lower-cased, mentions ["json"] (the test for
    ["application/json"] adds nothing); in every other case it returns
    [None]. *)
Theorem fetch_accepts_json_only url w :
  exists data,
    http_get_json url w =
      (Ok data,
       World (w_file w) (w_feed w) (S (w_gets w)) (w_telegram w) (w_sends w)
             (w_outbox w) (w_sleeps w)) /\
    match w_feed w url (w_gets w) with
    | ConnectionFailed => data = JNull
    | Response status_code content_type body =>
      let ct := Str.lower (match content_type with Some h => h | None => "" end) in
      data =
        if (status_code =? 200) && Str.contains "json" ct
        then match body with Some v => v | None => JNull end
        else JNull
    end.
Proof using Type.
  eexists. split; [reflexivity|].
  destruct (w_feed w url (w_gets w)) as [|st ct body]; [reflexivity|].
  cbv zeta. destruct (st =? 200); cbn [negb andb]; [|reflexivity].
  destruct (Str.contains "json" _) eqn:Hj.
  - rewrite andb_false_r. reflexivity.
  - destruct (Str.contains "application/json" _) eqn:Ha; [|reflexivity].
    apply contains_application_json in Ha. congruence.
Qed.

(** *** The stored state *)

(** [load_state] never raises and does not touch the world.  Without a
    readable file, or with a stored number, boolean or [null], it
    returns the default state.  What it returns is a dictionary with
    both keys, or else the stored list or string itself, which then
    contains both key names. *)
Theorem load_state_shape w :
  exists st,
    load_state w = (Ok st, w) /\
    match st with
    | JDict m => is_Some (m !! "sale_active") /\ is_Some (m !! "last_signature")
    | JList l =>
      w_file w = Stored st /\ In (JStr "sale_active") l /\ In (JStr "last_signature") l
    | JStr s =>
      w_file w = Stored st /\
      Str.contains "sale_active" s = true /\ Str.contains "last_signature" s = true
    | JNull | JBool _ | JInt _ | JFloat _ => False
    end /\
    match w_file w with
    | Absent | Unreadable
    | Stored JNull | Stored (JBool _) | Stored (JInt _) | Stored (JFloat _) =>
      st = default_state
    | Stored _ => True
    end.
Proof using Type.
  eexists. split; [reflexivity|].
  assert (Hd : is_Some
                 ((<["sale_active" := JBool false]> (<["last_signature" := JStr ""]> ∅)
                   : gmap string json) !! "sale_active") /\
               is_Some
                 ((<["sale_active" := JBool false]> (<["last_signature" := JStr ""]> ∅)
                   : gmap string json) !! "last_signature")).
  { split; [rewrite lookup_insert_eq | rewrite lookup_insert_ne by done;
            rewrite lookup_insert_eq]; eauto. }
  assert (Hin : forall key l,
            existsb (fun x => match x with JStr s => String.eqb s key | _ => false end) l = true ->
            In (JStr key) l).
  { intros key l H. apply existsb_exists in H as (x & Hx & Hk).
    destruct x; try discriminate. apply String.eqb_eq in Hk. subst. exact Hx. }
  destruct (w_file w) as [| |st]; try (split; [exact Hd | reflexivity]).
  destruct st as [| | | |s|l|m]; try (split; [exact Hd | reflexivity]);
    cbn [normalize_key].
  - destruct (Str.contains "sale_active" s) eqn:E1; [|split; [exact Hd | exact I]].
    cbn [normalize_key].
    destruct (Str.contains "last_signature" s) eqn:E2; [|split; [exact Hd | exact I]].
    auto.
  - destruct (existsb _ l) eqn:E1; [|split; [exact Hd | exact I]].
    cbn [normalize_key].
    destruct (existsb _ l) eqn:E2 in |- *; [|split; [exact Hd | exact I]].
    split; [|exact I]. split; [reflexivity|]. split; apply Hin; assumption.
  - split; [|exact I].
    destruct (m !! "sale_active") eqn:E1; cbn [normalize_key].
    + destruct (m !! "last_signature") eqn:E2.
      * rewrite E1, E2. eauto.
      * rewrite lookup_insert_eq, lookup_insert_ne, E1 by done. eauto.
    + destruct (<["sale_active" := JBool false]> m !! "last_signature") eqn:E2.
      * rewrite E2, lookup_insert_eq. eauto.
      * rewrite lookup_insert_eq, lookup_insert_ne, lookup_insert_eq by done. eauto.
Qed.

(** For a stored dictionary, [load_state] returns it with the missing
    ones of the two keys set to their defaults: every stored binding is
    kept, and no other key is added. *)
Theorem load_state_fills_defaults w m :
  w_file w = Stored (JDict m) ->
  exists m',
    load_state w = (Ok (JDict m'), w) /\
    m ⊆ m' /\
    dom m' = dom m ∪ {["sale_active"; "last_signature"]} /\
    m' !! "sale_active" = Some (dict_get m "sale_active" (JBool false)) /\
    m' !! "last_signature" = Some (dict_get m "last_signature" (JStr "")).
Proof using Type.
  clear py_repr.
  intros Hf. exists (normalized m). split.
  { pose proof (loaded_dict w m Hf) as Hl. unfold loaded in Hl.
    unfold load_state in *. cbn [fst] in Hl. rewrite Hl. reflexivity. }
  unfold normalized, dict_get.
  destruct (m !! "sale_active") as [a|] eqn:E1.
  - destruct (m !! "last_signature") as [b|] eqn:E2.
    + split; [reflexivity|]. split; [|auto].
      apply elem_of_dom_2 in E1, E2. set_solver.
    + split; [apply insert_subseteq; exact E2|]. split.
      * rewrite dom_insert_L. apply elem_of_dom_2 in E1. set_solver.
      * rewrite lookup_insert_ne, lookup_insert_eq by done. auto.
  - assert (E2' : <["sale_active" := JBool false]> m !! "last_signature" =
                  m !! "last_signature") by (apply lookup_insert_ne; done).
    rewrite E2'.
    destruct (m !! "last_signature") as [b|] eqn:E2.
    + split; [apply insert_subseteq; exact E1|]. split.
      * rewrite dom_insert_L. apply elem_of_dom_2 in E2. set_solver.
      * rewrite lookup_insert_eq, lookup_insert_ne by done. auto.
    + split.
      { etransitivity; [apply (insert_subseteq m "sale_active" (JBool false)); exact E1|].
        apply insert_subseteq. rewrite E2'. reflexivity. }
      split.
      * rewrite !dom_insert_L. set_solver.
      * rewrite lookup_insert_ne, !lookup_insert_eq by done. auto.
Qed.

(** What [save_state] writes, [load_state] reads back unchanged when it
    is a dictionary with both keys. *)
Theorem saved_state_loads_back m w :
  is_Some (m !! "sale_active") -> is_Some (m !! "last_signature") ->
  let w' := snd (save_state (JDict m) w) in
  load_state w' = (Ok (JDict m), w').
Proof using Type.
  intros [a Ha] [b Hb]. cbv zeta. unfold load_state, save_state.
  cbn [snd w_file normalize_key]. rewrite Ha. cbn [normalize_key]. rewrite Hb.
  reflexivity.
Qed.

(** A stored list or string that holds both key names is handed to the
    cycle as it is; a cycle that gets data then raises [AttributeError]
    after the extraction, without sending, and leaves the file alone, so
    that the next cycle meets the same state. *)
Theorem non_dict_state_stops_cycle w st ds dp dv :
  w_file w = Stored st ->
  match st with
  | JList l => In (JStr "sale_active") l /\ In (JStr "last_signature") l
  | JStr s => Str.contains "sale_active" s = true /\ Str.contains "last_signature" s = true
  | _ => False
  end ->
  truthy (fetched w) = true -> extracted w = Ok (ds, dp, dv) ->
  run_once w = (Raise AttributeError, after_get w).
Proof.
  intros Hf Hst Ht He.
  assert (Hex : forall key l, In (JStr key) l ->
            existsb (fun x => match x with JStr s => String.eqb s key | _ => false end) l = true).
  { intros key l H. apply existsb_exists. exists (JStr key). split; [exact H|].
    apply String.eqb_refl. }
  assert (Hl : loaded w = st).
  { unfold loaded, load_state. cbn [fst]. rewrite Hf.
    destruct st as [| | | |s|l|m]; try contradiction; destruct Hst as [H1 H2];
      cbn [normalize_key].
    - rewrite H1. cbn [normalize_key]. rewrite H2. reflexivity.
    - rewrite (Hex _ _ H1). cbn [normalize_key]. rewrite (Hex _ _ H2). reflexivity. }
  rewrite run_once_cases, Ht, He, Hl. cbn [negb].
  destruct st; try contradiction; reflexivity.
Qed.

(** *** Comparing floats *)

Lemma neg_eqb x y : F64.eqb (F64.neg x) (F64.neg y) = F64.eqb x y.
Proof.
  destruct x as [s| s| |s m e], y as [s'| s'| |s' m' e']; try reflexivity;
    try (destruct s; reflexivity); try (destruct s'; reflexivity);
    try (destruct s, s'; reflexivity).
  destruct s, s'; try reflexivity; unfold F64.eqb, F64.neg, SFeqb; cbn.
  - destruct (e ?= e')%Z; try reflexivity. destruct (Pcompare m m' Eq); reflexivity.
  - destruct (e ?= e')%Z; try reflexivity. destruct (Pcompare m m' Eq); reflexivity.
Qed.

Lemma neg_ltb x y : F64.ltb (F64.neg x) (F64.neg y) = F64.ltb y x.
Proof.
  destruct x as [s| s| |s m e], y as [s'| s'| |s' m' e']; try reflexivity;
    try (destruct s; reflexivity); try (destruct s'; reflexivity);
    try (destruct s, s'; reflexivity).
  destruct s, s'; try reflexivity; unfold F64.ltb, F64.neg, SFltb; cbn;
    rewrite (Z.compare_antisym e e');
    change (Pcompare m' m Eq) with (Pos.compare m' m);
    change (Pcompare m m' Eq) with (Pos.compare m m');
    rewrite (Pos.compare_antisym m m');
    destruct (e ?= e')%Z; try reflexivity; destruct (m ?= m')%positive; reflexivity.
Qed.

Lemma neg_is_nan x : F64.is_nan (F64.neg x) = F64.is_nan x.
Proof. destruct x; reflexivity. Qed.

(** The ranking compares keys the way the docstring says. *)
Lemma key_lt_ranks_before a b : key_lt (rank_key a) (rank_key b) = ranks_before a b.
Proof.
  unfold key_lt, rank_key, ranks_before.
  rewrite !neg_eqb, !neg_ltb. reflexivity.
Qed.

Lemma float_compare_code x y :
  F64.is_nan x = false -> F64.is_nan y = false ->
  SFcompare x y = Some (lex_cmp (float_code x) (float_code y)).
Proof.
  destruct x as [s| s| |s m e], y as [s'| s'| |s' m' e']; try discriminate; intros _ _;
    try (destruct s; reflexivity); try (destruct s'; reflexivity);
    try (destruct s, s'; reflexivity); try reflexivity.
  destruct s, s'; try reflexivity; cbn.
  - rewrite Z.compare_opp, (Z.compare_antisym e e').
    change (Pcompare m m' Eq) with (Pos.compare m m').
    destruct (e ?= e')%Z; cbn; try reflexivity. destruct (m ?= m')%positive; reflexivity.
  - change (Pcompare m m' Eq) with (Pos.compare m m').
    destruct (e ?= e')%Z; try reflexivity. destruct (m ?= m')%positive; reflexivity.
Qed.

Lemma lex_cmp_refl a : lex_cmp a a = Eq.
Proof. induction a as [|x a IH]; cbn; [reflexivity|]. rewrite Z.compare_refl. exact IH. Qed.

Lemma lex_cmp_eq a : forall b, lex_cmp a b = Eq -> a = b.
Proof.
  induction a as [|x a IH]; intros [|y b]; cbn; try discriminate; [reflexivity|].
  destruct (Z.compare_spec x y) as [Hxy| |]; try discriminate. intros Hab. f_equal; auto.
Qed.

Lemma lex_cmp_antisym a : forall b, lex_cmp b a = CompOpp (lex_cmp a b).
Proof.
  induction a as [|x a IH]; intros [|y b]; cbn; try reflexivity.
  rewrite (Z.compare_antisym x y). destruct (x ?= y)%Z; cbn; auto.
Qed.

Lemma lex_cmp_trans a : forall b c,
  lex_cmp a b = Lt -> lex_cmp b c = Lt -> lex_cmp a c = Lt.
Proof.
  induction a as [|x a IH]; intros [|y b] [|z c]; cbn; try discriminate; try reflexivity.
  destruct (Z.compare_spec x y), (Z.compare_spec y z), (Z.compare_spec x z);
    try discriminate; try reflexivity; try lia.
  apply IH.
Qed.

Lemma lex_cmp_app a : forall b c d,
  length a = length b ->
  lex_cmp (a ++ c) (b ++ d) = match lex_cmp a b with Eq => lex_cmp c d | r => r end.
Proof.
  induction a as [|x a IH]; intros [|y b] c d; cbn; try discriminate; [reflexivity|].
  intros [= Hl]. destruct (x ?= y)%Z; auto.
Qed.

Lemma float_code_length x : length (float_code x) = 3%nat.
Proof. destruct x as [[]|[]| |[] m e]; reflexivity. Qed.

(** On comparable deals, ranking before is being below in the
    lexicographic order of the codes. *)
Lemma ranks_before_code a b :
  comparable a = true -> comparable b = true ->
  ranks_before a b = match lex_cmp (deal_code a) (deal_code b) with Lt => true | _ => false end.
Proof.
  unfold comparable. intros Ha Hb.
  apply andb_true_iff in Ha as [Ha Ha3]. apply andb_true_iff in Ha as [Ha1 Ha2].
  apply andb_true_iff in Hb as [Hb Hb3]. apply andb_true_iff in Hb as [Hb1 Hb2].
  apply negb_true_iff in Ha1, Ha2, Ha3, Hb1, Hb2, Hb3.
  rewrite <- key_lt_ranks_before. unfold key_lt, rank_key, deal_code.
  rewrite !lex_cmp_app by (rewrite !float_code_length; reflexivity).
  unfold F64.eqb, F64.ltb, SFeqb, SFltb.
  rewrite !float_compare_code by (rewrite ?neg_is_nan; assumption).
  destruct (lex_cmp (float_code (F64.neg (discount_pct a))) _); cbn [negb]; try reflexivity.
  destruct (lex_cmp (float_code (F64.neg (discount_abs a))) _); cbn [negb]; try reflexivity.
  destruct (lex_cmp (float_code (price a)) _); cbn [negb]; try reflexivity.
  cbn [lex_cmp]. unfold Z.ltb. destruct (variant_id a ?= variant_id b)%Z; reflexivity.
Qed.

Lemma ranks_before_asym a b :
  comparable a = true -> comparable b = true ->
  ranks_before a b = true -> ranks_before b a = false.
Proof.
  intros Ha Hb. rewrite (ranks_before_code a b Ha Hb), (ranks_before_code b a Hb Ha).
  rewrite (lex_cmp_antisym (deal_code a) (deal_code b)).
  destruct (lex_cmp (deal_code a) (deal_code b)); cbn; congruence.
Qed.

Lemma ranks_before_negtrans a b c :
  comparable a = true -> comparable b = true -> comparable c = true ->
  ranks_before a b = false -> ranks_before b c = false -> ranks_before a c = false.
Proof.
  intros Ha Hb Hc.
  rewrite (ranks_before_code a b Ha Hb), (ranks_before_code b c Hb Hc),
          (ranks_before_code a c Ha Hc).
  destruct (lex_cmp (deal_code a) (deal_code b)) eqn:Eab; try discriminate; intros _.
  - apply lex_cmp_eq in Eab. rewrite Eab. auto.
  - destruct (lex_cmp (deal_code b) (deal_code c)) eqn:Ebc; try discriminate; intros _.
    + apply lex_cmp_eq in Ebc. rewrite <- Ebc, Eab. reflexivity.
    + assert (Hca : lex_cmp (deal_code c) (deal_code a) = Lt).
      { apply (lex_cmp_trans _ (deal_code b)).
        - rewrite (lex_cmp_antisym (deal_code b)), Ebc. reflexivity.
        - rewrite (lex_cmp_antisym (deal_code a)), Eab. reflexivity. }
      rewrite (lex_cmp_antisym (deal_code c)), Hca. reflexivity.
Qed.

(** *** Stable sorting by insertion *)

Section Sorting.
Context {A : Type} (lt : A -> A -> bool) (P : A -> Prop).
Hypothesis lt_asym : forall a b, P a -> P b -> lt a b = true -> lt b a = false.
Hypothesis lt_negtrans : forall a b c,
  P a -> P b -> P c -> lt a b = false -> lt b c = false -> lt a c = false.

Lemma insert_by_Permutation x l : Permutation (insert_by lt x l) (x :: l).
Proof using Type.
  induction l as [|y l IH]; cbn [insert_by]; [reflexivity|].
  destruct (lt y x); [|reflexivity].
  rewrite IH. apply perm_swap.
Qed.

Lemma insert_by_ext (lt' : A -> A -> bool) x l :
  (forall a b, lt a b = lt' a b) -> insert_by lt x l = insert_by lt' x l.
Proof using Type.
  intros H. induction l as [|y l IH]; cbn [insert_by]; [reflexivity|].
  rewrite <- H, IH. reflexivity.
Qed.

(** In front of elements none of which is below it, an element stays
    where it is. *)
Lemma insert_by_head x l :
  Forall (fun y => lt y x = false) l -> insert_by lt x l = x :: l.
Proof using Type.
  intros H. destruct l as [|y l]; [reflexivity|].
  cbn [insert_by]. apply Forall_inv in H. rewrite H. reflexivity.
Qed.

Lemma insert_by_sorted x l :
  P x -> Forall P l ->
  StronglySorted (fun a b => lt b a = false) l ->
  StronglySorted (fun a b => lt b a = false) (insert_by lt x l).
Proof using lt_asym lt_negtrans.
  intros Hx. induction l as [|y l IH]; intros HP Hs; cbn [insert_by].
  - constructor; constructor.
  - apply Forall_cons in HP as [Hy HP].
    apply StronglySorted_inv in Hs as [Hs Hy_le].
    destruct (lt y x) eqn:E.
    + constructor; [apply IH; assumption|].
      rewrite (insert_by_Permutation x l). constructor; [|exact Hy_le].
      apply lt_asym; assumption.
    + constructor; [constructor; assumption|].
      constructor; [exact E|].
      rewrite Forall_forall in Hy_le, HP |- *. intros z Hz.
      apply (lt_negtrans z y x); auto.
Qed.

(** Insertion keeps the order of the elements that tie with [k]. *)
Lemma insert_by_filter k x l :
  P k -> P x -> Forall P l ->
  List.filter (fun a => negb (lt a k) && negb (lt k a)) (insert_by lt x l) =
  List.filter (fun a => negb (lt a k) && negb (lt k a)) (x :: l).
Proof using lt_negtrans.
  intros Hk Hx. induction l as [|y l IH]; intros HP; [reflexivity|].
  apply Forall_cons in HP as [Hy HP]. cbn [insert_by].
  destruct (lt y x) eqn:E; [|reflexivity].
  cbn [List.filter] in *. rewrite (IH HP).
  destruct (negb (lt y k) && negb (lt k y)) eqn:Ey; [|reflexivity].
  destruct (negb (lt x k) && negb (lt k x)) eqn:Ex; [|reflexivity].
  exfalso. apply andb_true_iff in Ey as [Ey _], Ex as [_ Ex].
  apply negb_true_iff in Ey, Ex.
  rewrite (lt_negtrans y k x Hy Hk Hx Ey Ex) in E. discriminate.
Qed.

End Sorting.

Lemma rank_deals_eq ds : rank_deals ds = fold_right (insert_by ranks_before) [] ds.
Proof.
  unfold rank_deals, sorted. induction ds as [|d ds IH]; cbn [fold_right]; [reflexivity|].
  rewrite IH. apply insert_by_ext. intros a b. apply key_lt_ranks_before.
Qed.

Lemma rank_deals_Permutation ds : Permutation (rank_deals ds) ds.
Proof.
  rewrite rank_deals_eq. induction ds as [|d ds IH]; cbn [fold_right]; [reflexivity|].
  rewrite insert_by_Permutation, IH. reflexivity.
Qed.

Lemma comparable_Forall ds :
  forallb comparable ds = true -> Forall (fun d => comparable d = true) ds.
Proof.
  intros H. apply Forall_forall. intros d Hd. apply list_elem_of_In in Hd.
  exact (proj1 (forallb_forall _ _) H d Hd).
Qed.

Lemma rank_deals_StronglySorted ds :
  forallb comparable ds = true ->
  StronglySorted (fun a b => ranks_before b a = false) (rank_deals ds).
Proof.
  intros H. apply comparable_Forall in H. rewrite rank_deals_eq.
  induction ds as [|d ds IH]; cbn [fold_right]; [constructor|].
  apply Forall_cons in H as [Hd H].
  apply (insert_by_sorted ranks_before (fun d => comparable d = true)).
  - intros a b. apply ranks_before_asym.
  - intros a b c. apply ranks_before_negtrans.
  - exact Hd.
  - rewrite <- rank_deals_eq, rank_deals_Permutation. exact H.
  - apply IH, H.
Qed.

Lemma rank_deals_filter k ds :
  comparable k = true -> forallb comparable ds = true ->
  List.filter (fun d => ties_with d k) (rank_deals ds) =
  List.filter (fun d => ties_with d k) ds.
Proof.
  intros Hk H. apply comparable_Forall in H. rewrite rank_deals_eq.
  induction ds as [|d ds IH]; cbn [fold_right]; [reflexivity|].
  apply Forall_cons in H as [Hd H]. unfold ties_with in *.
  rewrite (insert_by_filter ranks_before (fun d => comparable d = true)).
  - cbn [List.filter]. rewrite (IH H). reflexivity.
  - intros a b c. apply ranks_before_negtrans.
  - exact Hk.
  - exact Hd.
  - rewrite <- rank_deals_eq, rank_deals_Permutation. exact H.
Qed.

Lemma rank_deals_fixed ds :
  StronglySorted (fun a b => ranks_before b a = false) ds -> rank_deals ds = ds.
Proof.
  rewrite rank_deals_eq. induction 1 as [|d ds Hs IH Hd]; cbn [fold_right]; [reflexivity|].
  rewrite IH. apply insert_by_head. exact Hd.
Qed.

Lemma tie_same_id a b :
  comparable a = true -> comparable b = true ->
  ranks_before a b = false -> ranks_before b a = false -> variant_id a = variant_id b.
Proof.
  intros Ha Hb. rewrite (ranks_before_code a b Ha Hb), (ranks_before_code b a Hb Ha).
  rewrite (lex_cmp_antisym (deal_code a) (deal_code b)).
  destruct (lex_cmp (deal_code a) (deal_code b)) eqn:E; cbn; try discriminate.
  intros _ _. apply lex_cmp_eq in E. unfold deal_code in E.
  rewrite !app_assoc in E. apply app_inj_tail in E as [_ E]. exact E.
Qed.

Lemma NoDup_map_inj {A B} (f : A -> B) l a b :
  NoDup (map f l) -> In a l -> In b l -> f a = f b -> a = b.
Proof.
  induction l as [|x l IH]; cbn [map]; intros Hnd Ha Hb Hf; [destruct Ha|].
  apply NoDup_cons in Hnd as [Hx Hnd].
  destruct Ha as [->|Ha], Hb as [->|Hb]; auto.
  - exfalso. apply Hx. rewrite Hf. apply list_elem_of_In, in_map, Hb.
  - exfalso. apply Hx. rewrite <- Hf. apply list_elem_of_In, in_map, Ha.
Qed.

(** Two rankings of the same deals, none of which ties with another,
    are the same list. *)
Lemma sorted_unique l1 : forall l2,
  Forall (fun d => comparable d = true) l1 ->
  NoDup (map variant_id l1) ->
  StronglySorted (fun a b => ranks_before b a = false) l1 ->
  StronglySorted (fun a b => ranks_before b a = false) l2 ->
  Permutation l1 l2 -> l1 = l2.
Proof.
  induction l1 as [|a l1 IH]; intros l2 HP Hnd Hs1 Hs2 Hp.
  { apply Permutation_nil in Hp. auto. }
  destruct l2 as [|b l2]; [apply Permutation_sym, Permutation_nil in Hp; discriminate|].
  assert (Hab : a = b).
  { assert (Ha : In a (b :: l2)) by (eapply Permutation_in; [exact Hp | left; reflexivity]).
    assert (Hb : In b (a :: l1))
      by (eapply Permutation_in; [symmetry; exact Hp | left; reflexivity]).
    destruct Ha as [Ha|Ha]; [auto|]. pose proof Hb as Hb'.
    destruct Hb as [Hb|Hb]; [auto|].
    apply StronglySorted_inv in Hs1 as [_ H1], Hs2 as [_ H2].
    rewrite List.Forall_forall in H1, H2, HP.
    apply (NoDup_map_inj variant_id (a :: l1)); [exact Hnd | left; reflexivity | exact Hb'|].
    apply tie_same_id; [apply HP; left; reflexivity | apply HP, Hb' | apply H2, Ha | apply H1, Hb]. }
  subst b. f_equal. cbn [map] in Hnd. apply NoDup_cons in Hnd as [_ Hnd].
  apply Forall_cons in HP as [_ HP].
  apply StronglySorted_inv in Hs1 as [Hs1 _], Hs2 as [Hs2 _].
  apply IH; try assumption. eapply Permutation_cons_inv, Hp.
Qed.

(** *** The ranking *)

(** Ranking rearranges: the ranked list has the same deals as the
    input, each as often. *)
Theorem ranking_permutes ds :
  Permutation (rank_deals ds) ds /\ length (rank_deals ds) = length ds.
Proof.
  split; [apply rank_deals_Permutation|].
  apply Permutation_length, rank_deals_Permutation.
Qed.

(** When no compared field is NaN, the ranked list is in order: no deal
    ranks before a deal listed ahead of it; so no deal at all ranks
    before the first one. *)
Theorem ranking_is_sorted ds :
  forallb comparable ds = true ->
  StronglySorted (fun a b => ranks_before b a = false) (rank_deals ds) /\
  forall d0 rest d,
    rank_deals ds = d0 :: rest -> In d ds -> d = d0 \/ ranks_before d d0 = false.
Proof.
  intros H. pose proof (rank_deals_StronglySorted ds H) as Hs. split; [exact Hs|].
  intros d0 rest d E Hd. rewrite E in Hs.
  apply StronglySorted_inv in Hs as [_ Hs]. rewrite List.Forall_forall in Hs.
  assert (Hin : In d (d0 :: rest)).
  { rewrite <- E. eapply Permutation_in; [symmetry; apply rank_deals_Permutation | exact Hd]. }
  destruct Hin as [<-|Hin]; [left; reflexivity | right; apply Hs, Hin].
Qed.

(** When no compared field is NaN, the ranking is stable: the deals
    that tie with a given deal are listed in the order of the input. *)
Theorem ranking_is_stable k ds :
  comparable k = true -> forallb comparable ds = true ->
  List.filter (fun d => ties_with d k) (rank_deals ds) =
  List.filter (fun d => ties_with d k) ds.
Proof. apply rank_deals_filter. Qed.

(** When no compared field is NaN, ranking a ranked list changes
    nothing. *)
Theorem ranking_is_idempotent ds :
  forallb comparable ds = true -> rank_deals (rank_deals ds) = rank_deals ds.
Proof. intros H. apply rank_deals_fixed, rank_deals_StronglySorted, H. Qed.

(** When no compared field is NaN and the variant identifiers differ,
    the ranking does not depend on the order of the input. *)
Theorem ranking_ignores_input_order ds ds' :
  forallb comparable ds = true -> NoDup (map variant_id ds) ->
  Permutation ds ds' -> rank_deals ds = rank_deals ds'.
Proof.
  intros H Hnd Hp.
  assert (H' : forallb comparable ds' = true).
  { apply forallb_forall. intros d Hd. eapply forallb_forall in H; [exact H|].
    eapply Permutation_in; [symmetry; exact Hp | exact Hd]. }
  apply sorted_unique.
  - rewrite rank_deals_Permutation. apply comparable_Forall, H.
  - rewrite (Permutation_map variant_id (rank_deals_Permutation ds)). exact Hnd.
  - apply rank_deals_StronglySorted, H.
  - apply rank_deals_StronglySorted, H'.
  - rewrite !rank_deals_Permutation. exact Hp.
Qed.

(** *** What the messages list *)

Lemma slice_top {A} (l : list A) : slice 0 TOP_N l = firstn 5 l.
Proof. reflexivity. Qed.

Lemma slice_next {A} (l : list A) : slice TOP_N (TOP_N * 2) l = firstn 5 (skipn 5 l).
Proof. reflexivity. Qed.

Lemma In_firstn {A} n (l : list A) x : In x (firstn n l) -> In x l.
Proof.
  revert l. induction n as [|n IH]; intros [|y l]; cbn; try tauto.
  intros [H|H]; auto.
Qed.

Lemma NoDup_firstn_map {A B} (f : A -> B) n (l : list A) :
  NoDup (map f l) -> NoDup (map f (firstn n l)).
Proof.
  revert l. induction n as [|n IH]; intros [|y l]; cbn [firstn map]; intros H;
    try constructor.
  - apply NoDup_cons in H as [Hy H]. intros Hin. apply Hy.
    apply list_elem_of_In in Hin. apply list_elem_of_In.
    apply in_map_iff in Hin as (x & Hx & Hin). apply in_map_iff.
    exists x. split; [exact Hx | eapply In_firstn, Hin].
  - apply IH. apply NoDup_cons in H as [_ H]. exact H.
Qed.

(** The two messages of a sale-start episode list the first ten ranked
    deals, five and five: deals of the extraction, no variant twice.
    The count of further variants given in the second message is the
    number of deals not listed in the first; it is never cut off at 0. *)
Theorem messages_list_first_ten products ds dp dv :
  collect_deals products = Ok (ds, dp, dv) ->
  let top := slice 0 TOP_N (rank_deals ds) in
  let next_top := slice TOP_N (TOP_N * 2) (rank_deals ds) in
  top ++ next_top = firstn 10 (rank_deals ds) /\
  length top = Nat.min 5 (length ds) /\
  length next_top = Nat.min 5 (length ds - 5) /\
  NoDup (map variant_id (top ++ next_top)) /\
  (forall d, In d (top ++ next_top) -> In d ds) /\
  Z.max 0 (dv - len top) = len ds - len top.
Proof.
  intros H. cbv zeta. rewrite slice_top, slice_next.
  pose proof (collect_deals_select _ _ _ _ H) as [Hsel Hdv].
  assert (Hnd : NoDup (map variant_id ds)) by (rewrite Hsel; apply select_NoDup).
  pose proof (rank_deals_Permutation ds) as Hp.
  assert (Hten : firstn 5 (rank_deals ds) ++ firstn 5 (skipn 5 (rank_deals ds)) =
                 firstn 10 (rank_deals ds)) by apply (take_take_drop _ 5 5).
  rewrite Hten. split; [reflexivity|].
  split; [rewrite length_firstn, (Permutation_length Hp); reflexivity|].
  split; [rewrite length_firstn, length_skipn, (Permutation_length Hp); reflexivity|].
  split; [|split].
  - apply NoDup_firstn_map. rewrite (Permutation_map variant_id Hp). exact Hnd.
  - intros d Hd. eapply Permutation_in; [exact Hp | eapply In_firstn, Hd].
  - subst dv. unfold len. rewrite length_firstn, (Permutation_length Hp). lia.
Qed.

(** *** The signature *)

Lemma append_nonempty a c b : a +:+ String c b <> "".
Proof. destruct a; discriminate. Qed.

(** The signature names the first ranked deal, identifier and the two
    prices with two decimals, and nothing else; it is empty exactly
    when there is no deal. *)
Theorem signature_names_top_deal ds :
  signature_of (slice 0 TOP_N (rank_deals ds)) =
    match rank_deals ds with
    | [] => ""
    | d0 :: _ =>
      Str.of_Z (variant_id d0) +:+ "|" +:+ format_f 2 (compare_at d0) +:+ ">" +:+
      format_f 2 (price d0)
    end /\
  (signature_of (slice 0 TOP_N (rank_deals ds)) = "" <-> ds = []).
Proof.
  rewrite slice_top. pose proof (Permutation_length (rank_deals_Permutation ds)) as Hl.
  destruct (rank_deals ds) as [|d0 rest]; cbn [firstn signature_of].
  - split; [reflexivity|]. destruct ds; [tauto | discriminate].
  - split; [reflexivity|]. split.
    + intros E. exfalso. revert E. apply append_nonempty.
    + intros ->. discriminate.
Qed.

(** A cycle that gets data and completes has found the stored state to
    be a dictionary and the extraction to complete; it writes that
    dictionary back with [sale_active] set to whether there is a deal
    and [last_signature] set to the signature of the ranked deals, all
    other keys as they were loaded. *)
Theorem completed_cycle_records w w' :
  run_once w = (Ok tt, w') -> truthy (fetched w) = true ->
  exists m ds dp dv,
    loaded w = JDict m /\ extracted w = Ok (ds, dp, dv) /\
    w_file w' =
      Stored (JDict (<["last_signature" :=
                         JStr (signature_of (slice 0 TOP_N (rank_deals ds)))]>
                       (<["sale_active" := JBool (0 <? len ds)]> m))) /\
    ((0 <? len ds) = false <-> ds = []).
Proof.
  intros H Ht. rewrite run_once_cases, Ht in H. cbn [negb] in H.
  destruct (extracted w) as [[[ds dp] dv]|e]; [|discriminate].
  destruct (loaded w) as [| | | | | |m]; try discriminate.
  exists m, ds, dp, dv. split; [reflexivity|]. split; [reflexivity|].
  split; [exact (conclude_ok _ _ _ _ _ _ H)|].
  unfold len. destruct ds; cbn [length]; split; intros E; try reflexivity; discriminate.
Qed.

(** *** Discounts that are numbers *)

Lemma shr_1_nonneg mrs : 0 <= shr_m mrs -> 0 <= shr_m (shr_1 mrs).
Proof.
  destruct mrs as [m r s]. destruct m as [|p|p]; cbn; intros H; try lia;
    destruct p; cbn; lia.
Qed.

Lemma iter_pos_nonneg p : forall mrs,
  0 <= shr_m mrs -> 0 <= shr_m (SpecFloat.iter_pos shr_1 p mrs).
Proof.
  induction p as [p IH|p IH|]; intros mrs H; cbn [SpecFloat.iter_pos].
  - apply IH, IH, shr_1_nonneg, H.
  - apply IH, IH, H.
  - apply shr_1_nonneg, H.
Qed.

Lemma shr_fexp_nonneg m e l :
  0 <= m -> 0 <= shr_m (fst (shr_fexp F64.prec F64.emax m e l)).
Proof.
  intros H. unfold shr_fexp, shr.
  assert (H0 : 0 <= shr_m (shr_record_of_loc m l)) by (destruct l as [|[]]; exact H).
  destruct (fexp F64.prec F64.emax (Zdigits2 m + e) - e); cbn [fst]; try exact H0.
  apply iter_pos_nonneg, H0.
Qed.

Lemma round_nearest_even_nonneg m l : 0 <= m -> 0 <= round_nearest_even m l.
Proof.
  intros H. destruct l as [|[]]; cbn; try lia. destruct (Z.even m); lia.
Qed.

(** Rounding a non-negative mantissa gives zero, a finite number or an
    infinity. *)
Lemma binary_round_aux_not_nan sx mx ex lx :
  0 <= mx -> F64.is_nan (binary_round_aux F64.prec F64.emax sx mx ex lx) = false.
Proof.
  intros H. unfold binary_round_aux.
  pose proof (shr_fexp_nonneg mx ex lx H) as H1.
  destruct (shr_fexp F64.prec F64.emax mx ex lx) as [mrs' e']. cbn [fst] in H1.
  pose proof (shr_fexp_nonneg _ e' loc_Exact
                (round_nearest_even_nonneg _ (loc_of_shr_record mrs') H1)) as H2.
  destruct (shr_fexp F64.prec F64.emax _ e' loc_Exact) as [mrs'' e'']. cbn [fst] in H2.
  destruct (shr_m mrs''); [reflexivity | | lia].
  destruct (e'' <=? F64.emax - F64.prec); reflexivity.
Qed.

Lemma binary_normalize_not_nan m e szero :
  F64.is_nan (binary_normalize F64.prec F64.emax m e szero) = false.
Proof.
  destruct m as [|p|p]; [reflexivity| |]; unfold binary_normalize, binary_round;
    destruct (shl_align _ _ _); apply binary_round_aux_not_nan; lia.
Qed.

Lemma sub_not_nan c p :
  F64.is_finite c = true -> F64.is_nan p = false -> F64.is_nan (F64.sub c p) = false.
Proof.
  destruct c as [s| | |s m e], p as [s'|s'| |s' m' e']; try discriminate; intros _ _;
    try reflexivity; try (destruct s, s'; reflexivity).
  apply binary_normalize_not_nan.
Qed.

Lemma div_eucl_nonneg a b : 0 <= a -> 0 < b -> 0 <= fst (Z.div_eucl a b).
Proof. intros Ha Hb. change (0 <= a / b). apply Z.div_pos; assumption. Qed.

Lemma div_not_nan a m e :
  F64.is_nan a = false -> F64.is_nan (F64.div a (S754_finite false m e)) = false.
Proof.
  destruct a as [s|s| |s m' e']; try discriminate; intros _; try reflexivity.
  unfold F64.div, SFdiv, SFdiv_core_binary.
  set (sh := e' - e - _).
  set (m1 := match sh with Z0 => Z.pos m' | Z.pos _ => Z.shiftl (Z.pos m') sh | Z.neg _ => 0 end).
  assert (H1 : 0 <= m1).
  { subst m1. destruct sh; try lia. apply Z.shiftl_nonneg. lia. }
  pose proof (div_eucl_nonneg m1 (Z.pos m) H1 eq_refl) as Hq.
  destruct (Z.div_eucl m1 (Z.pos m)) as [q r]. cbn [fst] in Hq.
  apply binary_round_aux_not_nan, Hq.
Qed.

Lemma mul_hundred_not_nan a :
  F64.is_nan a = false -> F64.is_nan (F64.mul a F64.hundred) = false.
Proof.
  destruct a as [s|s| |s m e]; try discriminate; intros _; try reflexivity.
  unfold F64.mul, F64.hundred, SFmul. apply binary_round_aux_not_nan. lia.
Qed.

(** With a finite reference price and a price that is a number, both
    discounts are numbers. *)
Lemma calc_discount_not_nan c p :
  F64.is_finite c = true -> F64.is_nan p = false ->
  F64.is_nan (fst (calc_discount c p)) = false /\
  F64.is_nan (snd (calc_discount c p)) = false.
Proof.
  intros Hc Hp. pose proof (sub_not_nan c p Hc Hp) as Ha. unfold calc_discount.
  destruct (F64.leb c F64.zero) eqn:E; cbn [fst snd]; [auto|].
  split; [exact Ha|].
  destruct c as [s| | |[] m e]; try discriminate.
  apply mul_hundred_not_nan, div_not_nan, Ha.
Qed.

(** With an infinite reference price above the price, the percentage is
    not a number. *)
Lemma calc_discount_nan c p :
  F64.is_finite c = false -> F64.ltb p c = true ->
  F64.is_nan (snd (calc_discount c p)) = true.
Proof.
  destruct c as [s|[]| |s m e]; try discriminate; intros _;
    destruct p as [s'|[]| |[] m' e']; try discriminate; intros _; reflexivity.
Qed.

Lemma make_deal_comparable t u p c k :
  F64.ltb p c = true ->
  comparable (make_deal t u p c k) = F64.is_finite c.
Proof.
  intros Hlt. destruct (ltb_not_nan _ _ Hlt) as [Hp Hc].
  unfold comparable, make_deal.
  destruct (calc_discount c p) as [a pct] eqn:E.
  cbn [discount_pct discount_abs price]. rewrite Hp.
  destruct (F64.is_finite c) eqn:Hf.
  - destruct (calc_discount_not_nan c p Hf Hp) as [H1 H2].
    rewrite E in H1, H2. cbn [fst snd] in H1, H2. rewrite H1, H2. reflexivity.
  - pose proof (calc_discount_nan c p Hf Hlt) as H2.
    rewrite E in H2. cbn [snd] in H2. rewrite H2. reflexivity.
Qed.

Lemma collect_deals_comparable products ds dp dv d :
  collect_deals products = Ok (ds, dp, dv) -> In d ds ->
  comparable d = F64.is_finite (compare_at d).
Proof.
  intros H Hd. apply collect_deals_select in H as [-> _].
  apply list_elem_of_In, select_iff in Hd
    as (i & t & u & v & p & c & k & _ & _ & Hlt & ->).
  destruct (make_deal_prices t u p c k) as [_ ->].
  apply make_deal_comparable, Hlt.
Qed.

(** A deal of the extractor can be ranked against every other one
    exactly when its reference price is finite: with an infinite one,
    its percentage is not a number. *)
Theorem extracted_deal_is_comparable products ds dp dv d :
  collect_deals products = Ok (ds, dp, dv) -> In d ds ->
  comparable d = F64.is_finite (compare_at d) /\
  (F64.is_finite (compare_at d) = false -> F64.is_nan (discount_pct d) = true).
Proof.
  intros H Hd. split; [eapply collect_deals_comparable; eassumption|].
  apply collect_deals_select in H as [-> _].
  apply list_elem_of_In, select_iff in Hd
    as (i & t & u & v & p & c & k & _ & _ & Hlt & ->).
  destruct (make_deal_prices t u p c k) as [_ ->]. intros Hf.
  pose proof (calc_discount_nan c p Hf Hlt) as Hn.
  unfold make_deal. destruct (calc_discount c p). exact Hn.
Qed.

Lemma ranks_before_total a b :
  comparable a = true -> comparable b = true -> variant_id a <> variant_id b ->
  ranks_before b a = false -> ranks_before a b = true.
Proof.
  intros Ha Hb Hne Hba. destruct (ranks_before a b) eqn:Hab; [reflexivity|].
  exfalso. apply Hne. apply tie_same_id; assumption.
Qed.

Lemma StronglySorted_strict l :
  Forall (fun d => comparable d = true) l -> NoDup (map variant_id l) ->
  StronglySorted (fun a b => ranks_before b a = false) l ->
  StronglySorted (fun a b => ranks_before a b = true) l.
Proof.
  induction l as [|a l IH]; intros HP Hnd Hs; [constructor|].
  apply Forall_cons in HP as [Ha HP]. cbn [map] in Hnd.
  apply NoDup_cons in Hnd as [Hna Hnd].
  apply StronglySorted_inv in Hs as [Hs Hle].
  constructor; [apply IH; assumption|].
  rewrite List.Forall_forall in Hle |- *. rewrite Forall_forall in HP.
  intros b Hb. apply ranks_before_total; auto.
  - apply HP, list_elem_of_In, Hb.
  - intros E. apply Hna. rewrite E. apply list_elem_of_In, in_map, Hb.
Qed.

(** When every reference price in the extracted deals is finite, their
    ranking is strict, each deal ranking before all the deals listed
    after it, and it is the same for every order in which the feed may
    have listed them. *)
Theorem extracted_ranking_is_determined products ds dp dv :
  collect_deals products = Ok (ds, dp, dv) ->
  forallb (fun d => F64.is_finite (compare_at d)) ds = true ->
  StronglySorted (fun a b => ranks_before a b = true) (rank_deals ds) /\
  forall ds', Permutation ds ds' -> rank_deals ds' = rank_deals ds.
Proof.
  intros H Hfin.
  assert (Hc : forallb comparable ds = true).
  { apply forallb_forall. intros d Hd.
    rewrite (collect_deals_comparable products ds dp dv d H Hd).
    exact (proj1 (forallb_forall _ _) Hfin d Hd). }
  assert (Hnd : NoDup (map variant_id ds)).
  { apply collect_deals_select in H as [-> _]. apply select_NoDup. }
  split.
  - apply StronglySorted_strict.
    + rewrite rank_deals_Permutation. apply comparable_Forall, Hc.
    + rewrite (Permutation_map variant_id (rank_deals_Permutation ds)). exact Hnd.
    + apply rank_deals_StronglySorted, Hc.
  - intros ds' Hp. symmetry.
    assert (Hc' : forallb comparable ds' = true).
    { apply forallb_forall. intros d Hd. eapply forallb_forall in Hc; [exact Hc|].
      eapply Permutation_in; [symmetry; exact Hp | exact Hd]. }
    apply sorted_unique.
    + rewrite rank_deals_Permutation. apply comparable_Forall, Hc.
    + rewrite (Permutation_map variant_id (rank_deals_Permutation ds)). exact Hnd.
    + apply rank_deals_StronglySorted, Hc.
    + apply rank_deals_StronglySorted, Hc'.
    + rewrite !rank_deals_Permutation. exact Hp.
Qed.

(** *** The order of the ranking *)

Lemma ranks_before_trans a b c :
  comparable a = true -> comparable b = true -> comparable c = true ->
  ranks_before a b = true -> ranks_before b c = true -> ranks_before a c = true.
Proof.
  intros Ha Hb Hc.
  rewrite (ranks_before_code a b Ha Hb), (ranks_before_code b c Hb Hc),
          (ranks_before_code a c Ha Hc).
  destruct (lex_cmp (deal_code a) (deal_code b)) eqn:Eab; try discriminate; intros _.
  destruct (lex_cmp (deal_code b) (deal_code c)) eqn:Ebc; try discriminate; intros _.
  rewrite (lex_cmp_trans _ _ _ Eab Ebc). reflexivity.
Qed.

(** C6, amended: on deals none of whose compared fields is NaN, ranking
    before (higher percentage, then higher absolute discount, then lower
    price, then lower identifier) is a strict order in which two deals
    with different identifiers are always ordered; and the ranker
    returns the deals of its input, each as often, in that order, the
    deals that tie with each other in the order of the input.  The
    ranker is a function of the list it is given: it returns a list of
    its own, the same one on the same input. *)
Theorem ranking_order ds :
  forallb comparable ds = true ->
  (forall a b c, In a ds -> In b ds -> In c ds ->
     ranks_before a a = false /\
     (ranks_before a b = true -> ranks_before b a = false) /\
     (ranks_before a b = true -> ranks_before b c = true -> ranks_before a c = true) /\
     (variant_id a <> variant_id b -> ranks_before a b = true \/ ranks_before b a = true)) /\
  Permutation (rank_deals ds) ds /\
  StronglySorted (fun a b => ranks_before b a = false) (rank_deals ds) /\
  (forall k, In k ds ->
     List.filter (fun d => ties_with d k) (rank_deals ds) =
     List.filter (fun d => ties_with d k) ds).
Proof.
  intros H. pose proof (proj1 (forallb_forall _ _) H) as Hc.
  split; [|split; [|split]].
  - intros a b c Ha Hb Hc'. apply Hc in Ha, Hb, Hc'.
    split; [|split; [|split]].
    + destruct (ranks_before a a) eqn:E; [|reflexivity].
      rewrite (ranks_before_asym a a Ha Ha E) in E. discriminate E.
    + apply ranks_before_asym; assumption.
    + apply ranks_before_trans; assumption.
    + intros Hne. destruct (ranks_before b a) eqn:E; [right; reflexivity|].
      left. apply ranks_before_total; assumption.
  - apply rank_deals_Permutation.
  - apply rank_deals_StronglySorted, H.
  - intros k Hk. apply rank_deals_filter; [apply Hc, Hk | exact H].
Qed.

(** *** The signature format *)





(** *** Numerals *)

Lemma more_digits_acc d : forall acc cnt,
  exists cnt',
    Literal.more_digits (Z.pos acc) cnt (Str.chars (NilEmpty.string_of_uint d)) =
    (Z.pos (Pos.of_uint_acc d acc), cnt', []).
Proof.
  induction d as [|d IH|d IH|d IH|d IH|d IH|d IH|d IH|d IH|d IH|d IH]; intros acc cnt;
    cbn [NilEmpty.string_of_uint Str.chars list_ascii_of_string Pos.of_uint_acc];
    [eexists; reflexivity | ..];
    match goal with
    | |- context [Pos.of_uint_acc d ?a] =>
      destruct (IH a (cnt + 1)) as [cnt' E]; exists cnt'; rewrite <- E
    end;
    unfold Literal.more_digits at 1; fold Literal.more_digits;
    match goal with
    | |- (if ?b then _ else _) = _ => change b with true; cbv iota
    end;
    f_equal; unfold Str.digit_val, Str.code; cbn [N_of_ascii N_of_digits Z.of_N]; lia.
Qed.

Lemma more_digits_uint d : forall cnt,
  exists cnt',
    Literal.more_digits 0 cnt (Str.chars (NilEmpty.string_of_uint d)) =
    (Z.of_N (Pos.of_uint d), cnt', []).
Proof.
  induction d as [|d IH|d IH|d IH|d IH|d IH|d IH|d IH|d IH|d IH|d IH]; intros cnt;
    cbn [NilEmpty.string_of_uint Str.chars list_ascii_of_string Pos.of_uint Z.of_N];
    [eexists; reflexivity | destruct (IH (cnt + 1)) as [cnt' E]; exists cnt'; rewrite <- E | ..];
    try match goal with
    | |- context [Pos.of_uint_acc d ?a] =>
      destruct (more_digits_acc d a (cnt + 1)) as [cnt' E]; exists cnt'; rewrite <- E
    end;
    unfold Literal.more_digits at 1; fold Literal.more_digits;
    match goal with
    | |- (if ?b then _ else _) = _ => change b with true; cbv iota
    end;
    f_equal.
Qed.

(** Reading a run of digits counts each of them. *)
Lemma more_digits_count s : forall acc cnt,
  forallb Str.is_digit s = true ->
  snd (fst (Literal.more_digits acc cnt s)) = cnt + Z.of_nat (length s).
Proof.
  induction s as [|c s IH]; intros acc cnt H.
  - cbn. lia.
  - cbn [forallb] in H. apply andb_true_iff in H as [Hc Hs].
    cbn [Literal.more_digits]. rewrite Hc, (IH _ _ Hs). cbn [length]. lia.
Qed.

Lemma length_chars s : length (Str.chars s) = String.length s.
Proof. induction s as [|c s IH]; [reflexivity|]. cbn. f_equal. exact IH. Qed.

Lemma digits_of_uint d :
  forallb Str.is_digit (Str.chars (NilEmpty.string_of_uint d)) = true.
Proof. induction d; cbn; auto. Qed.

Lemma digit_facts c :
  Str.is_digit c = true ->
  Str.is_space c = false /\ Str.is_c_space c = false /\ Str.lower_char c = c /\
  Ascii.eqb c "-" = false /\ Ascii.eqb c "+" = false /\
  Ascii.eqb c "i" = false /\ Ascii.eqb c "n" = false.
Proof.
  destruct c as [[] [] [] [] [] [] [] []]; intros H; try discriminate H;
    repeat split; reflexivity.
Qed.

Lemma lstrip_id sp s :
  match s with [] => True | c :: _ => sp c = false end -> Str.lstrip sp s = s.
Proof. destruct s as [|c s]; [reflexivity|]. cbn. intros ->. reflexivity. Qed.

(** A string that neither starts nor ends with a character of the class
    is its own strip. *)
Lemma strip_chars_id sp s :
  match s with [] => True | c :: _ => sp c = false end ->
  match rev s with [] => True | c :: _ => sp c = false end ->
  Str.strip_chars sp s = s.
Proof.
  intros H1 H2. unfold Str.strip_chars.
  rewrite (lstrip_id sp s H1), (lstrip_id sp (rev s) H2). apply rev_involutive.
Qed.

Lemma last_digit body :
  forallb Str.is_digit body = true ->
  match rev body with
  | [] => True
  | c :: _ => Str.is_space c = false /\ Str.is_c_space c = false
  end.
Proof.
  intros H. destruct (rev body) as [|c r] eqn:E; [exact I|].
  assert (Hc : In c body) by (apply in_rev; rewrite E; left; reflexivity).
  apply (proj1 (forallb_forall _ _) H), digit_facts in Hc. split; apply Hc.
Qed.

(** The decimal numeral of [n]: an optional minus sign and the numeral
    of [|n|], a non-empty run of digits that reads back as [|n|]. *)
Lemma numeral_shape n :
  exists c body,
    Str.chars (Str.of_Z n) = (if n <? 0 then ["-"%char] else []) ++ c :: body /\
    Str.chars (Str.of_Z (Z.abs n)) = c :: body /\
    forallb Str.is_digit (c :: body) = true /\
    forall cnt, exists cnt',
      Literal.more_digits 0 cnt (c :: body) = (Z.abs n, cnt', []).
Proof.
  assert (Hpos : forall p, exists c body,
    Str.chars (NilEmpty.string_of_uint (Pos.to_uint p)) = c :: body /\
    NilZero.string_of_uint (Pos.to_uint p) = NilEmpty.string_of_uint (Pos.to_uint p) /\
    forallb Str.is_digit (c :: body) = true /\
    forall cnt, exists cnt',
      Literal.more_digits 0 cnt (c :: body) = (Z.pos p, cnt', [])).
  { intros p. pose proof (DecimalPos.Unsigned.to_uint_nonnil p) as Hnn.
    pose proof (DecimalPos.Unsigned.of_to p) as Hof.
    pose proof (digits_of_uint (Pos.to_uint p)) as Hd.
    pose proof (more_digits_uint (Pos.to_uint p)) as Hm.
    rewrite Hof in Hm. cbn [Z.of_N] in Hm.
    destruct (Str.chars (NilEmpty.string_of_uint (Pos.to_uint p))) as [|c body] eqn:E.
    { exfalso. destruct (Pos.to_uint p); try discriminate E. apply Hnn. reflexivity. }
    exists c, body. split; [reflexivity|]. split; [|split; [exact Hd | exact Hm]].
    destruct (Pos.to_uint p); try reflexivity. exfalso. apply Hnn. reflexivity. }
  destruct n as [|p|p].
  - exists "0"%char, []. split; [reflexivity|]. split; [reflexivity|].
    split; [reflexivity|]. intros cnt. eexists. reflexivity.
  - destruct (Hpos p) as (c & body & E & Ez & Hd & Hm). exists c, body.
    assert (Hn : Str.chars (Str.of_Z (Z.pos p)) = c :: body).
    { unfold Str.of_Z. cbn [Z.to_int NilZero.string_of_int]. rewrite Ez. exact E. }
    split; [exact Hn|]. split; [exact Hn|]. split; [exact Hd | exact Hm].
  - destruct (Hpos p) as (c & body & E & Ez & Hd & Hm). exists c, body.
    split; [|split; [|split; [exact Hd | exact Hm]]].
    + unfold Str.of_Z. cbn [Z.to_int NilZero.string_of_int Z.ltb Z.compare app].
      rewrite Ez. cbn [Str.chars list_ascii_of_string]. f_equal. exact E.
    + change (Str.chars (NilZero.string_of_uint (Pos.to_uint p)) = c :: body).
      rewrite Ez. exact E.
Qed.

(** What [int()] and [float()] first make of the numeral of [n]: its
    sign, and its digits, which read back as [|n|] and are counted. *)
Lemma numeral_parts n :
  exists c body,
    Literal.sign (Str.strip_chars Str.is_space (Str.chars (Str.of_Z n))) =
      (n <? 0, c :: body) /\
    Literal.sign (Str.strip_chars Str.is_c_space (Str.chars (Str.of_Z n))) =
      (n <? 0, c :: body) /\
    Str.is_digit c = true /\
    Literal.digitpart 0 0 (c :: body) = Some (Z.abs n, Str.digits n, []).
Proof.
  destruct (numeral_shape n) as (c & body & E & Ea & Hd & Hm).
  destruct (Hm 0) as [cnt' Hm0]. exists c, body.
  pose proof Hd as Hd'. cbn [forallb] in Hd'. apply andb_true_iff in Hd' as [Hc Hb].
  destruct (digit_facts c Hc) as (Hsp & Hcsp & _ & Hminus & Hplus & _).
  assert (Hstrip : forall sp,
    sp "-"%char = false -> sp c = false ->
    match rev (c :: body) with [] => True | x :: _ => sp x = false end ->
    Literal.sign (Str.strip_chars sp (Str.chars (Str.of_Z n))) = (n <? 0, c :: body)).
  { intros sp Hm1 Hc1 Hl. rewrite E. destruct (n <? 0); cbn [app].
    - rewrite strip_chars_id; [reflexivity | exact Hm1 |].
      change (rev ("-"%char :: c :: body)) with (rev (c :: body) ++ ["-"%char]).
      destruct (rev (c :: body)) as [|x r] eqn:Er; [|exact Hl].
      apply (f_equal (@length ascii)) in Er. rewrite length_rev in Er. discriminate Er.
    - rewrite strip_chars_id; [| exact Hc1 | exact Hl].
      cbn [Literal.sign]. rewrite Hminus, Hplus. reflexivity. }
  pose proof (last_digit (c :: body) Hd) as Hl.
  split; [|split; [|split; [exact Hc|]]].
  - apply Hstrip; [reflexivity | exact Hsp |].
    destruct (rev (c :: body)); [exact I | apply Hl].
  - apply Hstrip; [reflexivity | exact Hcsp |].
    destruct (rev (c :: body)); [exact I | apply Hl].
  - unfold Literal.digitpart. rewrite Hc.
    pose proof (more_digits_count (c :: body) 0 0 Hd) as Hcnt.
    rewrite Hm0 in Hcnt. cbn [fst snd] in Hcnt.
    unfold Literal.more_digits in Hm0. fold Literal.more_digits in Hm0.
    rewrite Hc in Hm0. rewrite Hm0. unfold Str.digits.
    rewrite <- length_chars, Ea, Hcnt. reflexivity.
Qed.

(** [int(str(n)) == n], unless [n] has more digits than the limit
    allows. *)
Lemma to_int_of_Z n :
  Literal.to_int (Str.of_Z n) =
  if Str.digits n <=? Literal.MAX_STR_DIGITS then Some n else None.
Proof.
  destruct (numeral_parts n) as (c & body & _ & Hs & _ & Hd).
  unfold Literal.to_int. rewrite Hs, Hd.
  destruct (Str.digits n <=? Literal.MAX_STR_DIGITS); [|reflexivity].
  f_equal. destruct n; reflexivity.
Qed.

(** [float(str(n))] is [n] rounded to the nearest float. *)
Lemma to_float_of_Z n : Literal.to_float (Str.of_Z n) = Some (F64.of_Z n).
Proof.
  destruct (numeral_parts n) as (c & body & Hs & _ & Hc & Hd).
  destruct (digit_facts c Hc) as (_ & _ & Hlow & _ & _ & Hi & Hn).
  unfold Literal.to_float. rewrite Hs.
  cbn [map Str.of_chars string_of_list_ascii]. rewrite Hlow.
  assert (Hw : forall w, String.eqb (String c w) "inf" = false /\
                         String.eqb (String c w) "infinity" = false /\
                         String.eqb (String c w) "nan" = false).
  { intros w. cbn [String.eqb]. rewrite Hi, Hn. auto. }
  destruct (Hw (Str.of_chars (map Str.lower_char body))) as (-> & -> & ->).
  cbn [orb]. unfold Literal.decimal. rewrite Hd. cbn [Z.opp].
  unfold F64.of_decimal, F64.of_Z. cbn [Z.leb Z.compare Z.pow]. rewrite Z.mul_1_r.
  destruct n; reflexivity.
Qed.

(** A price given as the decimal numeral of an integer reads as the
    float nearest to it.  An identifier given as such a numeral reads as
    that integer as long as the numeral has no more digits than the
    interpreter converts, and raises [ValueError] beyond.  Within the
    limit, an integer price reads as the float nearest to it, and a
    variant with the numeral for identifier and the variant with the
    integer itself read the same. *)
Theorem numerals_read_back n :
  to_float (JStr (Str.of_Z n)) = Some (F64.of_Z n) /\
  py_int (JStr (Str.of_Z n)) =
    (if Str.digits n <=? Literal.MAX_STR_DIGITS then Ok n else Raise ValueError) /\
  (Str.digits n <= Literal.MAX_STR_DIGITS ->
   to_float (JInt n) = Some (F64.of_Z n) /\
   forall m : gmap string json,
     reading (JDict (<["id" := JStr (Str.of_Z n)]> m)) =
     reading (JDict (<["id" := JInt n]> m))).
Proof.
  assert (Hint : py_int (JStr (Str.of_Z n)) =
                 if Str.digits n <=? Literal.MAX_STR_DIGITS then Ok n else Raise ValueError).
  { cbn [py_int]. rewrite to_int_of_Z.
    destruct (Str.digits n <=? Literal.MAX_STR_DIGITS); reflexivity. }
  split; [apply to_float_of_Z|]. split; [exact Hint|].
  intros Hlim. apply Z.leb_le in Hlim. rewrite Hlim in Hint.
  split; [apply to_float_of_Z|].
  intros m. unfold reading. cbn [py_get]. unfold dict_get.
  assert (Hp : forall v : json, <["id" := v]> m !! "price" = m !! "price")
    by (intros; apply lookup_insert_ne; done).
  assert (Hc : forall v : json,
            <["id" := v]> m !! "compare_at_price" = m !! "compare_at_price")
    by (intros; apply lookup_insert_ne; done).
  assert (Hi : forall v : json, <["id" := v]> m !! "id" = Some v)
    by (intros; apply lookup_insert_eq).
  rewrite !Hp, !Hc, !Hi.
  destruct (to_float _); [|reflexivity]. destruct (to_float _); [|reflexivity].
  rewrite Hint. reflexivity.
Qed.

(** *** White space around a literal *)

Lemma chars_append a b : Str.chars (a +:+ b) = Str.chars a ++ Str.chars b.
Proof.
  unfold Str.chars. induction a as [|c a IH]; simpl; [reflexivity|]. f_equal. exact IH.
Qed.

Lemma lstrip_app sp l r :
  Str.lstrip sp (l ++ r) =
  if forallb sp l then Str.lstrip sp r else Str.lstrip sp l ++ r.
Proof.
  induction l as [|c l IH]; cbn [app forallb Str.lstrip]; [reflexivity|].
  destruct (sp c); cbn [andb]; [exact IH | reflexivity].
Qed.

Lemma lstrip_spaces sp ws : forallb sp ws = true -> Str.lstrip sp ws = [].
Proof.
  induction ws as [|c ws IH]; cbn [forallb Str.lstrip]; [reflexivity|].
  intros H. apply andb_true_iff in H as [-> H]. auto.
Qed.

Lemma forallb_rev {A} (f : A -> bool) l : forallb f (rev l) = forallb f l.
Proof.
  induction l as [|x l IH]; [reflexivity|].
  cbn [rev forallb]. rewrite forallb_app, IH. cbn [forallb].
  rewrite andb_true_r. apply andb_comm.
Qed.

(** Stripping drops the characters of the class at both ends. *)
Lemma strip_chars_spaces sp pre l post :
  forallb sp pre = true -> forallb sp post = true ->
  Str.strip_chars sp (pre ++ l ++ post) = Str.strip_chars sp l.
Proof.
  intros Hpre Hpost. unfold Str.strip_chars.
  rewrite (lstrip_app sp pre), Hpre, (lstrip_app sp l).
  destruct (forallb sp l) eqn:El.
  - rewrite (lstrip_spaces sp post Hpost), (lstrip_spaces sp l El). reflexivity.
  - rewrite rev_app_distr, lstrip_app, forallb_rev, Hpost. reflexivity.
Qed.

(** White space before and after a price given as a string does not
    change what is read, and neither does the white space of C around
    an identifier given as a string.  A separator character is white
    space to the first and not to the second: before a digit, the price
    still reads and the identifier raises [ValueError]. *)
Theorem literals_ignore_surrounding_space pre s post :
  (forallb Str.is_space (Str.chars pre) = true ->
   forallb Str.is_space (Str.chars post) = true ->
   to_float (JStr (pre +:+ s +:+ post)) = to_float (JStr s)) /\
  (forallb Str.is_c_space (Str.chars pre) = true ->
   forallb Str.is_c_space (Str.chars post) = true ->
   py_int (JStr (pre +:+ s +:+ post)) = py_int (JStr s)) /\
  (let separated := String (ascii_of_nat 31) "7" in
   to_float (JStr separated) = to_float (JStr "7") /\
   py_int (JStr separated) = Raise ValueError /\ py_int (JStr "7") = Ok 7).
Proof.
  split; [|split].
  - intros Hpre Hpost. cbn [to_float]. unfold Literal.to_float.
    rewrite !chars_append, strip_chars_spaces by assumption. reflexivity.
  - intros Hpre Hpost. cbn [py_int]. unfold Literal.to_int.
    rewrite !chars_append, strip_chars_spaces by assumption. reflexivity.
  - vm_compute. auto.
Qed.

(** *** Edge cases of a cycle *)

(** With at most five deals the first message lists them all, and the
    second one reports 0 further variants and carries the line that
    says there are no further deals. *)
Theorem few_deals_second_message products ds dp dv :
  collect_deals products = Ok (ds, dp, dv) -> (length ds <= 5)%nat ->
  slice 0 TOP_N (rank_deals ds) = rank_deals ds /\
  message_2 dv (slice 0 TOP_N (rank_deals ds)) (slice TOP_N (TOP_N * 2) (rank_deals ds)) =
    ("📩 Weitere Infos:" +:+ LF +:+
     "• Weitere reduzierte Varianten (nach Top " +:+ Str.of_Z (len ds) +:+ "): " +:+
     "0" +:+ LF) +:+
    LF +:+ "(Keine weiteren Deals in den nächsten Slots.)".
Proof.
  intros H Hle. apply collect_deals_select in H as [_ ->].
  pose proof (Permutation_length (rank_deals_Permutation ds)) as Hl.
  rewrite slice_top, slice_next.
  assert (Htop : firstn 5 (rank_deals ds) = rank_deals ds)
    by (apply firstn_all2; lia).
  assert (Hnext : skipn 5 (rank_deals ds) = []) by (apply skipn_all2; lia).
  rewrite Htop, Hnext. split; [reflexivity|].
  unfold message_2. cbn [firstn].
  replace (len (rank_deals ds)) with (len ds) by (unfold len; rewrite Hl; reflexivity).
  rewrite Z.sub_diag. reflexivity.
Qed.

Lemma collect_deals_nil : collect_deals (JList []) = Ok ([], 0, 0).
Proof. reflexivity. Qed.

(** A JSON document without a usable [products] field counts as a feed
    without deals: nothing is sent, and the state is saved with the flag
    off and an empty signature, also when a sale was on before. *)
Theorem feed_without_products_ends_sale w m st :
  fetched w = JDict m -> m <> ∅ ->
  truthy (dict_get m "products" (JList [])) = false ->
  loaded w = JDict st ->
  run_once w =
    (Ok tt, with_file (Stored (JDict (updated st false ""))) (after_get w)).
Proof.
  intros Hf Hne Hp Hl.
  assert (Ht : truthy (fetched w) = true).
  { rewrite Hf. cbn [truthy]. rewrite bool_decide_eq_false_2 by exact Hne. reflexivity. }
  assert (He : extracted w = Ok ([], 0, 0)).
  { unfold extracted. rewrite Hf. cbn [py_get rbind]. unfold py_or. rewrite Hp.
    apply collect_deals_nil. }
  rewrite (run_once_data w st [] 0 0 Ht He Hl).
  unfold conclude. change (0 <? len (@nil Deal)) with false.
  unfold NOTIFY_SALE_END. rewrite !andb_false_r. reflexivity.
Qed.

(** *** A delivery that fails half-way *)

(** The sale-start episode with the first message delivered and the
    second one rejected. *)
Lemma conclude_second_rejected m ds dp dv w :
  truthy (dict_get m "sale_active" (JBool false)) = false -> ds <> [] ->
  w_telegram w (w_sends w) = Delivered ->
  w_telegram w (S (w_sends w)) = Rejected ->
  conclude m ds dp dv w =
    (Raise RequestException,
     World (w_file w) (w_feed w) (w_gets w) (w_telegram w) (S (S (w_sends w)))
           (w_outbox w ++ [message_1 dp dv (slice 0 TOP_N (rank_deals ds))])
           (w_sleeps w)).
Proof.
  intros Hflag Hne H1 H2. unfold conclude. rewrite Hflag.
  destruct ds as [|d0 ds']; [contradiction|].
  change (0 <? len (d0 :: ds')) with true. cbn [negb andb].
  unfold bind, telegram_send.
  cbn [w_file w_feed w_gets w_telegram w_sends w_outbox w_sleeps].
  rewrite H1. cbn [w_file w_feed w_gets w_telegram w_sends w_outbox w_sleeps].
  rewrite H2. reflexivity.
Qed.

(** The sale-start episode with both messages delivered. *)
Lemma conclude_delivered m ds dp dv w :
  truthy (dict_get m "sale_active" (JBool false)) = false -> ds <> [] ->
  w_telegram w (w_sends w) = Delivered ->
  w_telegram w (S (w_sends w)) = Delivered ->
  conclude m ds dp dv w =
    (Ok tt,
     World (Stored (JDict (updated m true (signature_of (slice 0 TOP_N (rank_deals ds))))))
           (w_feed w) (w_gets w) (w_telegram w) (S (S (w_sends w)))
           ((w_outbox w ++ [message_1 dp dv (slice 0 TOP_N (rank_deals ds))]) ++
            [message_2 dv (slice 0 TOP_N (rank_deals ds))
                       (slice TOP_N (TOP_N * 2) (rank_deals ds))])
           (w_sleeps w)).
Proof.
  intros Hflag Hne H1 H2. unfold conclude. rewrite Hflag.
  destruct ds as [|d0 ds']; [contradiction|].
  change (0 <? len (d0 :: ds')) with true. cbn [negb andb NOTIFY_SALE_END].
  unfold bind, telegram_send, save_state, ret.
  cbn [w_file w_feed w_gets w_telegram w_sends w_outbox w_sleeps].
  rewrite H1. cbn [w_file w_feed w_gets w_telegram w_sends w_outbox w_sleeps].
  rewrite H2. reflexivity.
Qed.

(** When the first message of a sale-start episode is delivered and the
    second one is rejected, the attempt fails with the flag still off;
    after a pause of 3 seconds the next attempt fetches again and, the
    feed being the same and Telegram accepting, sends both messages: the
    first message goes out twice. *)
Theorem half_sent_episode_is_repeated w m ds dp dv :
  loaded w = JDict m ->
  truthy (dict_get m "sale_active" (JBool false)) = false ->
  truthy (fetched w) = true ->
  extracted w = Ok (ds, dp, dv) -> ds <> [] ->
  w_feed w MNSTRY_PRODUCTS_JSON (S (w_gets w)) = w_feed w MNSTRY_PRODUCTS_JSON (w_gets w) ->
  w_telegram w (w_sends w) = Delivered ->
  w_telegram w (S (w_sends w)) = Rejected ->
  w_telegram w (S (S (w_sends w))) = Delivered ->
  w_telegram w (S (S (S (w_sends w)))) = Delivered ->
  let top := slice 0 TOP_N (rank_deals ds) in
  let m1 := message_1 dp dv top in
  let m2 := message_2 dv top (slice TOP_N (TOP_N * 2) (rank_deals ds)) in
  main w =
    (Ok tt,
     World (Stored (JDict (updated m true (signature_of top))))
           (w_feed w) (S (S (w_gets w))) (w_telegram w) (S (S (S (S (w_sends w)))))
           (w_outbox w ++ [m1; m1; m2]) (w_sleeps w ++ [3])).
Proof.
  intros Hl Hflag Ht He Hne Hfeed T0 T1 T2 T3. cbv zeta.
  rewrite main_attempts.
  rewrite (run_once_data w m ds dp dv Ht He Hl).
  rewrite (conclude_second_rejected m ds dp dv (after_get w) Hflag Hne T0 T1).
  cbv beta iota.
  set (v := snd (sleep (backoff RequestException 0) _)).
  assert (Hfv : fetched v = fetched w).
  { unfold fetched, http_get_json. cbn [fst]. subst v.
    cbn [sleep snd after_get http_get_json w_feed w_gets]. rewrite Hfeed. reflexivity. }
  assert (Hlv : loaded v = JDict m) by exact Hl.
  rewrite (run_once_data v m ds dp dv);
    [| rewrite Hfv; exact Ht | rewrite (extracted_fetched w v Hfv); exact He | exact Hlv].
  rewrite (conclude_delivered m ds dp dv (after_get v) Hflag Hne T2 T3).
  subst v. cbn [after_get http_get_json sleep snd w_file w_feed w_gets w_telegram w_sends
                w_outbox w_sleeps].
  rewrite <- !app_assoc. reflexivity.
Qed.

End Runtime.

Lemma no_data_exits_quietly_witness :
  let w := Samples.steady (Stored (Samples.state_of true "1|80.00>40.00"))
                          Samples.http_503 Delivered in
  no_data (w_feed w MNSTRY_PRODUCTS_JSON (w_gets w)) /\
  w_file (snd (main Samples.repr0 w)) = w_file w /\
  w_outbox (snd (main Samples.repr0 w)) = [] /\
  w_sleeps (snd (main Samples.repr0 w)) = [].
Proof.
  split.
  - simpl. left. lia.
  - rewrite (no_data_exits_quietly Samples.repr0); [simpl; auto | simpl; left; lia].
Defined.

(** Telegram rejects the first send: with no state file and one deal in
    the feed, the cycle makes one send, delivers nothing, raises and
    writes no state. *)
Lemma rejected_send_ends_cycle :
  let w := Samples.steady Absent (Samples.json_ok (Samples.feed [Samples.shake]))
                          Rejected in
  previous_flag w = Ok false /\
  (exists d, extracted Samples.repr0 w = Ok ([d], 1, 1)) /\
  run_once Samples.repr0 w =
    (Raise RequestException, World Absent (w_feed w) 1 (w_telegram w) 1 [] []).
Proof.
  split; [reflexivity|]. split; [eexists|]; vm_compute; reflexivity.
Qed.

Lemma transition_exactness_witness :
  let w := Samples.steady Absent (Samples.json_ok (Samples.feed [Samples.shake]))
                          Delivered in
  previous_flag w = Ok false /\
  exists st m1 m2,
    run_once Samples.repr0 w =
      (Ok tt, World (Stored (JDict st)) (w_feed w) 1 (w_telegram w) 2 [m1; m2] []) /\
    st !! "sale_active" = Some (JBool true).
Proof.
  intros w. split; [reflexivity|].
  assert (He : exists x, extracted Samples.repr0 w = Ok x /\ fst (fst x) <> []).
  { eexists. split; [vm_compute; reflexivity | vm_compute; discriminate]. }
  destruct He as ([[ds dp] dv] & He & Hne).
  destruct (transition_exactness Samples.repr0 w ds dp dv) as [H _];
    [reflexivity | exact He |].
  destruct (H eq_refl Hne) as (st & Hrun & Hst).
  exists st. do 2 eexists. split; [exact Hrun | exact Hst].
Defined.

Lemma rerun_is_idempotent_witness :
  let w := Samples.steady (Stored (Samples.state_of false ""))
                          (Samples.json_ok (Samples.feed [Samples.shake])) Delivered in
  let w1 := snd (run_once Samples.repr0 w) in
  run_once Samples.repr0 w = (Ok tt, w1) /\
  w_file (snd (run_once Samples.repr0 w1)) = w_file w1 /\
  w_outbox (snd (run_once Samples.repr0 w1)) = w_outbox w1.
Proof.
  intros w w1.
  assert (H0 : run_once Samples.repr0 w = (Ok tt, w1)) by (vm_compute; reflexivity).
  split; [exact H0|].
  destruct (rerun_is_idempotent Samples.repr0 w w1 H0) as [H _];
    [reflexivity | reflexivity | reflexivity |].
  rewrite H. split; reflexivity.
Defined.

Lemma signature_never_decides_witness :
  let m1 : gmap string json :=
    <["sale_active" := JBool false]> (<["last_signature" := JStr "9|20.00>10.00"]> ∅) in
  let m2 : gmap string json :=
    <["sale_active" := JBool false]> (<["last_signature" := JStr ""]> ∅) in
  let w := Samples.steady Absent (Samples.json_ok (Samples.feed [Samples.shake]))
                          Delivered in
  delete "last_signature" m1 = delete "last_signature" m2 /\
  w_outbox (snd (run_once Samples.repr0 (with_file (Stored (JDict m1)) w))) =
  w_outbox (snd (run_once Samples.repr0 (with_file (Stored (JDict m2)) w))) /\
  w_file (snd (run_once Samples.repr0 (with_file (Stored (JDict m1)) w))) =
  w_file (snd (run_once Samples.repr0 (with_file (Stored (JDict m2)) w))).
Proof.
  intros m1 m2 w.
  assert (Hd : delete "last_signature" m1 = delete "last_signature" m2)
    by (vm_compute; reflexivity).
  split; [exact Hd|].
  destruct (signature_never_decides Samples.repr0 w m1 m2 Hd) as (_ & Ho & _ & Hf).
  split; [exact Ho|].
  apply Hf; vm_compute; reflexivity.
Defined.

Lemma extra_keys_preserved_witness :
  let m : gmap string json :=
    <["sale_active" := JBool true]> (<["muted_until" := JStr "2026-01-01"]> ∅) in
  let w := Samples.steady (Stored (JDict m))
                          (Samples.json_ok (Samples.feed [Samples.shake])) Delivered in
  exists m',
    w_file (snd (run_once Samples.repr0 w)) = Stored (JDict m') /\
    m' !! "muted_until" = Some (JStr "2026-01-01").
Proof.
  intros m w.
  destruct (extra_keys_preserved Samples.repr0 w m) as (m' & Hfile & Hk);
    [reflexivity | vm_compute; reflexivity |].
  exists m'. split; [exact Hfile|].
  rewrite Hk by done. reflexivity.
Defined.

(** A network error in the fetch step: [main] ends normally after one
    GET, without a pause and without a second attempt. *)
Lemma fetch_failure_is_not_retried :
  let w := Samples.steady Absent ConnectionFailed Delivered in
  main Samples.repr0 w =
    (Ok tt, World Absent (w_feed w) 1 (w_telegram w) 0 [] []).
Proof. vm_compute. reflexivity. Qed.

Lemma bounded_retry_witness :
  let w := Samples.steady Absent (Samples.json_ok (Samples.feed [Samples.shake]))
                          Rejected in
  fst (main Samples.repr0 w) = Raise RequestException /\
  w_sleeps (snd (main Samples.repr0 w)) = [3; 6] /\
  w_gets (snd (main Samples.repr0 w)) = 3%nat /\
  w_telegram w (w_sends w) = Rejected.
Proof.
  intros w.
  destruct bounded_retry with (py_repr := Samples.repr0) as (Hmain & _ & Hrej).
  assert (H1 : run_once Samples.repr0 w =
               (Raise RequestException, snd (run_once Samples.repr0 w)))
    by (vm_compute; reflexivity).
  pose proof (Hrej _ _ H1) as H.
  rewrite (Hmain w).
  repeat split; try (vm_compute; reflexivity).
Defined.

(** A negative price and an infinite reference price both parse, and
    the variant gives a deal; and of two discounted variants with the
    same identifier, the second gives none. *)
Lemma unchecked_prices_yield_deal :
  let v := Samples.variant (JInt 1) (JStr "-5.00") (JStr "inf") in
  let v1 := Samples.variant (JInt 1) (JStr "40.00") (JStr "80.00") in
  let v2 := Samples.variant (JInt 1) (JStr "30.00") (JStr "80.00") in
  (exists d,
     collect_deals Samples.repr0 (JList [Samples.product "Shake" "shake" [v]]) =
       Ok ([d], 1, 1) /\
     F64.ltb (price d) F64.zero = true /\ F64.is_finite (compare_at d) = false) /\
  (exists d,
     collect_deals Samples.repr0 (JList [Samples.product "Shake" "shake" [v1; v2]]) =
       Ok ([d], 1, 1) /\
     price d = F64.of_Z 40 /\
     reading v2 = Some (F64.of_Z 30, F64.of_Z 80, 1)).
Proof.
  split; eexists; (split; [vm_compute; reflexivity|]); split; vm_compute; reflexivity.
Qed.

Lemma deal_iff_discounted_witness :
  let products := JList [Samples.shake] in
  exists d,
    collect_deals Samples.repr0 products = Ok ([d], 1, 1) /\
    F64.ltb (price d) (compare_at d) = true.
Proof.
  intros products.
  assert (He : exists d, collect_deals Samples.repr0 products = Ok ([d], 1, 1))
    by (eexists; vm_compute; reflexivity).
  destruct He as [d He]. exists d. split; [exact He|].
  destruct (deal_iff_discounted Samples.repr0 products [d] 1 1 He) as (_ & Hlt & _).
  apply Hlt. apply list_elem_of_here.
Defined.

(** The identifier 7 twice.  First at its full price, then discounted:
    no deal at all.  First without a price, then discounted: the deal
    is made from the second variant. *)
Lemma repeated_identifier_without_first_deal :
  let full := Samples.variant (JInt 7) (JStr "10.00") (JStr "10.00") in
  let unpriced := Samples.variant (JInt 7) JNull (JStr "10.00") in
  let reduced := Samples.variant (JInt 7) (JStr "5.00") (JStr "10.00") in
  collect_deals Samples.repr0 (JList [Samples.product "Shake" "shake" [full; reduced]]) =
    Ok ([], 0, 0) /\
  collect_deals Samples.repr0
                (JList [Samples.product "Shake" "shake" [unpriced; reduced]]) =
    Ok ([make_deal (JStr "Shake") (MNSTRY_BASE +:+ "/products/shake")
                   (F64.of_Z 5) (F64.of_Z 10) 7], 1, 1).
Proof. split; vm_compute; reflexivity. Qed.

Lemma first_occurrence_wins_witness :
  let products := JList [Samples.shake; Samples.shake] in
  exists d,
    collect_deals Samples.repr0 products = Ok ([d], 1, 1) /\
    NoDup (map variant_id [d]).
Proof.
  intros products.
  assert (He : exists d, collect_deals Samples.repr0 products = Ok ([d], 1, 1))
    by (eexists; vm_compute; reflexivity).
  destruct He as [d He]. exists d. split; [exact He|].
  exact (proj1 (first_occurrence_wins Samples.repr0 products [d] 1 1 He)).
Defined.

(** An infinite reference price: the percentage of the second variant is
    not a number, the extracted deals come back from the ranker in the
    order of the feed, and the deal at 50 percent is listed after the
    deal at 10 percent. *)
Lemma infinite_reference_price_breaks_ranking :
  let vs := [Samples.variant (JInt 2) (JStr "90.00") (JStr "100.00");
             Samples.variant (JInt 1) (JStr "10.00") (JStr "inf");
             Samples.variant (JInt 3) (JStr "40.00") (JStr "80.00")] in
  exists b a c,
    collect_deals Samples.repr0 (JList [Samples.product "Shake" "shake" vs]) =
      Ok ([b; a; c], 1, 3) /\
    F64.is_nan (discount_pct a) = true /\
    rank_deals [b; a; c] = [b; a; c] /\
    discount_pct b = F64.of_Z 10 /\ discount_pct c = F64.of_Z 50 /\
    ranks_before c b = true.
Proof.
  do 3 eexists. split; [vm_compute; reflexivity|].
  repeat split; vm_compute; reflexivity.
Qed.

Lemma ranking_order_witness :
  let d1 := make_deal (JStr "A") MNSTRY_HOME (F64.of_Z 40) (F64.of_Z 80) 1 in
  let d2 := make_deal (JStr "B") MNSTRY_HOME (F64.of_Z 90) (F64.of_Z 100) 2 in
  forallb comparable [d2; d1] = true /\
  rank_deals [d2; d1] = [d1; d2] /\
  StronglySorted (fun a b => ranks_before b a = false) (rank_deals [d2; d1]).
Proof.
  intros d1 d2.
  assert (H : forallb comparable [d2; d1] = true) by (vm_compute; reflexivity).
  split; [exact H|]. split; [vm_compute; reflexivity|].
  exact (proj1 (proj2 (proj2 (ranking_order [d2; d1] H)))).
Defined.

Lemma deals_are_first_discounted_readings_witness :
  let products := JList [Samples.shake] in
  let es := entries Samples.repr0 products in
  exists ds,
    collect_deals Samples.repr0 products = Ok (ds, 1, 1) /\
    ds = omap (entry_deal ∅ es) (seq 0 (length es)) /\
    length ds = 1%nat.
Proof.
  intros products es.
  assert (He : exists ds, collect_deals Samples.repr0 products = Ok (ds, 1, 1) /\
                          length ds = 1%nat)
    by (eexists; split; vm_compute; reflexivity).
  destruct He as (ds & He & Hlen). exists ds. split; [exact He|].
  split; [|exact Hlen].
  exact (proj1 (deals_are_first_discounted_readings Samples.repr0 products ds 1 1 He)).
Defined.

Lemma deal_identifiers_are_unique_witness :
  let products := JList [Samples.shake; Samples.shake] in
  exists ds,
    collect_deals Samples.repr0 products = Ok (ds, 1, 1) /\ NoDup (map variant_id ds).
Proof.
  intros products.
  assert (He : exists ds, collect_deals Samples.repr0 products = Ok (ds, 1, 1))
    by (eexists; vm_compute; reflexivity).
  destruct He as [ds He]. exists ds. split; [exact He|].
  exact (deal_identifiers_are_unique Samples.repr0 products ds 1 1 He).
Defined.

Lemma deals_carry_their_discount_witness :
  let products := JList [Samples.shake] in
  exists d,
    collect_deals Samples.repr0 products = Ok ([d], 1, 1) /\
    F64.ltb (price d) (compare_at d) = true /\
    discount_abs d = F64.sub (compare_at d) (price d) /\
    truthy (title d) = true.
Proof.
  intros products.
  assert (He : exists d, collect_deals Samples.repr0 products = Ok ([d], 1, 1))
    by (eexists; vm_compute; reflexivity).
  destruct He as [d He]. exists d. split; [exact He|].
  destruct (deals_carry_their_discount Samples.repr0 products [d] 1 1 d He)
    as (Hlt & _ & _ & _ & Habs & Ht & _); [constructor|].
  split; [exact Hlt|]. split; [exact Habs | exact Ht].
Defined.

Lemma discount_counters_witness :
  let ps := [Samples.shake; Samples.shake] in
  exists ds dp dv,
    collect_deals Samples.repr0 (JList ps) = Ok (ds, dp, dv) /\
    dv = len ds /\ 0 <= dp <= dv /\ dp <= len ps /\ (dp = 0 <-> ds = []).
Proof.
  intros ps.
  assert (He : exists ds, collect_deals Samples.repr0 (JList ps) = Ok (ds, 1, 1))
    by (eexists; vm_compute; reflexivity).
  destruct He as [ds He]. exists ds, 1, 1. split; [exact He|].
  exact (discount_counters Samples.repr0 ps ds 1 1 He).
Defined.

Lemma unpriced_variant_is_skipped_witness :
  let m : gmap string json :=
    <["id" := JList []]> (<["price" := JStr "n/a"]> (<["compare_at_price" := JStr "80.00"]> ∅)) in
  let st := (Scan [] ∅ 0 0, false) in
  to_float (dict_get m "price" JNull) = None /\
  scan_variant (JStr "Shake") MNSTRY_HOME st (JDict m) = Ok st.
Proof.
  intros m st.
  assert (H : to_float (dict_get m "price" JNull) = None) by (vm_compute; reflexivity).
  split; [exact H|].
  apply unpriced_variant_is_skipped. left. exact H.
Defined.

Lemma undiscounted_variant_shadows_witness :
  let v := Samples.variant (JInt 7) (JStr "10.00") (JStr "10.00") in
  let v' := Samples.variant (JInt 7) (JStr "5.00") (JStr "10.00") in
  let sc := Scan [] ∅ 0 0 in
  exists sc',
    scan_variant (JStr "Shake") MNSTRY_HOME (sc, false) v = Ok (sc', false) /\
    deals sc' = [] /\
    scan_variant (JStr "Shake") MNSTRY_HOME (sc', false) v' = Ok (sc', false).
Proof.
  intros v v' sc.
  assert (Hr : exists p c, reading v = Some (p, c, 7) /\ F64.ltb p c = false).
  { do 2 eexists. split; vm_compute; reflexivity. }
  destruct Hr as (p & c & Hr & Hlt).
  assert (Hr' : exists p' c', reading v' = Some (p', c', 7)).
  { do 2 eexists. vm_compute. reflexivity. }
  destruct Hr' as (p' & c' & Hr').
  destruct (undiscounted_variant_shadows (JStr "Shake") MNSTRY_HOME sc false v p c 7 Hr)
    as (sc' & Hs & Hd & _ & Hnext); [apply not_elem_of_empty | exact Hlt |].
  exists sc'. split; [exact Hs|]. split; [exact Hd|].
  exact (Hnext _ _ _ _ _ _ Hr').
Defined.

Lemma failed_cycle_keeps_state_file_witness :
  let w := Samples.steady (Stored (Samples.state_of false "old"))
                          (Samples.json_ok (Samples.feed [Samples.shake])) Rejected in
  fst (run_once Samples.repr0 w) = Raise RequestException /\
  w_file (snd (run_once Samples.repr0 w)) = w_file w.
Proof.
  intros w.
  assert (H : run_once Samples.repr0 w =
              (Raise RequestException, snd (run_once Samples.repr0 w)))
    by (vm_compute; reflexivity).
  split; [rewrite H; reflexivity|].
  apply (failed_cycle_keeps_state_file Samples.repr0 w _ _ H). discriminate.
Defined.

Lemma active_sale_is_silent_witness :
  let w := Samples.steady (Stored (Samples.state_of true ""))
                          (Samples.json_ok (Samples.feed [Samples.shake])) Delivered in
  previous_flag w = Ok true /\
  w_sends (snd (run_once Samples.repr0 w)) = 0%nat /\
  w_outbox (snd (run_once Samples.repr0 w)) = [].
Proof.
  intros w.
  assert (H : previous_flag w = Ok true) by (vm_compute; reflexivity).
  split; [exact H|].
  destruct (active_sale_is_silent Samples.repr0 w H) as (Hs & Ho & _).
  split; [exact Hs | exact Ho].
Defined.

Lemma cycle_failures_witness :
  let w := Samples.steady Absent (Samples.json_ok (Samples.feed [Samples.shake]))
                          Rejected in
  fst (run_once Samples.repr0 w) = Raise RequestException /\
  previous_flag w = Ok false /\
  w_outbox (snd (run_once Samples.repr0 w)) = [].
Proof.
  intros w.
  assert (H : run_once Samples.repr0 w =
              (Raise RequestException, snd (run_once Samples.repr0 w)))
    by (vm_compute; reflexivity).
  split; [rewrite H; reflexivity|].
  destruct (cycle_failures Samples.repr0 w _ _ H) as [Hsend _].
  destruct Hsend as (Hp & ds & dp & dv & _ & _ & Hs); [left; reflexivity|].
  split; [exact Hp|].
  destruct Hs as [[_ Ho] | (Hdel & _)]; [exact Ho | discriminate Hdel].
Defined.

Lemma load_state_fills_defaults_witness :
  let m : gmap string json := <["muted_until" := JStr "2026-01-01"]> ∅ in
  let w := Samples.steady (Stored (JDict m)) Samples.http_503 Delivered in
  exists m',
    load_state w = (Ok (JDict m'), w) /\
    m' !! "muted_until" = Some (JStr "2026-01-01") /\
    m' !! "sale_active" = Some (JBool false) /\
    m' !! "last_signature" = Some (JStr "").
Proof.
  intros m w.
  destruct (load_state_fills_defaults w m) as (m' & Hl & Hsub & _ & Ha & Hs);
    [reflexivity|].
  exists m'. split; [exact Hl|]. split; [|split; [exact Ha | exact Hs]].
  eapply lookup_weaken; [|exact Hsub]. vm_compute. reflexivity.
Defined.

Lemma saved_state_loads_back_witness :
  let m : gmap string json :=
    <["sale_active" := JBool true]> (<["last_signature" := JStr "1|80.00>40.00"]> ∅) in
  let w := Samples.steady Absent Samples.http_503 Delivered in
  load_state (snd (save_state (JDict m) w)) = (Ok (JDict m), snd (save_state (JDict m) w)).
Proof.
  intros m w. apply saved_state_loads_back; eexists; vm_compute; reflexivity.
Defined.

Lemma non_dict_state_stops_cycle_witness :
  let st := JList [JStr "sale_active"; JStr "last_signature"] in
  let w := Samples.steady (Stored st) (Samples.json_ok (Samples.feed [Samples.shake]))
                          Delivered in
  run_once Samples.repr0 w = (Raise AttributeError, after_get w).
Proof.
  intros st w.
  assert (He : exists ds, extracted Samples.repr0 w = Ok (ds, 1, 1))
    by (eexists; vm_compute; reflexivity).
  destruct He as [ds He].
  apply (non_dict_state_stops_cycle Samples.repr0 w st ds 1 1);
    [reflexivity | simpl; auto | vm_compute; reflexivity | exact He].
Defined.

Lemma ranking_is_sorted_witness :
  let d1 := make_deal (JStr "A") MNSTRY_HOME (F64.of_Z 40) (F64.of_Z 80) 1 in
  let d2 := make_deal (JStr "B") MNSTRY_HOME (F64.of_Z 90) (F64.of_Z 100) 2 in
  rank_deals [d2; d1] = [d1; d2] /\
  forall d, In d [d2; d1] -> d = d1 \/ ranks_before d d1 = false.
Proof.
  intros d1 d2.
  assert (E : rank_deals [d2; d1] = [d1; d2]) by (vm_compute; reflexivity).
  split; [exact E|].
  assert (H : forallb comparable [d2; d1] = true) by (vm_compute; reflexivity).
  destruct (ranking_is_sorted [d2; d1] H) as [_ Hbest].
  intros d. exact (Hbest d1 [d2] d E).
Defined.

Lemma ranking_is_stable_witness :
  let d1 := make_deal (JStr "A") MNSTRY_HOME (F64.of_Z 40) (F64.of_Z 80) 1 in
  let d1' := make_deal (JStr "A, again") MNSTRY_HOME (F64.of_Z 40) (F64.of_Z 80) 1 in
  let d2 := make_deal (JStr "B") MNSTRY_HOME (F64.of_Z 90) (F64.of_Z 100) 2 in
  List.filter (fun d => ties_with d d1) (rank_deals [d2; d1; d1']) = [d1; d1'].
Proof.
  intros d1 d1' d2.
  rewrite (ranking_is_stable d1 [d2; d1; d1']); vm_compute; reflexivity.
Defined.

Lemma ranking_is_idempotent_witness :
  let d1 := make_deal (JStr "A") MNSTRY_HOME (F64.of_Z 40) (F64.of_Z 80) 1 in
  let d2 := make_deal (JStr "B") MNSTRY_HOME (F64.of_Z 90) (F64.of_Z 100) 2 in
  rank_deals (rank_deals [d2; d1]) = rank_deals [d2; d1].
Proof.
  intros d1 d2. apply ranking_is_idempotent. vm_compute. reflexivity.
Defined.

Lemma ranking_ignores_input_order_witness :
  let d1 := make_deal (JStr "A") MNSTRY_HOME (F64.of_Z 40) (F64.of_Z 80) 1 in
  let d2 := make_deal (JStr "B") MNSTRY_HOME (F64.of_Z 90) (F64.of_Z 100) 2 in
  rank_deals [d2; d1] = rank_deals [d1; d2].
Proof.
  intros d1 d2. apply ranking_ignores_input_order.
  - vm_compute. reflexivity.
  - vm_compute. repeat constructor; set_solver.
  - apply perm_swap.
Defined.

Lemma messages_list_first_ten_witness :
  let products := JList [Samples.shake; Samples.shake] in
  exists ds,
    collect_deals Samples.repr0 products = Ok (ds, 1, 1) /\
    length (slice 0 TOP_N (rank_deals ds)) = Nat.min 5 (length ds) /\
    NoDup (map variant_id
             (slice 0 TOP_N (rank_deals ds) ++ slice TOP_N (TOP_N * 2) (rank_deals ds))).
Proof.
  intros products.
  assert (He : exists ds, collect_deals Samples.repr0 products = Ok (ds, 1, 1))
    by (eexists; vm_compute; reflexivity).
  destruct He as [ds He]. exists ds. split; [exact He|].
  destruct (messages_list_first_ten Samples.repr0 products ds 1 1 He)
    as (_ & Hl & _ & Hnd & _).
  split; [exact Hl | exact Hnd].
Defined.

Lemma completed_cycle_records_witness :
  let w := Samples.steady (Stored (Samples.state_of false ""))
                          (Samples.json_ok (Samples.feed [Samples.shake])) Delivered in
  exists m ds,
    loaded w = JDict m /\
    w_file (snd (run_once Samples.repr0 w)) =
      Stored (JDict (<["last_signature" :=
                         JStr (signature_of (slice 0 TOP_N (rank_deals ds)))]>
                       (<["sale_active" := JBool (0 <? len ds)]> m))).
Proof.
  intros w.
  assert (H : run_once Samples.repr0 w = (Ok tt, snd (run_once Samples.repr0 w)))
    by (vm_compute; reflexivity).
  destruct (completed_cycle_records Samples.repr0 w _ H)
    as (m & ds & dp & dv & Hl & _ & Hf & _); [vm_compute; reflexivity|].
  exists m, ds. split; [exact Hl | exact Hf].
Defined.

Lemma extracted_deal_is_comparable_witness :
  let products := JList [Samples.shake] in
  exists d,
    collect_deals Samples.repr0 products = Ok ([d], 1, 1) /\
    comparable d = F64.is_finite (compare_at d).
Proof.
  intros products.
  assert (He : exists d, collect_deals Samples.repr0 products = Ok ([d], 1, 1))
    by (eexists; vm_compute; reflexivity).
  destruct He as [d He]. exists d. split; [exact He|].
  destruct (extracted_deal_is_comparable Samples.repr0 products [d] 1 1 d He) as [H _];
    [left; reflexivity | exact H].
Defined.

Lemma extracted_ranking_is_determined_witness :
  let bar := Samples.product "Bar" "bar"
               [Samples.variant (JInt 2) (JStr "90.00") (JStr "100.00")] in
  let products := JList [bar; Samples.shake] in
  exists ds,
    collect_deals Samples.repr0 products = Ok (ds, 2, 2) /\
    StronglySorted (fun a b => ranks_before a b = true) (rank_deals ds) /\
    rank_deals (rev ds) = rank_deals ds.
Proof.
  intros bar products.
  assert (He : exists ds,
            collect_deals Samples.repr0 products = Ok (ds, 2, 2) /\
            forallb (fun d => F64.is_finite (compare_at d)) ds = true)
    by (eexists; split; vm_compute; reflexivity).
  destruct He as (ds & He & Hfin). exists ds. split; [exact He|].
  destruct (extracted_ranking_is_determined Samples.repr0 products ds 2 2 He Hfin)
    as [Hs Hord].
  split; [exact Hs|]. apply Hord, Permutation_rev.
Defined.

Lemma numerals_read_back_witness :
  Str.digits 7 <= Literal.MAX_STR_DIGITS /\
  to_float (JInt 7) = Some (F64.of_Z 7) /\ py_int (JStr "7") = Ok 7.
Proof.
  destruct (numerals_read_back 7) as (_ & Hi & H).
  assert (Hlim : Str.digits 7 <= Literal.MAX_STR_DIGITS) by (vm_compute; discriminate).
  destruct (H Hlim) as [Hf _].
  split; [exact Hlim|]. split; [exact Hf | exact Hi].
Defined.

Lemma literals_ignore_surrounding_space_witness :
  to_float (JStr (" " +:+ "40.00" +:+ "  ")) = to_float (JStr "40.00") /\
  py_int (JStr (" " +:+ "7" +:+ "  ")) = Ok 7.
Proof.
  destruct (literals_ignore_surrounding_space " " "40.00" "  ") as [Hf _].
  destruct (literals_ignore_surrounding_space " " "7" "  ") as (_ & Hi & _).
  split; [apply Hf; reflexivity | rewrite Hi; reflexivity].
Defined.

Lemma few_deals_second_message_witness :
  let products := JList [Samples.shake] in
  exists ds,
    collect_deals Samples.repr0 products = Ok (ds, 1, 1) /\
    slice 0 TOP_N (rank_deals ds) = rank_deals ds.
Proof.
  intros products.
  assert (He : exists ds,
            collect_deals Samples.repr0 products = Ok (ds, 1, 1) /\
            (length ds <= 5)%nat).
  { eexists. split; [vm_compute; reflexivity | cbn [length]; lia]. }
  destruct He as (ds & He & Hle). exists ds. split; [exact He|].
  destruct (few_deals_second_message Samples.repr0 products ds 1 1 He Hle) as [H _].
  exact H.
Defined.

Lemma feed_without_products_ends_sale_witness :
  let m : gmap string json := <["errors" := JStr "Not Found"]> ∅ in
  let w := Samples.steady (Stored (Samples.state_of true "1|80.00>40.00"))
                          (Samples.json_ok (JDict m)) Delivered in
  exists st,
    run_once Samples.repr0 w =
      (Ok tt, with_file (Stored (JDict (updated st false ""))) (after_get w)) /\
    updated st false "" !! "sale_active" = Some (JBool false).
Proof.
  intros m w.
  assert (Hl : exists st, loaded w = JDict st) by (eexists; vm_compute; reflexivity).
  destruct Hl as [st Hl]. exists st. split.
  - apply (feed_without_products_ends_sale Samples.repr0 w m st);
      [reflexivity | | vm_compute; reflexivity | exact Hl].
    intros E. apply (f_equal (fun x : gmap string json => x !! "errors")) in E.
    vm_compute in E. discriminate E.
  - apply updated_sale_active.
Defined.

Lemma half_sent_episode_is_repeated_witness :
  let w := World Absent (fun _ _ => Samples.json_ok (Samples.feed [Samples.shake])) 0
                 (fun n => match n with 1%nat => Rejected | _ => Delivered end) 0 [] [] in
  exists m1 m2,
    fst (main Samples.repr0 w) = Ok tt /\
    w_outbox (snd (main Samples.repr0 w)) = [m1; m1; m2] /\
    w_sleeps (snd (main Samples.repr0 w)) = [3].
Proof.
  intros w.
  assert (Hl : exists m, loaded w = JDict m /\
                         truthy (dict_get m "sale_active" (JBool false)) = false)
    by (eexists; split; vm_compute; reflexivity).
  destruct Hl as (m & Hl & Hflag).
  assert (He : exists ds, extracted Samples.repr0 w = Ok (ds, 1, 1) /\ ds <> [])
    by (eexists; split; [vm_compute; reflexivity | discriminate]).
  destruct He as (ds & He & Hne).
  pose proof (half_sent_episode_is_repeated Samples.repr0 w m ds 1 1 Hl Hflag
                eq_refl He Hne eq_refl eq_refl eq_refl eq_refl eq_refl) as H.
  cbv zeta in H. rewrite H. do 2 eexists. repeat split; reflexivity.
Defined.
